(** * The Windows sampler thread of the Gecko profiler

    A shallow embedding of [tools/profiler/core/platform-win32.cpp]:
    [PlatformData], [SamplerThread] (constructor, [Stop], [Run],
    [SampleContext]) and [TickSample::PopulateContext].

    The Win32 API, the profiler state [gPS] and the profile buffer are not
    part of that file.  They are gathered in a [Platform] interface; every
    call the code makes through it is recorded, with its result, in a trace
    of [Event]s, and the properties of the sampler are stated on traces. *)

From Stdlib Require Import ZArith List Bool Lia.
From Stdlib Require Import Floats.SpecFloat.
Import ListNotations.
Local Open Scope Z_scope.

Set Implicit Arguments.

(** ** Win32 scalar types *)

Definition HANDLE := Z.
Definition DWORD := Z.
Definition Address := Z.

Definition nullptr : HANDLE := 0.

(** [static_cast<DWORD>(-1)]: the conversion wraps modulo 2^32. *)
Definition DWORD_of_int (i : Z) : DWORD := i mod 2 ^ 32.
Definition kSuspendFailed : DWORD := DWORD_of_int (-1).

(** ** Build configuration

    [defined(GP_ARCH_amd64)] and [defined(GP_ARCH_x86)], as seen by the
    preprocessor. *)
Record BuildConfig := {
  GP_ARCH_amd64 : bool;
  GP_ARCH_x86 : bool
}.

(** Modelled from the spec: the declaration of [CONTEXT] (<windows.h>) is
    not in the file.  It is the register-context blob of the specification,
    from which the instruction, stack and frame pointers are read; the fields
    are those the source names: [ContextFlags], [Rip], [Rsp], [Rbp] on amd64
    and [Eip], [Esp], [Ebp] on x86.  The record carries both families so that
    each preprocessor branch of the source can be written down. *)
Record CONTEXT := {
  ContextFlags : DWORD;
  Rip : Z; Rsp : Z; Rbp : Z;
  Eip : Z; Esp : Z; Ebp : Z
}.

Definition set_ContextFlags (f : DWORD) (c : CONTEXT) : CONTEXT :=
  {| ContextFlags := f;
     Rip := Rip c; Rsp := Rsp c; Rbp := Rbp c;
     Eip := Eip c; Esp := Esp c; Ebp := Ebp c |}.

(** [memset(&context, 0, sizeof(context))] *)
Definition CONTEXT_zero : CONTEXT :=
  {| ContextFlags := 0; Rip := 0; Rsp := 0; Rbp := 0;
     Eip := 0; Esp := 0; Ebp := 0 |}.

(** ** PlatformData and ThreadInfo *)

Record PlatformData := {
  profiled_thread_ : HANDLE
}.

Definition profiled_thread (d : PlatformData) : HANDLE := profiled_thread_ d.

Definition GetThreadHandle (aData : PlatformData) : Z := profiled_thread aData.

(** Modelled from the spec: the declaration of [ThreadInfo] is not in the
    file.  Of the per-thread record of the specification, the fields are the
    accessors the sampler calls: the identifier, the profiling-enabled flag,
    the pending-deletion flag and the handle owner. *)
Record ThreadInfo := {
  ThreadId : Z;
  HasProfile : bool;
  IsPendingDelete : bool;
  GetPlatformData : PlatformData
}.

(** ** TickSample

    Modelled from the spec: the declaration of [TickSample] is not in the
    file.  The fields are those of the sample of the specification that the
    file assigns: timestamp, originating thread, resident and unique set
    sizes, instruction, stack and frame pointers, register-context blob. *)

Record TickSample := {
  timestamp : Z;
  threadInfo : option ThreadInfo;
  rssMemory : Z;
  ussMemory : Z;
  pc : Address;
  sp : Address;
  fp : Address;
  context : option CONTEXT
}.

Definition set_timestamp (t : Z) (s : TickSample) : TickSample :=
  {| timestamp := t; threadInfo := threadInfo s; rssMemory := rssMemory s;
     ussMemory := ussMemory s; pc := pc s; sp := sp s; fp := fp s;
     context := context s |}.
Definition set_threadInfo (i : ThreadInfo) (s : TickSample) : TickSample :=
  {| timestamp := timestamp s; threadInfo := Some i; rssMemory := rssMemory s;
     ussMemory := ussMemory s; pc := pc s; sp := sp s; fp := fp s;
     context := context s |}.
Definition set_rssMemory (m : Z) (s : TickSample) : TickSample :=
  {| timestamp := timestamp s; threadInfo := threadInfo s; rssMemory := m;
     ussMemory := ussMemory s; pc := pc s; sp := sp s; fp := fp s;
     context := context s |}.
Definition set_ussMemory (m : Z) (s : TickSample) : TickSample :=
  {| timestamp := timestamp s; threadInfo := threadInfo s;
     rssMemory := rssMemory s; ussMemory := m; pc := pc s; sp := sp s;
     fp := fp s; context := context s |}.
Definition set_pc (a : Address) (s : TickSample) : TickSample :=
  {| timestamp := timestamp s; threadInfo := threadInfo s;
     rssMemory := rssMemory s; ussMemory := ussMemory s; pc := a; sp := sp s;
     fp := fp s; context := context s |}.
Definition set_sp (a : Address) (s : TickSample) : TickSample :=
  {| timestamp := timestamp s; threadInfo := threadInfo s;
     rssMemory := rssMemory s; ussMemory := ussMemory s; pc := pc s; sp := a;
     fp := fp s; context := context s |}.
Definition set_fp (a : Address) (s : TickSample) : TickSample :=
  {| timestamp := timestamp s; threadInfo := threadInfo s;
     rssMemory := rssMemory s; ussMemory := ussMemory s; pc := pc s;
     sp := sp s; fp := a; context := context s |}.
Definition set_context (c : CONTEXT) (s : TickSample) : TickSample :=
  {| timestamp := timestamp s; threadInfo := threadInfo s;
     rssMemory := rssMemory s; ussMemory := ussMemory s; pc := pc s;
     sp := sp s; fp := fp s; context := Some c |}.

(** ** The profiler state guarded by [gPSMutex]

    Modelled from the spec: the declaration of [PS] is not in the file.  The
    fields are the parts of the shared profiler state the sampler reads: the
    activity generation, the pause flag, the registered threads in their
    order, the start time and the memory feature.  Only the lock holder reads
    or writes that state, so the code that runs under one [PS::AutoLock] sees
    one value of it; a [LockRef] stands for that value. *)
Record PS := {
  ActivityGeneration : Z;
  IsPaused : bool;
  Threads : list ThreadInfo;
  StartTime : Z;
  FeatureMemory : bool
}.

Definition LockRef := PS.

(** ** Calls that leave the file, and their trace *)

Inductive Event :=
| EvOpenThread (aThreadId : Z) (h : HANDLE)
| EvTimeBeginPeriod (ms : Z)
| EvTimeEndPeriod (ms : Z)
| EvBeginThreadEx (h : HANDLE)
| EvLock
| EvUnlock
| EvDeleteExpiredStoredMarkers
| EvCanDuplicateLastSampleDueToSleep (info : ThreadInfo) (r : bool)
| EvDuplicateLastSample (tid : Z) (start : Z) (r : bool)
| EvUpdateThreadResponsiveness (info : ThreadInfo)
| EvNow (t : Z)
| EvResidentFast (r : Z)
| EvSuspendThread (h : HANDLE) (r : DWORD)
| EvGetThreadContext (h : HANDLE) (flags : DWORD) (ok : bool)
| EvResumeThread (h : HANDLE)
| EvTick (s : TickSample)
| EvRtlCaptureContext
| EvSleep (ms : Z).

(** What the file calls but does not define.  [World] is the state of
    everything outside the sampler: the operating system, the other threads,
    the buffer. *)
Record Platform (World : Type) := {
  CONTEXT_FULL : DWORD;
  CONTEXT_CONTROL : DWORD;
  (* TickSample sample; *)
  TickSample_new : TickSample;
  OpenThread : Z -> World -> HANDLE * World;
  timeBeginPeriod : Z -> World -> World;
  timeEndPeriod : Z -> World -> World;
  _beginthreadex : World -> HANDLE * World;
  Sleep : Z -> World -> World;
  SuspendThread : HANDLE -> World -> DWORD * World;
  GetThreadContext : HANDLE -> CONTEXT -> World -> (bool * CONTEXT) * World;
  ResumeThread : HANDLE -> World -> World;
  RtlCaptureContext : CONTEXT -> World -> CONTEXT * World;
  TimeStamp_Now : World -> Z * World;
  ResidentFast : World -> Z * World;
  (* PS::AutoLock lock(gPSMutex), its release, and the state it guards *)
  AutoLock : World -> World;
  AutoUnlock : World -> World;
  gPS : World -> PS;
  (* ProfileBuffer *)
  deleteExpiredStoredMarkers : World -> World;
  DuplicateLastSample : Z -> Z -> World -> bool * World;
  (* ThreadInfo *)
  CanDuplicateLastSampleDueToSleep : ThreadInfo -> World -> bool * World;
  UpdateThreadResponsiveness : ThreadInfo -> World -> World;
  (* the shared recording entry point *)
  Tick : LockRef -> TickSample -> World -> World
}.

(** ** A monad of traced calls *)

Section Monad.
Variable World : Type.

Definition M (A : Type) : Type := World -> A * list Event * World.

Definition ret {A} (a : A) : M A := fun w => (a, [], w).

Definition bind {A B} (m : M A) (f : A -> M B) : M B :=
  fun w =>
    let '(a, e1, w1) := m w in
    let '(b, e2, w2) := f a w1 in
    (b, e1 ++ e2, w2).

(** A call that returns a value. *)
Definition call {A} (f : World -> A * World) (ev : A -> Event) : M A :=
  fun w => let '(a, w') := f w in (a, [ev a], w').

(** A call whose result is ignored. *)
Definition call_ (f : World -> World) (ev : Event) : M unit :=
  fun w => (tt, [ev], f w).

(** Reading the world leaves no trace. *)
Definition read {A} (f : World -> A) : M A := fun w => (f w, [], w).

Definition value {A} (r : A * list Event * World) : A := fst (fst r).
Definition events {A} (r : A * list Event * World) : list Event :=
  snd (fst r).
Definition final {A} (r : A * list Event * World) : World := snd r.
End Monad.

Arguments ret {World A} a.
Arguments bind {World A B} m f.
Arguments call {World A} f ev.
Arguments call_ {World} f ev.
Arguments read {World A} f.
Arguments value {World A} r.
Arguments events {World A} r.
Arguments final {World A} r.

Declare Scope sampler_scope.
Delimit Scope sampler_scope with sampler.
Notation "x <- m ;; k" := (bind m (fun x => k))
  (at level 61, m at next level, right associativity) : sampler_scope.
Notation "m ;; k" := (bind m (fun _ => k))
  (at level 61, right associativity) : sampler_scope.
Local Open Scope sampler_scope.

(** ** The sampling interval: [double] to [int]

    [aInterval] is an IEEE 754 binary64 value; [spec_float] with precision 53
    and maximal exponent 1024 is its specification. *)

Definition double := spec_float.

Definition double_add : double -> double -> double := SFadd 53 1024.

(** The literal [0.5]. *)
Definition double_half : double := S754_finite false 4503599627370496 (-53).

(** [floor] of <cmath>: the largest integral value not above its argument;
    zeros, infinities and NaN are returned as they are. *)
Definition floor (x : double) : double :=
  match x with
  | S754_finite s m e =>
      if 0 <=? e then x
      else
        match Z.shiftr (cond_Zopp s (Zpos m)) (- e) with
        | 0 => S754_zero s
        | n => binary_normalize 53 1024 n 0 false
        end
  | _ => x
  end.

Definition INT_MIN : Z := - 2 ^ 31.
Definition INT_MAX : Z := 2 ^ 31 - 1.

(** [int(x)]: the fractional part is discarded; the conversion is undefined
    ([None]) when the truncated value does not fit [int]. *)
Definition double_to_int (x : double) : option Z :=
  match x with
  | S754_zero _ => Some 0
  | S754_finite s m e =>
      let t := cond_Zopp s (if 0 <=? e then Zpos m * 2 ^ e
                            else Zpos m / 2 ^ (- e)) in
      if (INT_MIN <=? t) && (t <=? INT_MAX) then Some t else None
  | _ => None
  end.

(** [std::max(1, int(floor(aInterval + 0.5)))] *)
Definition round_interval (aInterval : double) : option Z :=
  option_map (Z.max 1)
    (double_to_int (floor (double_add aInterval double_half))).

Definition is_finite (x : double) : bool :=
  match x with
  | S754_zero _ | S754_finite _ _ _ => true
  | _ => false
  end.

(** [floor (x + 1/2)] in exact arithmetic: [x] rounded to the nearest
    integer, a tie going up. *)
Definition round_half_up (x : double) : Z :=
  match x with
  | S754_finite s m e =>
      if 0 <=? e then cond_Zopp s (Zpos m) * 2 ^ e
      else (2 * cond_Zopp s (Zpos m) + 2 ^ (- e)) / (2 * 2 ^ (- e))
  | _ => 0
  end.

(** [n] is an integer nearest to [x]: [|x - n| <= 1/2]. *)
Definition nearest_integer (x : double) (n : Z) : Prop :=
  match x with
  | S754_zero _ => n = 0
  | S754_finite s m e =>
      if 0 <=? e then n = cond_Zopp s (Zpos m) * 2 ^ e
      else 2 * Z.abs (cond_Zopp s (Zpos m) - n * 2 ^ (- e)) <= 2 ^ (- e)
  | _ => False
  end.

(** A shift record with no bit lost so far. *)
Definition exact_record (m : Z) : shr_record :=
  {| shr_m := m; shr_r := false; shr_s := false |}.

(** The literal [1099511627776.0], that is [2^40]. *)
Definition double_2_40 : double := S754_finite false 4503599627370496 (-12).

(** The claim on the stored interval, as the specification words it: the
    stored interval is the nearest integer to the argument, clamped so that
    it is not below 1. *)
Definition stores_nearest_clamped (aInterval : double) : Prop :=
  exists n,
    nearest_integer aInterval n /\
    round_interval aInterval = Some (Z.max 1 n).

(** ** SamplerThread *)

Record SamplerThread := {
  mActivityGeneration : Z;
  mThread : HANDLE;
  mInterval : Z
}.

Inductive Constructed :=
| Built (t : SamplerThread)
| Crashed                 (* MOZ_CRASH("_beginthreadex failed") *)
| UndefinedConversion.    (* int(...) of a value outside int *)

Inductive RunStatus :=
| Returned      (* Run() has returned *)
| Running.      (* the loop is still going when the fuel ends *)

Section Sampler.
Context {World : Type}.
Variable P : Platform World.
Variable cfg : BuildConfig.

(** [PlatformData::PlatformData]: the handle is what [OpenThread] returns,
    null when it fails. *)
Definition PlatformData_new (aThreadId : Z) : M World PlatformData :=
  h <- call (OpenThread P aThreadId) (EvOpenThread aThreadId);;
  ret {| profiled_thread_ := h |}.

Definition AllocPlatformData (aThreadId : Z) : M World PlatformData :=
  PlatformData_new aThreadId.

(** [SamplerThread::SamplerThread] *)
Definition SamplerThread_new (aLock : LockRef) (aActivityGeneration : Z)
    (aInterval : double) : M World Constructed :=
  match round_interval aInterval with
  | None => ret UndefinedConversion
  | Some interval =>
      (if interval <? 10
       then call_ (timeBeginPeriod P interval) (EvTimeBeginPeriod interval)
       else ret tt);;
      thread <- call (_beginthreadex P) EvBeginThreadEx;;
      if thread =? 0 then ret Crashed
      else ret (Built {| mActivityGeneration := aActivityGeneration;
                         mThread := thread;
                         mInterval := interval |})
  end.

(** [SamplerThread::Stop] *)
Definition Stop (self : SamplerThread) (aLock : LockRef) : M World unit :=
  if mInterval self <? 10
  then call_ (timeEndPeriod P (mInterval self))
             (EvTimeEndPeriod (mInterval self))
  else ret tt.

(** [SamplerThread::SampleContext] *)
Definition SampleContext (aLock : LockRef) (aThreadInfo : ThreadInfo)
    (isFirstProfiledThread : bool) : M World unit :=
  let thread := GetThreadHandle (GetPlatformData aThreadInfo) in
  let profiled_thread : HANDLE := thread in
  if profiled_thread =? nullptr then ret tt
  else
    let context := CONTEXT_zero in
    let sample := TickSample_new P in
    now <- call (TimeStamp_Now P) EvNow;;
    let sample := set_timestamp now sample in
    let sample := set_threadInfo aThreadInfo sample in
    rss <- (if isFirstProfiledThread && FeatureMemory aLock
            then call (ResidentFast P) EvResidentFast
            else ret 0);;
    let sample := set_rssMemory rss sample in
    let sample := set_ussMemory 0 sample in
    r <- call (SuspendThread P profiled_thread)
              (EvSuspendThread profiled_thread);;
    if r =? kSuspendFailed then ret tt
    else
      let context :=
        set_ContextFlags (if GP_ARCH_amd64 cfg then CONTEXT_FULL P
                          else CONTEXT_CONTROL P) context in
      got <- call (GetThreadContext P profiled_thread context)
                  (fun r => EvGetThreadContext profiled_thread
                              (ContextFlags context) (fst r));;
      let context := snd got in
      if negb (fst got)
      then call_ (ResumeThread P profiled_thread)
                 (EvResumeThread profiled_thread)
      else
        let sample :=
          if GP_ARCH_amd64 cfg
          then set_fp (Rbp context)
                 (set_sp (Rsp context) (set_pc (Rip context) sample))
          else set_fp (Ebp context)
                 (set_sp (Esp context) (set_pc (Eip context) sample)) in
        let sample := set_context context sample in
        call_ (Tick P aLock sample) (EvTick sample);;
        call_ (ResumeThread P profiled_thread)
              (EvResumeThread profiled_thread).

(** The body of the [for] loop of [Run] for [threads[i] = info].  The
    result is the value of [isFirstProfiledThread] after the iteration. *)
Definition SampleThread (lock : LockRef) (info : ThreadInfo)
    (isFirstProfiledThread : bool) : M World bool :=
  if negb (HasProfile info) || IsPendingDelete info
  then ret isFirstProfiledThread
  else
    skip <- (can <- call (CanDuplicateLastSampleDueToSleep P info)
                         (EvCanDuplicateLastSampleDueToSleep info);;
             if can
             then call (DuplicateLastSample P (ThreadId info)
                          (StartTime lock))
                       (EvDuplicateLastSample (ThreadId info)
                          (StartTime lock))
             else ret false);;
    if skip then ret isFirstProfiledThread
    else
      call_ (UpdateThreadResponsiveness P info)
            (EvUpdateThreadResponsiveness info);;
      SampleContext lock info isFirstProfiledThread;;
      ret false.

(** [for (uint32_t i = 0; i < threads.size(); i++)] *)
Fixpoint SampleThreads (lock : LockRef) (threads : list ThreadInfo)
    (isFirstProfiledThread : bool) : M World bool :=
  match threads with
  | [] => ret isFirstProfiledThread
  | info :: rest =>
      first <- SampleThread lock info isFirstProfiledThread;;
      SampleThreads lock rest first
  end.

(** One turn of [while (true)] up to the end of the scope of [lock].  The
    result tells whether the loop goes on ([false]: [return]). *)
Definition Pass (self : SamplerThread) : M World bool :=
  call_ (AutoLock P) EvLock;;
  lock <- read (gPS P);;
  if negb (ActivityGeneration lock =? mActivityGeneration self)
  then call_ (AutoUnlock P) EvUnlock;; ret false
  else
    call_ (deleteExpiredStoredMarkers P) EvDeleteExpiredStoredMarkers;;
    (if negb (IsPaused lock)
     then SampleThreads lock (Threads lock) true;; ret tt
     else ret tt);;
    call_ (AutoUnlock P) EvUnlock;;
    ret true.

(** [Run]; [fuel] bounds the number of turns of the loop. *)
Fixpoint Run (fuel : nat) (self : SamplerThread) : M World RunStatus :=
  match fuel with
  | O => ret Running
  | S fuel' =>
      go <- Pass self;;
      if go
      then call_ (Sleep P (mInterval self)) (EvSleep (mInterval self));;
           Run fuel' self
      else ret Returned
  end.

(** [TickSample::PopulateContext]; [aContext] is the storage the caller
    passes ([MOZ_ASSERT(aContext)]: it is not null). *)
Definition PopulateContext (this : TickSample) (aContext : CONTEXT)
    : M World TickSample :=
  pContext <- call (RtlCaptureContext P aContext)
                   (fun _ => EvRtlCaptureContext);;
  let this := set_context pContext this in
  if GP_ARCH_amd64 cfg
  then ret (set_fp (Rbp pContext)
             (set_sp (Rsp pContext) (set_pc (Rip pContext) this)))
  else if GP_ARCH_x86 cfg
  then ret (set_fp (Ebp pContext)
             (set_sp (Esp pContext) (set_pc (Eip pContext) this)))
  else ret this.

End Sampler.

(** ** Observations on traces *)

Definition is_resume (h : HANDLE) (ev : Event) : bool :=
  match ev with EvResumeThread h' => h' =? h | _ => false end.

Definition is_successful_suspend (h : HANDLE) (ev : Event) : bool :=
  match ev with
  | EvSuspendThread h' r => (h' =? h) && negb (r =? kSuspendFailed)
  | _ => false
  end.

Definition is_suspend (ev : Event) : bool :=
  match ev with EvSuspendThread _ _ => true | _ => false end.

Definition is_any_resume (ev : Event) : bool :=
  match ev with EvResumeThread _ => true | _ => false end.

Definition is_tick (ev : Event) : bool :=
  match ev with EvTick _ => true | _ => false end.

(** The calls made by the body of the loop of [Run] itself. *)
Definition is_loop_event (ev : Event) : bool :=
  match ev with
  | EvCanDuplicateLastSampleDueToSleep _ _
  | EvDuplicateLastSample _ _ _
  | EvUpdateThreadResponsiveness _ => true
  | _ => false
  end.

(** The samples handed to [Tick], in order. *)
Fixpoint ticks (evs : list Event) : list TickSample :=
  match evs with
  | [] => []
  | EvTick s :: rest => s :: ticks rest
  | _ :: rest => ticks rest
  end.

(** A sample carries the memory metric when its [rssMemory] is not zero. *)
Definition carries_memory (s : TickSample) : bool := negb (rssMemory s =? 0).

Definition eligible (info : ThreadInfo) : bool :=
  HasProfile info && negb (IsPendingDelete info).

Definition count (f : Event -> bool) (evs : list Event) : nat :=
  length (filter f evs).

(** The traces [SampleContext] can leave for a thread with handle [h]. *)
Definition memory_events (first : bool) (lock : LockRef) (rss : Z)
    : list Event :=
  if first && FeatureMemory lock then [EvResidentFast rss] else [].

Inductive SampleContext_trace (lock : LockRef) (info : ThreadInfo)
    (first : bool) : list Event -> Prop :=
| trace_no_handle :
    GetThreadHandle (GetPlatformData info) = nullptr ->
    SampleContext_trace lock info first []
| trace_suspend_failed t rss :
    GetThreadHandle (GetPlatformData info) <> nullptr ->
    SampleContext_trace lock info first
      (EvNow t :: memory_events first lock rss ++
       [EvSuspendThread (GetThreadHandle (GetPlatformData info))
          kSuspendFailed])
| trace_context_failed t rss r flags :
    GetThreadHandle (GetPlatformData info) <> nullptr ->
    r <> kSuspendFailed ->
    SampleContext_trace lock info first
      (EvNow t :: memory_events first lock rss ++
       [EvSuspendThread (GetThreadHandle (GetPlatformData info)) r;
        EvGetThreadContext (GetThreadHandle (GetPlatformData info)) flags
          false;
        EvResumeThread (GetThreadHandle (GetPlatformData info))])
| trace_sampled t rss r flags s :
    GetThreadHandle (GetPlatformData info) <> nullptr ->
    r <> kSuspendFailed ->
    timestamp s = t ->
    threadInfo s = Some info ->
    rssMemory s = (if first && FeatureMemory lock then rss else 0) ->
    SampleContext_trace lock info first
      (EvNow t :: memory_events first lock rss ++
       [EvSuspendThread (GetThreadHandle (GetPlatformData info)) r;
        EvGetThreadContext (GetThreadHandle (GetPlatformData info)) flags
          true;
        EvTick s;
        EvResumeThread (GetThreadHandle (GetPlatformData info))]).

Definition is_timeBeginPeriod (ms : Z) (ev : Event) : bool :=
  match ev with EvTimeBeginPeriod ms' => ms' =? ms | _ => false end.

Definition is_timeEndPeriod (ms : Z) (ev : Event) : bool :=
  match ev with EvTimeEndPeriod ms' => ms' =? ms | _ => false end.

Definition is_sleep (ev : Event) : bool :=
  match ev with EvSleep _ => true | _ => false end.

(** The triple a sample takes from the register context. *)
Definition registers (s : TickSample) : Address * Address * Address :=
  (pc s, sp s, fp s).

(** ** A scripted platform, for running the model on concrete inputs *)

Record Script := {
  sc_ps : PS;
  sc_stop_after : nat;          (* the generation changes during that sleep *)
  sc_open_fails : Z -> bool;
  sc_suspend_fails : HANDLE -> bool;
  sc_context_fails : HANDLE -> bool;
  sc_can_duplicate : ThreadInfo -> bool;
  sc_duplicate_ok : Z -> bool;
  sc_rss : Z;
  sc_sampler_thread : HANDLE;
  sc_context : CONTEXT
}.

(** The world of a script is the number of sleeps so far. *)
Definition scripted (sc : Script) : Platform nat :=
  {| CONTEXT_FULL := 1048587;
     CONTEXT_CONTROL := 65537;
     TickSample_new :=
       {| timestamp := 0; threadInfo := None; rssMemory := 0; ussMemory := 0;
          pc := 0; sp := 0; fp := 0; context := None |};
     OpenThread := fun tid w => (if sc_open_fails sc tid then 0 else tid, w);
     timeBeginPeriod := fun _ w => w;
     timeEndPeriod := fun _ w => w;
     _beginthreadex := fun w => (sc_sampler_thread sc, w);
     Sleep := fun _ w => S w;
     SuspendThread := fun h w =>
       (if sc_suspend_fails sc h then kSuspendFailed else 0, w);
     GetThreadContext := fun h c w =>
       (if sc_context_fails sc h then (false, c)
        else (true, set_ContextFlags (ContextFlags c) (sc_context sc)), w);
     ResumeThread := fun _ w => w;
     RtlCaptureContext := fun c w => (sc_context sc, w);
     TimeStamp_Now := fun w => (Z.of_nat w, w);
     ResidentFast := fun w => (sc_rss sc, w);
     AutoLock := fun w => w;
     AutoUnlock := fun w => w;
     gPS := fun w =>
       {| ActivityGeneration :=
            ActivityGeneration (sc_ps sc) +
            (if Nat.ltb w (sc_stop_after sc) then 0 else 1);
          IsPaused := IsPaused (sc_ps sc);
          Threads := Threads (sc_ps sc);
          StartTime := StartTime (sc_ps sc);
          FeatureMemory := FeatureMemory (sc_ps sc) |};
     deleteExpiredStoredMarkers := fun w => w;
     DuplicateLastSample := fun tid _ w => (sc_duplicate_ok sc tid, w);
     CanDuplicateLastSampleDueToSleep := fun i w => (sc_can_duplicate sc i, w);
     UpdateThreadResponsiveness := fun _ w => w;
     Tick := fun _ _ w => w |}.

Definition thread (tid : Z) (h : HANDLE) : ThreadInfo :=
  {| ThreadId := tid; HasProfile := true; IsPendingDelete := false;
     GetPlatformData := {| profiled_thread_ := h |} |}.

Definition test_context : CONTEXT :=
  {| ContextFlags := 0; Rip := 101; Rsp := 102; Rbp := 103;
     Eip := 201; Esp := 202; Ebp := 203 |}.

Definition test_ps (threads : list ThreadInfo) (mem : bool) : PS :=
  {| ActivityGeneration := 7; IsPaused := false; Threads := threads;
     StartTime := 1000; FeatureMemory := mem |}.

Definition test_script (threads : list ThreadInfo) (mem : bool) : Script :=
  {| sc_ps := test_ps threads mem;
     sc_stop_after := 2;
     sc_open_fails := fun tid => tid =? 13;
     sc_suspend_fails := fun h => h =? 66;
     sc_context_fails := fun h => h =? 77;
     sc_can_duplicate := fun i => (ThreadId i =? 5) || (ThreadId i =? 6);
     sc_duplicate_ok := fun tid => tid =? 5;
     sc_rss := 4096;
     sc_sampler_thread := 900;
     sc_context := test_context |}.

Definition amd64 : BuildConfig :=
  {| GP_ARCH_amd64 := true; GP_ARCH_x86 := false |}.
Definition x86 : BuildConfig :=
  {| GP_ARCH_amd64 := false; GP_ARCH_x86 := true |}.

Definition test_sampler : SamplerThread :=
  {| mActivityGeneration := 7; mThread := 900; mInterval := 5 |}.

(** ** Concrete runs *)

Definition threads_mixed : list ThreadInfo :=
  [thread 5 50; thread 6 60; thread 1 0; thread 2 66; thread 3 77;
   thread 4 44].

Definition threads_null_first : list ThreadInfo := [thread 1 0; thread 4 44].

Definition test_platform (threads : list ThreadInfo) (mem : bool)
    : Platform nat :=
  scripted (test_script threads mem).

(** The sample of thread 4 (handle 44) when it is not the first of a pass. *)
Definition sample_44 : TickSample :=
  {| timestamp := 0; threadInfo := Some (thread 4 44); rssMemory := 0;
     ussMemory := 0; pc := 101; sp := 102; fp := 103;
     context := Some (set_ContextFlags 1048587 test_context) |}.

(** The thread registered with id 13, for which [OpenThread] fails. *)
Definition thread_13 : ThreadInfo :=
  {| ThreadId := 13; HasProfile := true; IsPendingDelete := false;
     GetPlatformData := {| profiled_thread_ := nullptr |} |}.

(** The literal [5.0]. *)
Definition double_five : double := S754_finite false 5629499534213120 (-50).

(** ** The claim on the memory metric, as the specification words it

    In a pass with an eligible thread: with the memory feature on, exactly
    one sample carries the metric, and it is the sample of the first eligible
    thread; with the feature off, no sample carries it. *)
Definition memory_metric_on_first_eligible {World : Type}
    (P : Platform World) (cfg : BuildConfig) (lock : LockRef)
    (threads : list ThreadInfo) (w : World) : Prop :=
  let evs := events (SampleThreads P cfg lock threads true w) in
  existsb eligible threads = true ->
  (FeatureMemory lock = true ->
   exists s,
     filter carries_memory (ticks evs) = [s] /\
     threadInfo s = find eligible threads) /\
  (FeatureMemory lock = false -> filter carries_memory (ticks evs) = []).

(** The scripted platform with profiling paused. *)
Definition paused_platform : Platform nat :=
  scripted
    {| sc_ps := {| ActivityGeneration := 7; IsPaused := true;
                   Threads := threads_mixed; StartTime := 1000;
                   FeatureMemory := true |};
       sc_stop_after := 2;
       sc_open_fails := fun _ => false;
       sc_suspend_fails := fun _ => false;
       sc_context_fails := fun _ => false;
       sc_can_duplicate := fun _ => false;
       sc_duplicate_ok := fun _ => false;
       sc_rss := 4096;
       sc_sampler_thread := 900;
       sc_context := test_context |}.

(** ** Disciplines a trace can be checked against *)

(** At most one thread is suspended at a time.  With no thread suspended,
    the sampler does not read a context, record a sample or resume; with the
    thread of handle [h] suspended, the only calls are [GetThreadContext] on
    [h], [Tick] of a sample of that thread and [ResumeThread] on [h]. *)
Definition suspension_step (cur : option HANDLE) (ev : Event)
    : option (option HANDLE) :=
  match cur, ev with
  | None, EvSuspendThread h r =>
      if r =? kSuspendFailed then Some None else Some (Some h)
  | None, (EvGetThreadContext _ _ _ | EvTick _ | EvResumeThread _) => None
  | None, _ => Some None
  | Some h, EvGetThreadContext h' _ _ =>
      if h' =? h then Some (Some h) else None
  | Some h, EvTick s =>
      match threadInfo s with
      | Some info =>
          if GetThreadHandle (GetPlatformData info) =? h then Some (Some h)
          else None
      | None => None
      end
  | Some h, EvResumeThread h' => if h' =? h then Some None else None
  | Some _, _ => None
  end.

Fixpoint suspension_run (cur : option HANDLE) (evs : list Event)
    : option (option HANDLE) :=
  match evs with
  | [] => Some cur
  | ev :: rest =>
      match suspension_step cur ev with
      | Some cur' => suspension_run cur' rest
      | None => None
      end
  end.

(** [gPSMutex] is taken when free and released when held; [Sleep] is called
    with the lock free, every other call of the loop with the lock held. *)
Definition lock_step (held : bool) (ev : Event) : option bool :=
  match ev with
  | EvLock => if held then None else Some true
  | EvUnlock => if held then Some false else None
  | EvSleep _ => if held then None else Some false
  | EvDeleteExpiredStoredMarkers
  | EvCanDuplicateLastSampleDueToSleep _ _
  | EvDuplicateLastSample _ _ _
  | EvUpdateThreadResponsiveness _
  | EvNow _ | EvResidentFast _ | EvSuspendThread _ _
  | EvGetThreadContext _ _ _ | EvResumeThread _ | EvTick _ =>
      if held then Some true else None
  | _ => None
  end.

Fixpoint lock_run (held : bool) (evs : list Event) : option bool :=
  match evs with
  | [] => Some held
  | ev :: rest =>
      match lock_step held ev with
      | Some held' => lock_run held' rest
      | None => None
      end
  end.

(** The calls made by [SampleContext]. *)
Definition is_sample_event (ev : Event) : bool :=
  match ev with
  | EvNow _ | EvResidentFast _ | EvSuspendThread _ _
  | EvGetThreadContext _ _ _ | EvResumeThread _ | EvTick _ => true
  | _ => false
  end.

(** The threads asked whether their last sample can be duplicated, in the
    order of the calls. *)
Fixpoint asked_threads (evs : list Event) : list ThreadInfo :=
  match evs with
  | [] => []
  | EvCanDuplicateLastSampleDueToSleep info _ :: rest =>
      info :: asked_threads rest
  | _ :: rest => asked_threads rest
  end.

Definition is_duplicated (ev : Event) : bool :=
  match ev with EvDuplicateLastSample _ _ r => r | _ => false end.

Definition is_update (ev : Event) : bool :=
  match ev with EvUpdateThreadResponsiveness _ => true | _ => false end.

Definition is_resident (ev : Event) : bool :=
  match ev with EvResidentFast _ => true | _ => false end.

Definition is_markers (ev : Event) : bool :=
  match ev with EvDeleteExpiredStoredMarkers => true | _ => false end.

Definition is_lock (ev : Event) : bool :=
  match ev with EvLock => true | _ => false end.

Definition is_unlock (ev : Event) : bool :=
  match ev with EvUnlock => true | _ => false end.

(** The double [x] is the integer [N]. *)
Definition double_is_integer (x : double) (N : Z) : Prop :=
  match x with
  | S754_zero _ => N = 0
  | S754_finite s m e =>
      if 0 <=? e then N = cond_Zopp s (Zpos m) * 2 ^ e
      else cond_Zopp s (Zpos m) = N * 2 ^ (- e)
  | _ => False
  end.

(** Zero or a finite number with the sign bit set. *)
Definition double_nonpositive (x : double) : bool :=
  match x with
  | S754_zero _ => true
  | S754_finite s _ _ => s
  | _ => false
  end.

(** The literal [-4.5]. *)
Definition double_minus_4_5 : double :=
  S754_finite true 5066549580791808 (-50).

(** ** Releasing a PlatformData

    [CloseHandle] is the one call of the destructor; it is a parameter, and
    its calls are recorded apart from the trace of the sampler. *)

Inductive ReleaseEvent :=
| EvCloseHandle (h : HANDLE).

(** [PlatformData::~PlatformData].  The lifetime of the object ends with
    the destructor, so the destructor is its calls and the state they leave:
    the store [profiled_thread_ = nullptr] that follows [CloseHandle] writes
    a field that no code can read afterwards. *)
Definition PlatformData_delete {World : Type}
    (CloseHandle : HANDLE -> World -> World) (this : PlatformData) (w : World)
    : list ReleaseEvent * World :=
  if negb (profiled_thread_ this =? nullptr)
  then ([EvCloseHandle (profiled_thread_ this)],
        CloseHandle (profiled_thread_ this) w)
  else ([], w).

(** [PlatformDataDestructor::operator()]: [delete aData]. *)
Definition PlatformDataDestructor_call {World : Type}
    (CloseHandle : HANDLE -> World -> World) (aData : PlatformData) (w : World)
    : list ReleaseEvent * World :=
  PlatformData_delete CloseHandle aData w.

(** ** The constructor as a build runs it

    The language gives [int(x)] no value when the truncation of [x] does not
    fit [int]: [SamplerThread_new] stops there.  A build computes some [int]
    with its conversion instruction and goes on.  [to_int] is that
    instruction, and [SamplerThread_new_with to_int] is
    [SamplerThread::SamplerThread] as such a build runs it, for every
    [aInterval]. *)
Definition SamplerThread_new_with {World : Type} (P : Platform World)
    (to_int : double -> Z) (aLock : LockRef) (aActivityGeneration : Z)
    (aInterval : double) : M World Constructed :=
  let interval :=
    Z.max 1 (to_int (floor (double_add aInterval double_half))) in
  (if interval <? 10
   then call_ (timeBeginPeriod P interval) (EvTimeBeginPeriod interval)
   else ret tt);;
  thread <- call (_beginthreadex P) EvBeginThreadEx;;
  if thread =? 0 then ret Crashed
  else ret (Built {| mActivityGeneration := aActivityGeneration;
                     mThread := thread;
                     mInterval := interval |}).

Definition is_any_timeBeginPeriod (ev : Event) : bool :=
  match ev with EvTimeBeginPeriod _ => true | _ => false end.

(** The conversion instruction of the x86 and amd64 builds, [cvttsd2si]:
    the truncated value when it fits [int], and [INT_MIN], its integer
    indefinite value, for every other operand, a NaN and the infinities
    among them. *)
Definition cvttsd2si (x : double) : Z :=
  match double_to_int x with
  | Some n => n
  | None => INT_MIN
  end.

Definition double_nan : double := S754_nan.

(** ** The states of a run

    The states in which the passes of a run begin. *)
Fixpoint pass_starts {World : Type} (P : Platform World) (cfg : BuildConfig)
    (fuel : nat) (self : SamplerThread) (w : World) : list World :=
  match fuel with
  | O => []
  | S fuel' =>
      w :: (let p := Pass P cfg self w in
            if value p
            then pass_starts P cfg fuel' self
                   (Sleep P (mInterval self) (final p))
            else [])
  end.

(** The state in which the iteration for [info], begun in [w], enters
    [SampleContext]: the one left by the queries on the last sample and by
    [UpdateThreadResponsiveness]. *)
Definition sampling_state {World : Type} (P : Platform World)
    (lock : LockRef) (info : ThreadInfo) (w : World) : World :=
  let can := CanDuplicateLastSampleDueToSleep P info w in
  UpdateThreadResponsiveness P info
    (if fst can
     then snd (DuplicateLastSample P (ThreadId info) (StartTime lock)
                 (snd can))
     else snd can).

(** What [GetThreadContext] returns in [SampleContext] entered in [w]: the
    success flag and the context it filled in. *)
Definition context_read {World : Type} (P : Platform World)
    (cfg : BuildConfig) (lock : LockRef) (info : ThreadInfo) (first : bool)
    (w : World) : bool * CONTEXT :=
  let h := GetThreadHandle (GetPlatformData info) in
  let now := TimeStamp_Now P w in
  let rs := if first && FeatureMemory lock then ResidentFast P (snd now)
            else (0, snd now) in
  let su := SuspendThread P h (snd rs) in
  let flags :=
    if GP_ARCH_amd64 cfg then CONTEXT_FULL P else CONTEXT_CONTROL P in
  fst (GetThreadContext P h (set_ContextFlags flags CONTEXT_zero) (snd su)).

(** * Properties *)

Unset Implicit Arguments.

(** ** Rounding the interval: binary64 addition, [floor] and [int] *)

Lemma fexp_double e : fexp 53 1024 e = Z.max (e - 53) (-1074).
Proof. reflexivity. Qed.

Lemma digits2_bounds (m : positive) :
  2 ^ (Zpos (digits2_pos m) - 1) <= Zpos m < 2 ^ Zpos (digits2_pos m).
Proof.
  induction m as [m IH|m IH|]; cbn [digits2_pos].
  - rewrite Pos2Z.inj_succ.
    replace (Z.succ (Zpos (digits2_pos m)) - 1)
      with (Z.succ (Zpos (digits2_pos m) - 1)) by lia.
    rewrite !Z.pow_succ_r by lia. lia.
  - rewrite Pos2Z.inj_succ.
    replace (Z.succ (Zpos (digits2_pos m)) - 1)
      with (Z.succ (Zpos (digits2_pos m) - 1)) by lia.
    rewrite !Z.pow_succ_r by lia. lia.
  - simpl. lia.
Qed.

Lemma pow2_lt_inv a b : 0 <= b -> 2 ^ a < 2 ^ b -> a < b.
Proof.
  intros Hb H. destruct (Z_lt_le_dec a b) as [L|L]; [exact L|].
  assert (2 ^ b <= 2 ^ a) by (apply Z.pow_le_mono_r; lia). lia.
Qed.

Lemma digits2_unique (m : positive) d :
  2 ^ (d - 1) <= Zpos m < 2 ^ d -> Zpos (digits2_pos m) = d.
Proof.
  intros [H1 H2]. pose proof (digits2_bounds m) as [B1 B2].
  assert (0 < d).
  { destruct d as [|d|d]; [simpl in H2; lia|lia|].
    rewrite Z.pow_neg_r in H2 by lia. lia. }
  assert (Zpos (digits2_pos m) - 1 < d).
  { apply pow2_lt_inv; lia. }
  assert (d - 1 < Zpos (digits2_pos m)).
  { apply pow2_lt_inv; lia. }
  lia.
Qed.

Lemma iter_pos_nat {A} (f : A -> A) p : forall x,
  iter_pos f p x = Nat.iter (Pos.to_nat p) f x.
Proof.
  induction p as [p IH|p IH|]; intros x; cbn [iter_pos].
  - rewrite !IH, Pos2Nat.inj_xI, <- Nat.iter_succ_r, <- Nat.iter_add.
    f_equal. lia.
  - rewrite !IH, Pos2Nat.inj_xO, <- Nat.iter_add. f_equal. lia.
  - reflexivity.
Qed.

Lemma shr_1_m r : 0 <= shr_m r -> shr_m (shr_1 r) = shr_m r / 2.
Proof.
  destruct r as [m r s]. cbn [shr_m]. intros Hm. unfold shr_1.
  destruct m as [|p|p]; [reflexivity| |lia].
  destruct p as [p|p|]; cbn [shr_m].
  - rewrite Pos2Z.inj_xI. apply Z.div_unique with 1; lia.
  - rewrite Pos2Z.inj_xO. apply Z.div_unique with 0; lia.
  - reflexivity.
Qed.

Lemma shr_iter_m n : forall r,
  0 <= shr_m r -> shr_m (Nat.iter n shr_1 r) = shr_m r / 2 ^ Z.of_nat n.
Proof.
  induction n as [|n IH]; intros r Hr.
  - simpl. rewrite Z.div_1_r. reflexivity.
  - assert (H1 : 0 <= shr_m (shr_1 r)).
    { rewrite shr_1_m by exact Hr. apply Z.div_pos; lia. }
    rewrite Nat.iter_succ_r, IH by exact H1.
    rewrite shr_1_m by exact Hr.
    rewrite Nat2Z.inj_succ, Z.pow_succ_r by lia.
    rewrite Z.div_div by lia. reflexivity.
Qed.

Lemma shr_1_even t : 0 <= t ->
  shr_1 (exact_record (2 * t)) = exact_record t.
Proof.
  intros Ht. unfold exact_record, shr_1. cbn [orb].
  destruct t as [|p|p]; [reflexivity|reflexivity|lia].
Qed.

Lemma shr_iter_zeros n : forall t, 0 <= t ->
  Nat.iter n shr_1 (exact_record (t * 2 ^ Z.of_nat n)) = exact_record t.
Proof.
  induction n as [|n IH]; intros t Ht.
  - simpl. rewrite Z.mul_1_r. reflexivity.
  - rewrite Nat.iter_succ_r, Nat2Z.inj_succ, Z.pow_succ_r by lia.
    replace (t * (2 * 2 ^ Z.of_nat n)) with (2 * (t * 2 ^ Z.of_nat n)) by ring.
    rewrite shr_1_even by (apply Z.mul_nonneg_nonneg; lia).
    apply IH; exact Ht.
Qed.

Lemma shr_1_exact t : 0 <= t ->
  shr_1 (exact_record t) =
  {| shr_m := t / 2; shr_r := Z.odd t; shr_s := false |}.
Proof.
  intros Ht. unfold exact_record, shr_1. cbn [orb].
  destruct t as [|p|p]; [reflexivity| |lia].
  destruct p as [p|p|]; cbn [Z.odd]; f_equal.
  - rewrite Pos2Z.inj_xI. apply Z.div_unique with 1; lia.
  - rewrite Pos2Z.inj_xO. apply Z.div_unique with 0; lia.
Qed.

Lemma iter_xO_pow2 (m d : positive) :
  Zpos (Pos.iter xO m d) = Zpos m * 2 ^ Zpos d.
Proof.
  induction d as [|d IH] using Pos.peano_ind.
  - simpl. lia.
  - rewrite Pos.iter_succ, Pos2Z.inj_xO, IH, Pos2Z.inj_succ,
      Z.pow_succ_r by lia. ring.
Qed.

Lemma shl_align_spec (m : positive) e e' :
  e' <= e ->
  Zpos (fst (shl_align m e e')) = Zpos m * 2 ^ (e - e') /\
  snd (shl_align m e e') = e'.
Proof.
  intros H. unfold shl_align.
  destruct (e' - e) as [|d|d] eqn:E; cbn [fst snd].
  - assert (e' = e) by lia. subst. rewrite Z.sub_diag. simpl. lia.
  - lia.
  - rewrite iter_xO_pow2. replace (e - e') with (Zpos d) by lia. auto.
Qed.

Lemma shl_align_above (m : positive) e e' :
  e <= e' -> shl_align m e e' = (m, e).
Proof.
  intros H. unfold shl_align.
  destruct (e' - e) as [|d|d] eqn:E; try reflexivity. lia.
Qed.

Lemma shr_nonpos mrs e n : n <= 0 -> shr mrs e n = (mrs, e).
Proof. intros H. unfold shr. destruct n; try reflexivity. lia. Qed.

Lemma shr_pos mrs e n :
  0 < n -> shr mrs e n = (Nat.iter (Z.to_nat n) shr_1 mrs, e + n).
Proof.
  intros H. unfold shr. destruct n as [|p|p]; try lia.
  rewrite iter_pos_nat. reflexivity.
Qed.

Lemma shr_iter_zeros_Z n t : 0 <= n -> 0 <= t ->
  Nat.iter (Z.to_nat n) shr_1 (exact_record (t * 2 ^ n)) = exact_record t.
Proof.
  intros Hn Ht. pose proof (shr_iter_zeros (Z.to_nat n) t Ht) as H.
  rewrite Z2Nat.id in H by exact Hn. exact H.
Qed.

(** A mantissa that needs no right shift goes through [binary_round_aux]
    unchanged. *)
Lemma binary_round_aux_canonical s (m : positive) e :
  fexp 53 1024 (Zpos (digits2_pos m) + e) <= e -> e <= 971 ->
  binary_round_aux 53 1024 s (Zpos m) e loc_Exact = S754_finite s m e.
Proof.
  intros Hf He. unfold binary_round_aux, shr_fexp.
  cbn [Zdigits2 shr_record_of_loc].
  rewrite shr_nonpos by lia.
  cbn [shr_m loc_of_shr_record round_nearest_even Zdigits2 shr_record_of_loc].
  rewrite shr_nonpos by lia. cbn [shr_m].
  replace (e <=? 1024 - 53) with true by (symmetry; apply Z.leb_le; lia).
  reflexivity.
Qed.

Lemma digits2_shift (z t : positive) n :
  0 <= n -> Zpos z = Zpos t * 2 ^ n ->
  Zpos (digits2_pos t) = Zpos (digits2_pos z) - n.
Proof.
  intros Hn Hz. apply digits2_unique.
  pose proof (digits2_bounds z) as [B1 B2]. rewrite Hz in B1, B2.
  pose proof (digits2_bounds t) as [T1 T2].
  assert (Hp : 0 < 2 ^ n) by (apply Z.pow_pos_nonneg; lia).
  set (d := Zpos (digits2_pos z)) in *.
  assert (Hd : n < d).
  { apply pow2_lt_inv; [lia|].
    apply Z.le_lt_trans with (Zpos t * 2 ^ n); [nia|exact B2]. }
  split.
  - destruct (Z_lt_le_dec (Zpos t) (2 ^ (d - n - 1))) as [L|L]; [|exact L].
    exfalso.
    assert (Zpos t * 2 ^ n < 2 ^ (d - n - 1) * 2 ^ n) by nia.
    rewrite <- Z.pow_add_r in H by lia.
    replace (d - n - 1 + n) with (d - 1) in H by lia. lia.
  - destruct (Z_lt_le_dec (Zpos t) (2 ^ (d - n))) as [L|L]; [exact L|].
    exfalso.
    assert (2 ^ (d - n) * 2 ^ n <= Zpos t * 2 ^ n) by nia.
    rewrite <- Z.pow_add_r in H by lia.
    replace (d - n + n) with d in H by lia. lia.
Qed.

(** Shifting out [n] zero bits is exact. *)
Lemma binary_round_aux_zeros s (z t : positive) e n :
  0 < n -> Zpos z = Zpos t * 2 ^ n ->
  fexp 53 1024 (Zpos (digits2_pos z) + e) = e + n -> e + n <= 971 ->
  binary_round_aux 53 1024 s (Zpos z) e loc_Exact = S754_finite s t (e + n).
Proof.
  intros Hn Hz Hf He. unfold binary_round_aux, shr_fexp.
  cbn [Zdigits2 shr_record_of_loc]. rewrite Hf.
  replace (e + n - e) with n by lia.
  rewrite shr_pos by exact Hn.
  change {| shr_m := Zpos z; shr_r := false; shr_s := false |}
    with (exact_record (Zpos z)).
  rewrite Hz, shr_iter_zeros_Z by lia.
  cbn [exact_record shr_m loc_of_shr_record round_nearest_even Zdigits2
       shr_record_of_loc].
  rewrite (digits2_shift z t n) by (lia || exact Hz).
  replace (Zpos (digits2_pos z) - n + (e + n))
    with (Zpos (digits2_pos z) + e) by lia.
  rewrite Hf, shr_nonpos by lia. cbn [shr_m].
  replace (e + n <=? 1024 - 53) with true by (symmetry; apply Z.leb_le; lia).
  reflexivity.
Qed.

(** Shifting out [n] zero bits and one more bit, with no carry into a 54th
    digit. *)
Lemma binary_round_aux_one_bit s (z t m1 : positive) e n :
  0 <= n -> Zpos z = Zpos t * 2 ^ n ->
  fexp 53 1024 (Zpos (digits2_pos z) + e) = e + n + 1 -> e + n + 1 <= 971 ->
  Zpos m1 =
    round_nearest_even (Zpos t / 2)
      (if Z.odd (Zpos t) then loc_Inexact Eq else loc_Exact) ->
  Zpos (digits2_pos m1) = Zpos (digits2_pos z) - n - 1 ->
  binary_round_aux 53 1024 s (Zpos z) e loc_Exact =
  S754_finite s m1 (e + n + 1).
Proof.
  intros Hn Hz Hf He Hm Hd. unfold binary_round_aux, shr_fexp.
  cbn [Zdigits2 shr_record_of_loc]. rewrite Hf.
  replace (e + n + 1 - e) with (n + 1) by lia.
  rewrite shr_pos by lia.
  change {| shr_m := Zpos z; shr_r := false; shr_s := false |}
    with (exact_record (Zpos z)).
  replace (Z.to_nat (n + 1)) with (S (Z.to_nat n)) by lia.
  rewrite Nat.iter_succ, Hz.
  rewrite shr_iter_zeros_Z, shr_1_exact by lia.
  cbn [shr_m].
  replace (loc_of_shr_record
             {| shr_m := Zpos t / 2; shr_r := Z.odd (Zpos t);
                shr_s := false |})
    with (if Z.odd (Zpos t) then loc_Inexact Eq else loc_Exact)
    by (destruct (Z.odd (Zpos t)); reflexivity).
  rewrite <- Hm. cbn [Zdigits2 shr_record_of_loc]. rewrite Hd.
  replace (Zpos (digits2_pos z) - n - 1 + (e + (n + 1)))
    with (Zpos (digits2_pos z) + e) by lia.
  rewrite Hf, shr_nonpos by lia. cbn [shr_m].
  replace (e + (n + 1)) with (e + n + 1) by lia.
  replace (e + n + 1 <=? 1024 - 53) with true
    by (symmetry; apply Z.leb_le; lia).
  reflexivity.
Qed.

Lemma digits2_lt (m : positive) d :
  0 <= d -> Zpos m < 2 ^ d -> Zpos (digits2_pos m) <= d.
Proof.
  intros Hd H. pose proof (digits2_bounds m) as [B1 _].
  assert (Zpos (digits2_pos m) - 1 < d) by (apply pow2_lt_inv; lia). lia.
Qed.

Lemma div_scale a b c : 0 < b -> 0 < c -> (a * c) / (b * c) = a / b.
Proof. intros Hb Hc. apply Z.div_mul_cancel_r; lia. Qed.

(** Rounding a number whose bits beyond the 53rd are zero is exact. *)
Lemma binary_round_exact s (z : positive) e j :
  0 <= j -> (2 ^ j | Zpos z) -> Zpos z < 2 ^ (53 + j) ->
  -1074 <= e -> fexp 53 1024 (Zpos (digits2_pos z) + e) <= 971 ->
  exists m2 e2,
    binary_round 53 1024 s z e = S754_finite s m2 e2 /\
    e2 = fexp 53 1024 (Zpos (digits2_pos z) + e) /\
    Zpos m2 < 2 ^ 53 /\
    (e <= e2 -> Zpos m2 * 2 ^ (e2 - e) = Zpos z) /\
    (e2 <= e -> Zpos m2 = Zpos z * 2 ^ (e - e2)).
Proof.
  intros Hj Hdiv Hlt He Hmax.
  set (d := Zpos (digits2_pos z)) in *.
  assert (Hd : d <= 53 + j) by (apply digits2_lt; lia).
  pose proof (digits2_bounds z) as [B1 B2]. fold d in B1, B2.
  assert (Hd0 : 0 < d) by (unfold d; lia).
  unfold binary_round. fold d.
  set (e2 := fexp 53 1024 (d + e)) in *.
  assert (He2 : e2 = Z.max (d + e - 53) (-1074)) by reflexivity.
  destruct (Z_le_gt_dec e2 e) as [L|G].
  - (* no bit is shifted out *)
    destruct (shl_align_spec z e e2 L) as [Hm Hs].
    destruct (shl_align z e e2) as [mz ez]. cbn [fst snd] in Hm, Hs. subst ez.
    assert (Hdm : Zpos (digits2_pos mz) = d + (e - e2)).
    { assert (H0 : 0 <= e - e2) by lia.
      pose proof (digits2_shift mz z (e - e2) H0 Hm) as H. fold d in H.
      lia. }
    exists mz, e2. split.
    + apply binary_round_aux_canonical; [|lia].
      rewrite Hdm. replace (d + (e - e2) + e2) with (d + e) by lia.
      fold e2. lia.
    + split; [reflexivity|]. split; [|split].
      * pose proof (digits2_bounds mz) as [_ M2]. rewrite Hdm in M2.
        apply Z.lt_le_trans with (2 ^ (d + (e - e2))); [exact M2|].
        apply Z.pow_le_mono_r; lia.
      * intros H. replace (e2 - e) with 0 by lia.
        replace (e - e2) with 0 in Hm by lia.
        rewrite Z.pow_0_r in *. lia.
      * intros _. exact Hm.
  - (* the bits shifted out are zero *)
    set (n := e2 - e).
    assert (Hn : 0 < n <= j) by (unfold n; lia).
    assert (Hdivn : (2 ^ n | Zpos z)).
    { apply Z.divide_trans with (2 ^ j); [|exact Hdiv].
      exists (2 ^ (j - n)). rewrite <- Z.pow_add_r by lia. f_equal. lia. }
    destruct Hdivn as [t Ht].
    assert (Hp : 0 < 2 ^ n) by (apply Z.pow_pos_nonneg; lia).
    assert (Htpos : 0 < t) by nia.
    destruct t as [|t|t]; try lia.
    rewrite shl_align_above by lia.
    exists t, e2. split.
    + replace e2 with (e + n) by (unfold n; lia).
      apply binary_round_aux_zeros; try lia.
      fold d. fold e2. unfold n. lia.
    + split; [reflexivity|]. split; [|split].
      * assert (H0 : 0 <= n) by lia.
        pose proof (digits2_shift z t n H0 Ht) as Hdt. fold d in Hdt.
        pose proof (digits2_bounds t) as [_ T2]. rewrite Hdt in T2.
        apply Z.lt_le_trans with (2 ^ (d - n)); [exact T2|].
        apply Z.pow_le_mono_r; unfold n; lia.
      * intros _. fold n. lia.
      * intros H. lia.
Qed.

(** The value of an exact rounding, floored. *)
Lemma binary_round_exact_floor (m2 z : positive) e e2 c :
  e < 0 -> e2 < 0 ->
  (e <= e2 -> Zpos m2 * 2 ^ (e2 - e) = Zpos z) ->
  (e2 <= e -> Zpos m2 = Zpos z * 2 ^ (e - e2)) ->
  (c * Zpos m2) / 2 ^ (- e2) = (c * Zpos z) / 2 ^ (- e).
Proof.
  intros He He2 H1 H2.
  destruct (Z_le_gt_dec e e2) as [L|G].
  - rewrite <- (H1 L).
    replace (2 ^ (- e)) with (2 ^ (- e2) * 2 ^ (e2 - e))
      by (rewrite <- Z.pow_add_r by lia; f_equal; lia).
    rewrite Z.mul_assoc.
    rewrite div_scale; [reflexivity| |]; apply Z.pow_pos_nonneg; lia.
  - rewrite (H2 ltac:(lia)).
    replace (2 ^ (- e2)) with (2 ^ (- e) * 2 ^ (e - e2))
      by (rewrite <- Z.pow_add_r by lia; f_equal; lia).
    rewrite Z.mul_assoc.
    rewrite div_scale; [reflexivity| |]; apply Z.pow_pos_nonneg; lia.
Qed.

(** [int(floor(x))] for a finite [x] with a negative exponent. *)
Lemma floor_to_int s (m : positive) e :
  e < 0 -> Zpos m < 2 ^ 53 ->
  let n := cond_Zopp s (Zpos m) / 2 ^ (- e) in
  double_to_int (floor (S754_finite s m e)) =
  if (INT_MIN <=? n) && (n <=? INT_MAX) then Some n else None.
Proof.
  intros He Hm n. unfold floor.
  replace (0 <=? e) with false by (symmetry; apply Z.leb_gt; lia).
  rewrite Z.shiftr_div_pow2 by lia. fold n.
  assert (Hp : 0 < 2 ^ (- e)) by (apply Z.pow_pos_nonneg; lia).
  assert (Habs : Z.abs n <= Zpos m).
  { unfold n. destruct s; cbn [cond_Zopp].
    - assert (- Zpos m <= - Zpos m / 2 ^ (- e) <= 0).
      { split.
        + apply Z.div_le_lower_bound; [lia|]. nia.
        + apply Z.div_le_upper_bound; [lia|]. nia. }
      lia.
    - assert (0 <= Zpos m / 2 ^ (- e) <= Zpos m).
      { split; [apply Z.div_pos; lia|].
        apply Z.div_le_upper_bound; [lia|]. nia. }
      lia. }
  assert (Hsign : s = true -> n < 0).
  { intros ->. unfold n. cbn [cond_Zopp].
    apply Z.div_lt_upper_bound; lia. }
  assert (Hsign' : s = false -> 0 <= n).
  { intros ->. unfold n. cbn [cond_Zopp]. apply Z.div_pos; lia. }
  destruct n as [|p|p] eqn:En.
  - destruct s; [specialize (Hsign eq_refl); lia|]. reflexivity.
  - destruct s; [specialize (Hsign eq_refl); lia|].
    cbn [binary_normalize].
    assert (Hp53 : Zpos p < 2 ^ 53) by lia.
    assert (Hdp : Zpos (digits2_pos p) <= 53) by (apply digits2_lt; lia).
    destruct (binary_round_exact false p 0 0)
      as (m2 & e2 & Hr & He2 & Hm2 & H1 & H2);
      [lia|apply Z.divide_1_l|exact Hp53|lia|rewrite fexp_double; lia|].
    rewrite Hr. unfold double_to_int.
    assert (Hle : e2 <= 0) by (rewrite He2, fexp_double; lia).
    specialize (H2 Hle). rewrite Z.sub_0_l in H2.
    assert (Hv : (if 0 <=? e2 then Zpos m2 * 2 ^ e2
                  else Zpos m2 / 2 ^ (- e2)) = Zpos p).
    { destruct (Z.leb_spec 0 e2).
      - assert (E0 : e2 = 0) by lia. rewrite E0 in *.
        rewrite H2. change (- 0) with 0. rewrite !Z.pow_0_r. lia.
      - rewrite H2. apply Z.div_mul. apply Z.pow_nonzero; lia. }
    rewrite Hv. reflexivity.
  - destruct s; [|specialize (Hsign' eq_refl); lia].
    cbn [binary_normalize].
    assert (Hp53 : Zpos p < 2 ^ 53) by lia.
    assert (Hdp : Zpos (digits2_pos p) <= 53) by (apply digits2_lt; lia).
    destruct (binary_round_exact true p 0 0)
      as (m2 & e2 & Hr & He2 & Hm2 & H1 & H2);
      [lia|apply Z.divide_1_l|exact Hp53|lia|rewrite fexp_double; lia|].
    rewrite Hr. unfold double_to_int.
    assert (Hle : e2 <= 0) by (rewrite He2, fexp_double; lia).
    specialize (H2 Hle). rewrite Z.sub_0_l in H2.
    assert (Hv : (if 0 <=? e2 then Zpos m2 * 2 ^ e2
                  else Zpos m2 / 2 ^ (- e2)) = Zpos p).
    { destruct (Z.leb_spec 0 e2).
      - assert (E0 : e2 = 0) by lia. rewrite E0 in *.
        rewrite H2. change (- 0) with 0. rewrite !Z.pow_0_r. lia.
      - rewrite H2. apply Z.div_mul. apply Z.pow_nonzero; lia. }
    rewrite Hv. reflexivity.
Qed.

Lemma round_nearest_even_cases m l :
  round_nearest_even m l = m \/ round_nearest_even m l = m + 1.
Proof.
  unfold round_nearest_even.
  destruct l as [|[| |]]; auto. destruct (Z.even m); auto.
Qed.

(** Rounding a positive number below one gives a double that is at most
    one. *)
Lemma binary_round_below_one (z : positive) e :
  -1074 <= e -> Zpos z < 2 ^ (- e) ->
  exists m2 e2,
    binary_round 53 1024 false z e = S754_finite false m2 e2 /\
    e2 < 0 /\ Zpos m2 < 2 ^ 53 /\ Zpos m2 <= 2 ^ (- e2).
Proof.
  intros He Hz.
  assert (He0 : e < 0).
  { destruct (Z_lt_le_dec e 0) as [L|L]; [exact L|].
    destruct (Z.eq_dec e 0) as [->|]; [simpl in Hz; lia|].
    rewrite Z.pow_neg_r in Hz by lia. lia. }
  set (d := Zpos (digits2_pos z)).
  assert (Hd : d <= - e) by (apply digits2_lt; lia).
  pose proof (digits2_bounds z) as [B1 B2]. fold d in B1, B2.
  assert (Hd0 : 0 < d) by (unfold d; lia).
  assert (Hf : fexp 53 1024 (d + e) = Z.max (d + e - 53) (-1074))
    by reflexivity.
  destruct (Z_le_gt_dec d 53) as [L|G].
  - (* exact *)
    assert (Hz53 : Zpos z < 2 ^ 53).
    { apply Z.lt_le_trans with (2 ^ d); [exact B2|].
      apply Z.pow_le_mono_r; lia. }
    destruct (binary_round_exact false z e 0)
      as (m2 & e2 & Hr & He2 & Hm2 & H1 & H2);
      [lia|apply Z.divide_1_l|exact Hz53|lia|fold d; rewrite Hf; lia|].
    fold d in He2. rewrite Hf in He2.
    exists m2, e2. split; [exact Hr|]. split; [lia|]. split; [exact Hm2|].
    rewrite (H2 ltac:(lia)).
    apply Z.le_trans with (2 ^ (- e) * 2 ^ (e - e2)).
    + apply Z.mul_le_mono_nonneg_r; [apply Z.pow_nonneg; lia|lia].
    + rewrite <- Z.pow_add_r by lia. apply Z.pow_le_mono_r; lia.
  - (* [d - 53] bits are shifted out *)
    set (n := d - 53).
    assert (Hn : 0 < n) by (unfold n; lia).
    unfold binary_round. fold d. rewrite shl_align_above by (rewrite Hf; lia).
    unfold binary_round_aux, shr_fexp.
    cbn [Zdigits2 shr_record_of_loc]. fold d. rewrite Hf.
    replace (Z.max (d + e - 53) (-1074) - e) with n by (unfold n; lia).
    rewrite shr_pos by exact Hn.
    set (rec1 := Nat.iter (Z.to_nat n) shr_1
                   {| shr_m := Zpos z; shr_r := false; shr_s := false |}).
    assert (Hm0 : shr_m rec1 = Zpos z / 2 ^ n).
    { unfold rec1. rewrite shr_iter_m by (cbn; lia).
      rewrite Z2Nat.id by lia. reflexivity. }
    assert (Hp : 0 < 2 ^ n) by (apply Z.pow_pos_nonneg; lia).
    assert (Hb : 2 ^ 52 <= shr_m rec1 < 2 ^ 53).
    { rewrite Hm0. split.
      - apply Z.div_le_lower_bound; [lia|].
        rewrite <- Z.pow_add_r by lia.
        replace (n + 52) with (d - 1) by (unfold n; lia). exact B1.
      - apply Z.div_lt_upper_bound; [lia|].
        rewrite <- Z.pow_add_r by lia.
        replace (n + 53) with d by (unfold n; lia). exact B2. }
    set (m1 := round_nearest_even (shr_m rec1) (loc_of_shr_record rec1)).
    assert (Hm1 : 2 ^ 52 <= m1 <= 2 ^ 53).
    { unfold m1.
      destruct (round_nearest_even_cases (shr_m rec1)
                  (loc_of_shr_record rec1)) as [->| ->]; lia. }
    destruct m1 as [|p|p] eqn:Em1; try lia.
    cbn [Zdigits2 shr_record_of_loc].
    destruct (Z.eq_dec (Zpos p) (2 ^ 53)) as [E|E].
    + (* the carry gives a 54th digit *)
      assert (Hdp : Zpos (digits2_pos p) = 54).
      { apply digits2_unique. rewrite E. simpl. lia. }
      rewrite Hdp.
      replace (fexp 53 1024 (54 + (e + n)) - (e + n)) with 1
        by (rewrite fexp_double; unfold n; lia).
      rewrite shr_pos by lia.
      change (Z.to_nat 1) with 1%nat. cbn [Nat.iter].
      rewrite E.
      change {| shr_m := 2 ^ 53; shr_r := false; shr_s := false |}
        with (exact_record (2 * 2 ^ 52)).
      rewrite shr_1_even by lia. cbn [exact_record shr_m].
      change (2 ^ 52) with (Zpos 4503599627370496).
      replace (e + n + 1 <=? 1024 - 53) with true
        by (symmetry; apply Z.leb_le; unfold n; lia).
      exists 4503599627370496%positive, (e + n + 1).
      split; [reflexivity|]. split; [unfold n; lia|]. split; [reflexivity|].
      change (Zpos 4503599627370496) with (2 ^ 52).
      apply Z.pow_le_mono_r; unfold n; lia.
    + assert (Hdp : Zpos (digits2_pos p) = 53).
      { apply digits2_unique. change (53 - 1) with 52. lia. }
      rewrite Hdp, shr_nonpos by (rewrite fexp_double; unfold n; lia).
      cbn [shr_m].
      replace (e + n <=? 1024 - 53) with true
        by (symmetry; apply Z.leb_le; unfold n; lia).
      exists p, (e + n).
      split; [reflexivity|]. split; [unfold n; lia|]. split; [lia|].
      apply Z.le_trans with (2 ^ 53); [lia|].
      apply Z.pow_le_mono_r; unfold n; lia.
Qed.

Lemma double_add_half s (m : positive) e :
  double_add (S754_finite s m e) double_half =
  binary_normalize 53 1024
    (cond_Zopp s (Zpos m * 2 ^ (e - Z.min e (-53))) +
     2 ^ 52 * 2 ^ (-53 - Z.min e (-53)))
    (Z.min e (-53)) false.
Proof.
  unfold double_add, SFadd, double_half.
  destruct (shl_align_spec m e (Z.min e (-53)) ltac:(lia)) as [H1 _].
  destruct (shl_align_spec 4503599627370496 (-53) (Z.min e (-53))
              ltac:(lia)) as [H2 _].
  rewrite H1, H2. reflexivity.
Qed.

(** What [valid_binary] says of a finite double. *)
Lemma valid_finite s (m : positive) e :
  valid_binary 53 1024 (S754_finite s m e) = true ->
  -1074 <= e <= 971 /\ Zpos m < 2 ^ 53 /\ (-1074 < e -> 2 ^ 52 <= Zpos m).
Proof.
  unfold valid_binary, bounded, canonical_mantissa.
  rewrite andb_true_iff, Z.eqb_eq, Z.leb_le, fexp_double.
  intros [Hc He]. pose proof (digits2_bounds m) as [B1 B2].
  set (d := Zpos (digits2_pos m)) in *.
  assert (Hd : d <= 53) by lia.
  split; [lia|]. split.
  - apply Z.lt_le_trans with (2 ^ d); [exact B2|].
    apply Z.pow_le_mono_r; lia.
  - intros H. assert (d = 53) by lia.
    replace 52 with (d - 1) by lia. exact B1.
Qed.

Lemma round_half_up_alt a e :
  e < 0 ->
  (2 * a + 2 ^ (- e)) / (2 * 2 ^ (- e)) = (a + 2 ^ (- e - 1)) / 2 ^ (- e).
Proof.
  intros He.
  replace (2 ^ (- e)) with (2 * 2 ^ (- e - 1)) at 1
    by (rewrite <- Z.pow_succ_r by lia; f_equal; lia).
  replace (2 * a + 2 * 2 ^ (- e - 1)) with ((a + 2 ^ (- e - 1)) * 2) by ring.
  rewrite (Z.mul_comm 2 (2 ^ (- e))).
  apply div_scale; [apply Z.pow_pos_nonneg|]; lia.
Qed.

Lemma round_half_up_nearest x :
  is_finite x = true -> nearest_integer x (round_half_up x).
Proof.
  destruct x as [s|s| |s m e]; try discriminate; intros _;
    unfold nearest_integer, round_half_up.
  - reflexivity.
  - destruct (Z.leb_spec 0 e); [reflexivity|].
    set (a := cond_Zopp s (Zpos m)). set (D := 2 ^ (- e)).
    assert (HD : 0 < D) by (apply Z.pow_pos_nonneg; lia).
    pose proof (Z.div_mod (2 * a + D) (2 * D) ltac:(lia)) as Hdm.
    pose proof (Z.mod_pos_bound (2 * a + D) (2 * D) ltac:(lia)) as Hb.
    set (q := (2 * a + D) / (2 * D)) in *.
    set (r := (2 * a + D) mod (2 * D)) in *.
    assert (E : 2 * (a - q * D) = r - D) by lia.
    lia.
Qed.

Lemma in_int_range n :
  INT_MIN <= n <= INT_MAX -> (INT_MIN <=? n) && (n <=? INT_MAX) = true.
Proof.
  intros [H1 H2]. apply andb_true_iff. split; apply Z.leb_le; assumption.
Qed.

(** Arguments of magnitude below one half: the sum is below one and the
    interval is 1. *)
Lemma round_interval_small s (m : positive) e :
  valid_binary 53 1024 (S754_finite s m e) = true -> e <= -54 ->
  round_interval (S754_finite s m e) = Some 1 /\
  round_half_up (S754_finite s m e) = 0.
Proof.
  intros Hv He. destruct (valid_finite s m e Hv) as (Hr & Hm & _).
  set (P := 2 ^ (- e - 1)).
  assert (HP : 2 ^ 53 <= P) by (apply Z.pow_le_mono_r; lia).
  assert (H2P : 2 ^ (- e) = 2 * P).
  { unfold P. rewrite <- Z.pow_succ_r by lia. f_equal. lia. }
  assert (Ha : - Zpos m <= cond_Zopp s (Zpos m) <= Zpos m)
    by (destruct s; cbn [cond_Zopp]; lia).
  split.
  - unfold round_interval. rewrite double_add_half.
    replace (Z.min e (-53)) with e by lia.
    replace (e - e) with 0 by lia. rewrite Z.pow_0_r, Z.mul_1_r.
    replace (2 ^ 52 * 2 ^ (-53 - e)) with P
      by (unfold P; rewrite <- Z.pow_add_r by lia; f_equal; lia).
    destruct (cond_Zopp s (Zpos m) + P) as [|z|z] eqn:Ez; try lia.
    cbn [binary_normalize].
    destruct (binary_round_below_one z e) as (m2 & e2 & -> & He2 & Hm2 & Hle);
      [lia|rewrite H2P; lia|].
    pose proof (floor_to_int false m2 e2 He2 Hm2) as Hfl.
    cbv zeta in Hfl. cbn [cond_Zopp] in Hfl. rewrite Hfl.
    assert (Hp : 0 < 2 ^ (- e2)) by (apply Z.pow_pos_nonneg; lia).
    assert (Hn : 0 <= Zpos m2 / 2 ^ (- e2) <= 1).
    { split; [apply Z.div_pos; lia|].
      apply Z.div_le_upper_bound; lia. }
    rewrite in_int_range by (unfold INT_MIN, INT_MAX; simpl; lia).
    cbn [option_map]. f_equal. lia.
  - unfold round_half_up.
    replace (0 <=? e) with false by (symmetry; apply Z.leb_gt; lia).
    rewrite H2P. apply Z.div_small. lia.
Qed.

(** Positive arguments from one half on, below [2^31]. *)
Lemma round_interval_positive (m : positive) e :
  valid_binary 53 1024 (S754_finite false m e) = true ->
  -53 <= e <= -22 ->
  round_half_up (S754_finite false m e) <= INT_MAX ->
  round_interval (S754_finite false m e) =
  Some (Z.max 1 (round_half_up (S754_finite false m e))).
Proof.
  intros Hv He Hmax. destruct (valid_finite false m e Hv) as (Hr & Hm & Hn).
  specialize (Hn ltac:(lia)).
  set (k := e + 53). set (Q := 2 ^ (- e - 1)). set (D := 2 ^ (- e)).
  assert (Hk : 0 <= k <= 31) by (unfold k; lia).
  assert (HQ : Q * 2 ^ k = 2 ^ 52).
  { unfold Q, k. rewrite <- Z.pow_add_r by lia. f_equal. lia. }
  assert (HD : D = 2 * Q).
  { unfold D, Q. rewrite <- Z.pow_succ_r by lia. f_equal. lia. }
  assert (HQ21 : 2 ^ 21 <= Q) by (apply Z.pow_le_mono_r; lia).
  assert (Hpk : 0 < 2 ^ k) by (apply Z.pow_pos_nonneg; lia).
  set (t := Zpos m + Q).
  assert (Hrhu : round_half_up (S754_finite false m e) = t / D).
  { unfold round_half_up.
    replace (0 <=? e) with false by (symmetry; apply Z.leb_gt; lia).
    cbn [cond_Zopp]. apply round_half_up_alt. lia. }
  rewrite Hrhu in *.
  assert (Ht0 : 0 <= t / D) by (apply Z.div_pos; unfold t; lia).
  unfold round_interval. rewrite double_add_half.
  replace (Z.min e (-53)) with (-53) by lia.
  replace (e - -53) with k by (unfold k; lia).
  replace (-53 - -53) with 0 by lia. rewrite Z.pow_0_r, Z.mul_1_r.
  cbn [cond_Zopp].
  replace (Zpos m * 2 ^ k + 2 ^ 52) with (t * 2 ^ k)
    by (unfold t; rewrite <- HQ; ring).
  destruct (t * 2 ^ k) as [|z|z] eqn:Ez; try (unfold t in Ez; nia).
  cbn [binary_normalize].
  assert (H53 : 2 ^ 53 = D * 2 ^ k)
    by (rewrite HD, <- Z.mul_assoc, HQ; reflexivity).
  destruct (Z_lt_le_dec t (2 ^ 53)) as [Hlt|Hge].
  - (* the sum has 53 digits: it is exact *)
    assert (Hz : Zpos z < 2 ^ (53 + k)).
    { rewrite <- Ez, Z.pow_add_r by lia. nia. }
    assert (Hdz : Zpos (digits2_pos z) <= 53 + k) by (apply digits2_lt; lia).
    destruct (binary_round_exact false z (-53) k)
      as (m2 & e2 & -> & He2 & Hm2 & H1 & H2);
      [lia|exists t; symmetry; exact Ez|exact Hz|lia|
       rewrite fexp_double; lia|].
    assert (He2' : e2 < 0) by (rewrite He2, fexp_double; lia).
    pose proof (floor_to_int false m2 e2 He2' Hm2) as Hfl.
    cbv zeta in Hfl. cbn [cond_Zopp] in Hfl. rewrite Hfl.
    pose proof (binary_round_exact_floor m2 z (-53) e2 1 ltac:(lia) He2' H1 H2)
      as Hfloor.
    rewrite !Z.mul_1_l in Hfloor. rewrite Hfloor.
    change (- -53) with 53. rewrite <- Ez, H53, div_scale by lia.
    rewrite in_int_range by (unfold INT_MIN; simpl; lia).
    reflexivity.
  - (* the sum has 54 digits: one bit is rounded away *)
    assert (Htu : t < 2 ^ 53 + Q) by (unfold t; lia).
    assert (HtD : t / D = 2 ^ k).
    { symmetry. apply Z.div_unique with (t - 2 ^ 53); lia. }
    assert (Hdz : Zpos (digits2_pos z) = 54 + k).
    { apply digits2_unique. rewrite <- Ez.
      replace (54 + k - 1) with (53 + k) by lia.
      rewrite !Z.pow_add_r by lia.
      assert (2 ^ 54 = 2 * 2 ^ 53) by reflexivity. nia. }
    destruct t as [|tp|tp] eqn:Et; try lia.
    set (m1 := round_nearest_even (Zpos tp / 2)
                 (if Z.odd (Zpos tp) then loc_Inexact Eq else loc_Exact)).
    assert (Hhalf : 2 ^ 52 <= Zpos tp / 2 < 2 ^ 52 + Q - 1).
    { split.
      - apply Z.div_le_lower_bound; lia.
      - apply Z.div_lt_upper_bound; lia. }
    assert (Hm1 : 2 ^ 52 <= m1 < 2 ^ 52 + Q).
    { unfold m1.
      destruct (round_nearest_even_cases (Zpos tp / 2)
                  (if Z.odd (Zpos tp) then loc_Inexact Eq else loc_Exact))
        as [->| ->]; lia. }
    destruct m1 as [|p1|p1] eqn:Em1; try lia.
    unfold binary_round. rewrite Hdz.
    rewrite shl_align_above by (rewrite fexp_double; lia).
    rewrite (binary_round_aux_one_bit false z tp p1 (-53) k);
      [|lia|symmetry; exact Ez|rewrite Hdz, fexp_double; lia|lia|
       symmetry; exact Em1|].
    2:{ rewrite Hdz. replace (54 + k - k - 1) with 53 by lia.
        apply digits2_unique. change (53 - 1) with 52.
        assert (Q <= 2 ^ 52).
        { unfold Q. apply Z.pow_le_mono_r; lia. }
        change (2 ^ 53) with (2 ^ 52 + 2 ^ 52). lia. }
    assert (Hp1 : Zpos p1 < 2 ^ 53).
    { assert (Q <= 2 ^ 52) by (unfold Q; apply Z.pow_le_mono_r; lia).
      change (2 ^ 53) with (2 ^ 52 + 2 ^ 52). lia. }
    pose proof (floor_to_int false p1 (-53 + k + 1) ltac:(lia) Hp1) as Hfl.
    cbv zeta in Hfl. cbn [cond_Zopp] in Hfl. rewrite Hfl.
    replace (- (-53 + k + 1)) with (- e - 1) by (unfold k; lia). fold Q.
    assert (Hn1 : Zpos p1 / Q = 2 ^ k).
    { symmetry. apply Z.div_unique with (Zpos p1 - 2 ^ 52); lia. }
    rewrite Hn1, HtD in *.
    rewrite in_int_range by (unfold INT_MIN; simpl; lia).
    reflexivity.
Qed.

(** Negative arguments down from minus one half: the sum is exact. *)
Lemma round_interval_negative (m : positive) e :
  valid_binary 53 1024 (S754_finite true m e) = true ->
  -53 <= e <= -21 ->
  INT_MIN <= round_half_up (S754_finite true m e) ->
  round_interval (S754_finite true m e) =
  Some (Z.max 1 (round_half_up (S754_finite true m e))).
Proof.
  intros Hv He Hmin. destruct (valid_finite true m e Hv) as (Hr & Hm & Hn).
  specialize (Hn ltac:(lia)).
  set (k := e + 53). set (Q := 2 ^ (- e - 1)). set (D := 2 ^ (- e)).
  assert (Hk : 0 <= k <= 32) by (unfold k; lia).
  assert (HQ : Q * 2 ^ k = 2 ^ 52).
  { unfold Q, k. rewrite <- Z.pow_add_r by lia. f_equal. lia. }
  assert (HD : D = 2 * Q).
  { unfold D, Q. rewrite <- Z.pow_succ_r by lia. f_equal. lia. }
  assert (HQ0 : 0 < Q) by (apply Z.pow_pos_nonneg; lia).
  assert (HQ52 : Q <= 2 ^ 52) by (apply Z.pow_le_mono_r; lia).
  assert (Hpk : 0 < 2 ^ k) by (apply Z.pow_pos_nonneg; lia).
  set (u := Q - Zpos m).
  assert (Hrhu : round_half_up (S754_finite true m e) = u / D).
  { unfold round_half_up.
    replace (0 <=? e) with false by (symmetry; apply Z.leb_gt; lia).
    cbn [cond_Zopp]. rewrite round_half_up_alt by lia.
    f_equal. unfold u, Q. lia. }
  rewrite Hrhu in *.
  assert (Hu0 : u / D <= 0).
  { apply Z.div_le_upper_bound; unfold u; lia. }
  assert (H53 : 2 ^ 53 = D * 2 ^ k)
    by (rewrite HD, <- Z.mul_assoc, HQ; reflexivity).
  unfold round_interval. rewrite double_add_half.
  replace (Z.min e (-53)) with (-53) by lia.
  replace (e - -53) with k by (unfold k; lia).
  replace (-53 - -53) with 0 by lia. rewrite Z.pow_0_r, Z.mul_1_r.
  cbn [cond_Zopp].
  replace (- (Zpos m * 2 ^ k) + 2 ^ 52) with (u * 2 ^ k)
    by (unfold u; rewrite <- HQ; ring).
  destruct (u * 2 ^ k) as [|z|z] eqn:Ez; try (unfold u in Ez; nia).
  - (* minus one half *)
    assert (u = 0) by nia.
    replace u with 0 by lia. reflexivity.
  - assert (Hz : Zpos z < 2 ^ (53 + k)).
    { rewrite Z.pow_add_r by lia.
      assert (Zpos z = (- u) * 2 ^ k) by lia. unfold u in *. nia. }
    assert (Hdz : Zpos (digits2_pos z) <= 53 + k) by (apply digits2_lt; lia).
    cbn [binary_normalize].
    destruct (binary_round_exact true z (-53) k)
      as (m2 & e2 & -> & He2 & Hm2 & H1 & H2);
      [lia|exists (- u); lia|exact Hz|lia|rewrite fexp_double; lia|].
    assert (He2' : e2 < 0) by (rewrite He2, fexp_double; lia).
    pose proof (floor_to_int true m2 e2 He2' Hm2) as Hfl.
    cbv zeta in Hfl. cbn [cond_Zopp] in Hfl. rewrite Hfl.
    pose proof (binary_round_exact_floor m2 z (-53) e2 (-1) ltac:(lia) He2'
                  H1 H2) as Hfloor.
    replace (-1 * Zpos m2) with (- Zpos m2) in Hfloor by lia.
    replace (-1 * Zpos z) with (u * 2 ^ k) in Hfloor by lia.
    rewrite Hfloor.
    change (- -53) with 53. rewrite H53, div_scale by lia.
    rewrite in_int_range by (unfold INT_MAX; simpl; lia).
    reflexivity.
Qed.

(** The interval the constructor stores, for every finite argument whose
    rounding fits [int]. *)
Lemma round_interval_correct x :
  valid_binary 53 1024 x = true -> is_finite x = true ->
  INT_MIN <= round_half_up x <= INT_MAX ->
  round_interval x = Some (Z.max 1 (round_half_up x)).
Proof.
  intros Hv Hf [Hmin Hmax].
  destruct x as [s|s| |s m e]; try discriminate Hf.
  - destruct s; reflexivity.
  - destruct (Z_le_gt_dec e (-54)) as [Hs|Hb].
    + destruct (round_interval_small s m e Hv Hs) as [-> ->]. reflexivity.
    + destruct (valid_finite s m e Hv) as (Hr & Hm & Hn).
      specialize (Hn ltac:(lia)).
      destruct s.
      * apply round_interval_negative; [exact Hv| |exact Hmin].
        split; [lia|].
        destruct (Z_le_gt_dec e (-21)) as [L|G]; [exact L|exfalso].
        unfold round_half_up, INT_MIN in Hmin. cbn [cond_Zopp] in Hmin.
        destruct (Z.leb_spec 0 e) as [E|E].
        -- assert (1 <= 2 ^ e)
             by (apply Z.pow_le_mono_r with (a := 2) (b := 0) (c := e); lia).
           change (2 ^ 31) with 2147483648 in Hmin.
           change (2 ^ 52) with 4503599627370496 in Hn. nia.
        -- rewrite round_half_up_alt in Hmin by lia.
           assert (HD : 0 < 2 ^ (- e) <= 2 ^ 20).
           { split; [apply Z.pow_pos_nonneg; lia|].
             apply Z.pow_le_mono_r; lia. }
           assert (HQ : 2 ^ (- e - 1) <= 2 ^ 19)
             by (apply Z.pow_le_mono_r; lia).
           assert ((- Zpos m + 2 ^ (- e - 1)) / 2 ^ (- e) < - 2 ^ 31).
           { apply Z.div_lt_upper_bound; [lia|].
             change (2 ^ 31) with 2147483648.
             change (2 ^ 20) with 1048576 in HD.
             change (2 ^ 19) with 524288 in HQ.
             change (2 ^ 52) with 4503599627370496 in Hn. nia. }
           lia.
      * apply round_interval_positive; [exact Hv| |exact Hmax].
        split; [lia|].
        destruct (Z_le_gt_dec e (-22)) as [L|G]; [exact L|exfalso].
        unfold round_half_up, INT_MAX in Hmax. cbn [cond_Zopp] in Hmax.
        destruct (Z.leb_spec 0 e) as [E|E].
        -- assert (1 <= 2 ^ e)
             by (apply Z.pow_le_mono_r with (a := 2) (b := 0) (c := e); lia).
           change (2 ^ 31) with 2147483648 in Hmax.
           change (2 ^ 52) with 4503599627370496 in Hn. nia.
        -- rewrite round_half_up_alt in Hmax by lia.
           assert (HD : 0 < 2 ^ (- e) <= 2 ^ 21).
           { split; [apply Z.pow_pos_nonneg; lia|].
             apply Z.pow_le_mono_r; lia. }
           assert (HQ : 0 < 2 ^ (- e - 1)) by (apply Z.pow_pos_nonneg; lia).
           assert (2 ^ 31 <= (Zpos m + 2 ^ (- e - 1)) / 2 ^ (- e)).
           { apply Z.div_le_lower_bound; [lia|].
             change (2 ^ 31) with 2147483648.
             change (2 ^ 21) with 2097152 in HD.
             change (2 ^ 52) with 4503599627370496 in Hn. nia. }
           lia.
Qed.

(** ** The monad *)

Section MonadFacts.
Context {World : Type}.

Lemma bind_run {A B} (m : M World A) (f : A -> M World B) (w : World) :
  bind m f w =
  (value (f (value (m w)) (final (m w))),
   events (m w) ++ events (f (value (m w)) (final (m w))),
   final (f (value (m w)) (final (m w)))).
Proof.
  unfold bind, value, events, final.
  destruct (m w) as [[a e1] w1]; simpl.
  destruct (f a w1) as [[b e2] w2]; reflexivity.
Qed.

Lemma events_bind {A B} (m : M World A) (f : A -> M World B) w :
  events (bind m f w) = events (m w) ++ events (f (value (m w)) (final (m w))).
Proof. rewrite bind_run; reflexivity. Qed.

Lemma value_bind {A B} (m : M World A) (f : A -> M World B) w :
  value (bind m f w) = value (f (value (m w)) (final (m w))).
Proof. rewrite bind_run; reflexivity. Qed.

Lemma final_bind {A B} (m : M World A) (f : A -> M World B) w :
  final (bind m f w) = final (f (value (m w)) (final (m w))).
Proof. rewrite bind_run; reflexivity. Qed.

Lemma bind_assoc {A B C} (m : M World A) (f : A -> M World B)
    (g : B -> M World C) w :
  bind (bind m f) g w = bind m (fun a => bind (f a) g) w.
Proof.
  unfold bind. destruct (m w) as [[a e1] w1].
  destruct (f a w1) as [[b e2] w2]. destruct (g b w2) as [[c e3] w3].
  rewrite app_assoc. reflexivity.
Qed.

Lemma bind_ext {A B} (m : M World A) (f g : A -> M World B) w :
  (forall a w', f a w' = g a w') -> bind m f w = bind m g w.
Proof.
  intros H. unfold bind. destruct (m w) as [[a e1] w1]. rewrite H.
  reflexivity.
Qed.

Lemma ret_bind {A B} (a : A) (f : A -> M World B) w :
  bind (ret a) f w = f a w.
Proof.
  unfold bind, ret. destruct (f a w) as [[b e] w']. reflexivity.
Qed.

Lemma events_call {A} (f : World -> A * World) ev w :
  events (call f ev w) = [ev (fst (f w))].
Proof. unfold call, events; destruct (f w); reflexivity. Qed.

Lemma value_call {A} (f : World -> A * World) ev w :
  value (call f ev w) = fst (f w).
Proof. unfold call, value; destruct (f w); reflexivity. Qed.

Lemma final_call {A} (f : World -> A * World) ev w :
  final (call f ev w) = snd (f w).
Proof. unfold call, final; destruct (f w); reflexivity. Qed.

End MonadFacts.

Lemma ticks_app (l1 l2 : list Event) : ticks (l1 ++ l2) = ticks l1 ++ ticks l2.
Proof.
  induction l1 as [|ev l1 IH]; [reflexivity|].
  destruct ev; simpl; rewrite ?IH; reflexivity.
Qed.

Lemma In_ticks (s : TickSample) (evs : list Event) :
  In s (ticks evs) <-> In (EvTick s) evs.
Proof.
  induction evs as [|ev evs IH]; simpl; [tauto|].
  destruct ev; simpl; rewrite IH;
    try (split; [tauto | intros [H|H]; [discriminate | exact H]]).
  split; (intros [H|H]; [left; congruence | right; exact H]).
Qed.

Lemma count_app (f : Event -> bool) (l1 l2 : list Event) :
  count f (l1 ++ l2) = (count f l1 + count f l2)%nat.
Proof. unfold count; rewrite filter_app, length_app; reflexivity. Qed.

Lemma memory_events_cases first lock rss :
  memory_events first lock rss = [] \/
  memory_events first lock rss = [EvResidentFast rss].
Proof. unfold memory_events; destruct (first && FeatureMemory lock); auto. Qed.

Lemma kSuspendFailed_value : kSuspendFailed = 4294967295.
Proof. reflexivity. Qed.

(** ** SampleContext *)

Section SamplerFacts.
Context {World : Type}.
Variable P : Platform World.
Variable cfg : BuildConfig.

(** Every run of [SampleContext] leaves one of the four traces. *)
Lemma SampleContext_traces lock info first (w : World) :
  SampleContext_trace lock info first
    (events (SampleContext P cfg lock info first w)).
Proof.
  unfold SampleContext.
  destruct (Z.eqb_spec (GetThreadHandle (GetPlatformData info)) nullptr)
    as [Hh|Hh].
  - apply trace_no_handle; exact Hh.
  - set (h := GetThreadHandle (GetPlatformData info)) in *.
    rewrite events_bind, events_call, value_call, final_call.
    destruct (TimeStamp_Now P w) as [t w1]; cbn [fst snd].
    rewrite events_bind.
    assert (Hm : exists rss w2,
      (if first && FeatureMemory lock
       then call (ResidentFast P) EvResidentFast else ret 0) w1 =
      (if first && FeatureMemory lock then rss else 0,
       memory_events first lock rss, w2)).
    { unfold memory_events, call, ret.
      destruct (first && FeatureMemory lock).
      - destruct (ResidentFast P w1) as [a w']. exists a, w'. reflexivity.
      - exists 0, w1. reflexivity. }
    destruct Hm as (rss & w2 & Hm). rewrite Hm.
    unfold value at 1, final at 1, events at 1; cbn [fst snd].
    rewrite events_bind, events_call, value_call, final_call.
    destruct (SuspendThread P h w2) as [r w3]; cbn [fst snd].
    destruct (Z.eqb_spec r kSuspendFailed) as [Hr|Hr].
    + subst r. unfold ret, events at 1; cbn [fst snd]. rewrite app_nil_r.
      apply trace_suspend_failed; exact Hh.
    + rewrite events_bind, events_call, value_call, final_call.
      match goal with
      | |- context [GetThreadContext P h ?c w3] =>
          destruct (GetThreadContext P h c w3) as [[ok ctx] w4]
      end.
      cbn [fst snd].
      destruct ok; cbn [negb].
      * rewrite events_bind. unfold call_, events; cbn [fst snd app].
        eapply trace_sampled; eauto;
          destruct (GP_ARCH_amd64 cfg); reflexivity.
      * unfold call_, events; cbn [fst snd app].
        apply trace_context_failed; assumption.
Qed.

End SamplerFacts.
Section LoopFacts.
Context {World : Type}.
Variable P : Platform World.
Variable cfg : BuildConfig.

Lemma SampleContext_no_handle lock info first (w : World) :
  GetThreadHandle (GetPlatformData info) = nullptr ->
  SampleContext P cfg lock info first w = (tt, [], w).
Proof.
  intros Hh. unfold SampleContext. rewrite Hh. reflexivity.
Qed.

Lemma SampleThread_ineligible lock info first (w : World) :
  eligible info = false ->
  SampleThread P cfg lock info first w = (first, [], w).
Proof.
  unfold eligible, SampleThread.
  destruct (HasProfile info), (IsPendingDelete info);
    simpl; intros H; try discriminate H; reflexivity.
Qed.

(** The iteration for an eligible thread, call by call. *)
Lemma SampleThread_eligible lock info first (w : World) :
  eligible info = true ->
  let can := CanDuplicateLastSampleDueToSleep P info w in
  let dup := DuplicateLastSample P (ThreadId info) (StartTime lock) (snd can) in
  SampleThread P cfg lock info first w =
  if fst can then
    if fst dup then
      (first,
       [EvCanDuplicateLastSampleDueToSleep info true;
        EvDuplicateLastSample (ThreadId info) (StartTime lock) true],
       snd dup)
    else
      let sc := SampleContext P cfg lock info first
                  (UpdateThreadResponsiveness P info (snd dup)) in
      (false,
       [EvCanDuplicateLastSampleDueToSleep info true;
        EvDuplicateLastSample (ThreadId info) (StartTime lock) false;
        EvUpdateThreadResponsiveness info] ++ events sc,
       final sc)
  else
    let sc := SampleContext P cfg lock info first
                (UpdateThreadResponsiveness P info (snd can)) in
    (false,
     [EvCanDuplicateLastSampleDueToSleep info false;
      EvUpdateThreadResponsiveness info] ++ events sc,
     final sc).
Proof.
  unfold eligible, SampleThread.
  destruct (HasProfile info), (IsPendingDelete info);
    simpl; intros H; try discriminate H.
  unfold bind, call, call_, ret, events, final.
  destruct (CanDuplicateLastSampleDueToSleep P info w) as [can w1]; simpl.
  destruct can.
  - destruct (DuplicateLastSample P (ThreadId info) (StartTime lock) w1)
      as [dup w2]; simpl.
    destruct dup; [reflexivity|].
    destruct (SampleContext P cfg lock info first
                (UpdateThreadResponsiveness P info w2)) as [[[] e] w3].
    simpl. rewrite app_nil_r. reflexivity.
  - destruct (SampleContext P cfg lock info first
                (UpdateThreadResponsiveness P info w1)) as [[[] e] w3].
    simpl. rewrite app_nil_r. reflexivity.
Qed.

Lemma SampleThreads_app lock (l1 l2 : list ThreadInfo) first (w : World) :
  SampleThreads P cfg lock (l1 ++ l2) first w =
  bind (SampleThreads P cfg lock l1 first)
       (fun f => SampleThreads P cfg lock l2 f) w.
Proof.
  revert first w. induction l1 as [|i l1 IH]; intros first w; simpl.
  - rewrite ret_bind. reflexivity.
  - rewrite bind_assoc. apply bind_ext. intros f w'. apply IH.
Qed.

(** The loop over [pre ++ info :: post] is the loop over [pre], the
    iteration for [info], and the loop over [post], one after the other. *)
Lemma SampleThreads_split lock pre info post first (w : World) :
  let r1 := SampleThreads P cfg lock pre first w in
  let r2 := SampleThread P cfg lock info (value r1) (final r1) in
  let r3 := SampleThreads P cfg lock post (value r2) (final r2) in
  SampleThreads P cfg lock (pre ++ info :: post) first w =
  (value r3, events r1 ++ events r2 ++ events r3, final r3).
Proof.
  intros r1 r2 r3. rewrite SampleThreads_app, bind_run. fold r1.
  change (SampleThreads P cfg lock (info :: post) (value r1) (final r1))
    with (bind (SampleThread P cfg lock info (value r1))
               (fun f => SampleThreads P cfg lock post f) (final r1)).
  rewrite bind_run. fold r2. fold r3. reflexivity.
Qed.

(** Every eligible thread of the list is asked whether its last sample can
    be duplicated: the loop reaches it. *)
Lemma SampleThreads_visits lock threads first (w : World) info :
  In info threads -> eligible info = true ->
  exists b,
    In (EvCanDuplicateLastSampleDueToSleep info b)
       (events (SampleThreads P cfg lock threads first w)).
Proof.
  revert first w. induction threads as [|i rest IH]; intros first w Hin He.
  - destruct Hin.
  - simpl. rewrite events_bind. destruct Hin as [->|Hin].
    + pose proof (SampleThread_eligible lock info first w He) as Heq.
      cbv zeta in Heq. rewrite Heq.
      destruct (fst (CanDuplicateLastSampleDueToSleep P info w)).
      * exists true. apply in_or_app. left.
        destruct (fst (DuplicateLastSample P (ThreadId info) (StartTime lock)
                    (snd (CanDuplicateLastSampleDueToSleep P info w))));
          unfold events; simpl; auto.
      * exists false. apply in_or_app. left. unfold events; simpl; auto.
    + destruct (IH (value (SampleThread P cfg lock i first w))
                   (final (SampleThread P cfg lock i first w)) Hin He)
        as [b Hb].
      exists b. apply in_or_app. right. exact Hb.
Qed.

End LoopFacts.

(** ** What the four traces of [SampleContext] say *)

Ltac trace_cases H :=
  inversion H; subst; clear H;
  match goal with
  | |- context [memory_events ?f ?l ?r] =>
      destruct (memory_events_cases f l r) as [Hmem|Hmem]; rewrite Hmem in *
  | H' : context [memory_events ?f ?l ?r] |- _ =>
      destruct (memory_events_cases f l r) as [Hmem|Hmem]; rewrite Hmem in *
  | _ => idtac
  end;
  cbn [app In] in *.

Ltac in_cases :=
  repeat match goal with
  | H : _ \/ _ |- _ => destruct H
  | H : False |- _ => destruct H
  | H : ?x = ?y :> Event |- _ =>
      first [ discriminate H | is_var y; subst y | is_var x; subst x
            | injection H as; subst ]
  end.

Section TraceFacts.
Context {lock : LockRef} {info : ThreadInfo} {first : bool}.
Context {evs : list Event}.
Hypothesis Htrace : SampleContext_trace lock info first evs.

Let h := GetThreadHandle (GetPlatformData info).

Lemma trace_suspend_failed_drops h' :
  In (EvSuspendThread h' kSuspendFailed) evs ->
  ticks evs = [] /\ count is_any_resume evs = 0%nat.
Proof.
  intros Hin. trace_cases Htrace; in_cases; try (split; reflexivity);
    congruence.
Qed.

Lemma trace_suspended_resumes h' r :
  In (EvSuspendThread h' r) evs -> r <> kSuspendFailed ->
  h' = h /\
  exists before,
    evs = before ++ [EvResumeThread h] /\
    In (EvSuspendThread h r) before /\
    count is_any_resume before = 0%nat.
Proof.
  intros Hin Hr. subst h.
  trace_cases Htrace; in_cases; try congruence; split; try reflexivity;
    set (h := GetThreadHandle (GetPlatformData info)).
  - exists [EvNow t; EvSuspendThread h r;
            EvGetThreadContext h flags false]; simpl; auto.
  - exists [EvNow t; EvResidentFast rss; EvSuspendThread h r;
            EvGetThreadContext h flags false]; simpl; auto 6.
  - exists [EvNow (timestamp s); EvSuspendThread h r;
            EvGetThreadContext h flags true; EvTick s]; simpl; auto.
  - exists [EvNow (timestamp s); EvResidentFast rss; EvSuspendThread h r;
            EvGetThreadContext h flags true; EvTick s]; simpl; auto 6.
Qed.

Lemma trace_context_failed_drops h' flags :
  In (EvGetThreadContext h' flags false) evs ->
  ticks evs = [] /\
  exists before r,
    evs = before ++ [EvResumeThread h] /\
    In (EvSuspendThread h r) before /\ r <> kSuspendFailed.
Proof.
  intros Hin. subst h.
  trace_cases Htrace; in_cases; (split; [reflexivity|]);
    set (h := GetThreadHandle (GetPlatformData info)).
  - exists [EvNow t; EvSuspendThread h r;
            EvGetThreadContext h flags false], r; simpl; auto.
  - exists [EvNow t; EvResidentFast rss; EvSuspendThread h r;
            EvGetThreadContext h flags false], r; simpl; auto 6.
Qed.

(** At most one sample; it is for [info], whose handle is not null, and it
    carries the memory metric only on the first call of a pass with the
    memory feature on. *)
Lemma trace_ticks :
  ticks evs = [] \/
  exists s, ticks evs = [s] /\ threadInfo s = Some info /\ h <> nullptr /\
            (carries_memory s = true ->
             first = true /\ FeatureMemory lock = true).
Proof.
  subst h. trace_cases Htrace; try (left; reflexivity); right;
    (eexists; split; [reflexivity|]); repeat split; auto;
    match goal with
    | H : rssMemory ?s = _, Hc : carries_memory ?s = true |- _ =>
        unfold carries_memory in Hc; rewrite H in Hc
    end;
    destruct first, (FeatureMemory lock); simpl in *; try discriminate;
    reflexivity.
Qed.

Lemma trace_first_sample :
  first = true -> FeatureMemory lock = true ->
  forall s, In (EvTick s) evs ->
  exists rss, In (EvResidentFast rss) evs /\ rssMemory s = rss.
Proof.
  intros Hf Hm s Hin.
  assert (Hme : forall rss,
            memory_events first lock rss = [EvResidentFast rss]).
  { intros rss. unfold memory_events. rewrite Hf, Hm. reflexivity. }
  inversion Htrace; subst; clear Htrace; try rewrite Hme in Hin;
    cbn [app In] in Hin; in_cases.
  exists rss. rewrite Hme. split; [simpl; auto|].
  match goal with H : rssMemory _ = _ |- _ => rewrite H end.
  rewrite Hm. reflexivity.
Qed.

Lemma trace_no_loop_events ev :
  In ev evs ->
  match ev with
  | EvNow _ | EvResidentFast _ | EvSuspendThread _ _
  | EvGetThreadContext _ _ _ | EvResumeThread _ | EvTick _ => True
  | _ => False
  end.
Proof.
  intros Hin. trace_cases Htrace; in_cases; exact I.
Qed.

End TraceFacts.

Lemma count_resume_le h (l : list Event) :
  (count (is_resume h) l <= count is_any_resume l)%nat.
Proof.
  unfold count. induction l as [|ev l IH]; simpl; [lia|].
  destruct ev; simpl; try exact IH.
  destruct (h0 =? h); simpl; lia.
Qed.

Lemma loop_events_silent (l : list Event) :
  Forall (fun ev => is_loop_event ev = true) l ->
  ticks l = [] /\ count is_any_resume l = 0%nat /\
  forall ev, In ev l -> is_loop_event ev = true.
Proof.
  intros H. repeat split.
  - induction H as [|ev l Hev _ IH]; [reflexivity|].
    destruct ev; simpl in *; try discriminate; exact IH.
  - induction H as [|ev l Hev _ IH]; [reflexivity|].
    destruct ev; simpl in *; try discriminate; exact IH.
  - apply Forall_forall; exact H.
Qed.

Section IterationFacts.
Context {World : Type}.
Variable P : Platform World.
Variable cfg : BuildConfig.

(** The trace of one iteration: calls of the loop body itself, then the
    trace of [SampleContext] when the thread is neither skipped nor
    duplicated. *)
Lemma SampleThread_events lock info first (w : World) :
  let r := SampleThread P cfg lock info first w in
  exists head sc,
    events r = head ++ sc /\
    Forall (fun ev => is_loop_event ev = true) head /\
    ((sc = [] /\ value r = first) \/
     (SampleContext_trace lock info first sc /\ value r = false /\
      eligible info = true /\
      In (EvUpdateThreadResponsiveness info) head)).
Proof.
  intros r. subst r.
  destruct (eligible info) eqn:He.
  - pose proof (SampleThread_eligible P cfg lock info first w He) as Heq.
    cbv zeta in Heq. rewrite Heq. clear Heq.
    destruct (fst (CanDuplicateLastSampleDueToSleep P info w)).
    + destruct (fst (DuplicateLastSample P (ThreadId info) (StartTime lock)
                  (snd (CanDuplicateLastSampleDueToSleep P info w)))).
      * eexists _, []. unfold events, value; cbn [fst snd].
        rewrite app_nil_r. split; [reflexivity|]. split; [|left; auto].
        repeat constructor.
      * eexists _, _. unfold events at 1, value; cbn [fst snd].
        split; [reflexivity|]. split; [repeat constructor|].
        right. split; [apply SampleContext_traces|].
        simpl; tauto.
    + eexists _, _. unfold events at 1, value; cbn [fst snd].
      split; [reflexivity|]. split; [repeat constructor|].
      right. split; [apply SampleContext_traces|].
      simpl; tauto.
  - rewrite (SampleThread_ineligible P cfg lock info first w He).
    exists [], []. unfold events, value; simpl. auto.
Qed.

End IterationFacts.

(** ** The suspension controller *)

Section Suspension.
Context {World : Type}.
Variable P : Platform World.
Variable cfg : BuildConfig.

(** C1.  In [SampleContext], whenever [SuspendThread] succeeds on the target
    thread, exactly one [ResumeThread] is issued for it: it is the last call
    before the function returns, and no other resume precedes it.  Nothing is
    assumed about [GetThreadContext], so the exit after a failed context read
    is covered as well. *)
Theorem SampleContext_suspend_resume_paired lock info first (w : World) r :
  let h := GetThreadHandle (GetPlatformData info) in
  let evs := events (SampleContext P cfg lock info first w) in
  In (EvSuspendThread h r) evs -> r <> kSuspendFailed ->
  count (is_resume h) evs = 1%nat /\
  exists before,
    evs = before ++ [EvResumeThread h] /\
    In (EvSuspendThread h r) before /\
    count is_any_resume before = 0%nat.
Proof.
  intros h evs Hin Hr.
  destruct (trace_suspended_resumes
              (SampleContext_traces P cfg lock info first w) _ _ Hin Hr)
    as (_ & before & Heq & Hb & Hc).
  fold h in Heq. fold evs in Heq. split.
  - rewrite Heq, count_app.
    pose proof (count_resume_le h before) as Hle.
    unfold count at 2; simpl. rewrite Z.eqb_refl. simpl. lia.
  - exists before. auto.
Qed.

(** C6.  In the iteration of the loop for [info], when [SuspendThread]
    succeeds and [GetThreadContext] then fails, no sample reaches [Tick], the
    last call of the iteration is the [ResumeThread] of the thread, and the
    loop goes on with the threads after [info]. *)
Theorem context_read_failure_resumes_and_continues
    lock pre info post first (w : World) r flags :
  let h := GetThreadHandle (GetPlatformData info) in
  let r1 := SampleThreads P cfg lock pre first w in
  let r2 := SampleThread P cfg lock info (value r1) (final r1) in
  let r3 := SampleThreads P cfg lock post false (final r2) in
  In (EvSuspendThread h r) (events r2) -> r <> kSuspendFailed ->
  In (EvGetThreadContext h flags false) (events r2) ->
  ticks (events r2) = [] /\
  (exists before,
     events r2 = before ++ [EvResumeThread h] /\
     In (EvSuspendThread h r) before /\
     count is_any_resume before = 0%nat) /\
  SampleThreads P cfg lock (pre ++ info :: post) first w =
    (value r3, events r1 ++ events r2 ++ events r3, final r3) /\
  ticks (events (SampleThreads P cfg lock (pre ++ info :: post) first w)) =
    ticks (events r1) ++ ticks (events r3).
Proof.
  intros h r1 r2 r3 Hs Hr Hc.
  destruct (SampleThread_events P cfg lock info (value r1) (final r1))
    as (head & sc & Heq & Hhead & Hsc).
  fold r2 in Heq, Hsc.
  destruct (loop_events_silent _ Hhead) as (Hticks & Hres & Hloop).
  assert (Hs' : In (EvSuspendThread h r) sc).
  { rewrite Heq in Hs. apply in_app_or in Hs. destruct Hs as [Hs|Hs]; auto.
    apply Hloop in Hs. discriminate Hs. }
  assert (Hc' : In (EvGetThreadContext h flags false) sc).
  { rewrite Heq in Hc. apply in_app_or in Hc. destruct Hc as [Hc|Hc]; auto.
    apply Hloop in Hc. discriminate Hc. }
  destruct Hsc as [[-> _]|(Htr & Hv & _)]; [destruct Hs'|].
  destruct (trace_context_failed_drops Htr _ _ Hc') as (Ht & _).
  destruct (trace_suspended_resumes Htr _ _ Hs' Hr)
    as (_ & before & Hb & Hin & Hcount).
  assert (Hsplit := SampleThreads_split P cfg lock pre info post first w).
  cbv zeta in Hsplit. fold r1 in Hsplit. fold r2 in Hsplit.
  rewrite Hv in Hsplit. fold r3 in Hsplit.
  assert (Ht2 : ticks (events r2) = []).
  { rewrite Heq, ticks_app, Hticks, Ht. reflexivity. }
  repeat split.
  - exact Ht2.
  - exists (head ++ before). split; [|split].
    + rewrite Heq, Hb, app_assoc. reflexivity.
    + apply in_or_app. right. exact Hin.
    + rewrite count_app, Hres, Hcount. reflexivity.
  - exact Hsplit.
  - rewrite Hsplit. unfold events at 1; cbn [fst snd].
    rewrite !ticks_app, Ht2. reflexivity.
Qed.


(** C4.  In the loop of a pass, for an eligible thread whose
    [CanDuplicateLastSampleDueToSleep] answers true: when
    [DuplicateLastSample] succeeds, the iteration makes these two calls only
    (no suspend, no resume) and leaves [isFirstProfiledThread] as it was;
    when it returns false, the iteration goes on, in the same pass, with
    [UpdateThreadResponsiveness] and then [SampleContext]. *)
Theorem duplicate_skips_or_falls_through
    lock pre info post first (w : World) :
  let r1 := SampleThreads P cfg lock pre first w in
  let can := CanDuplicateLastSampleDueToSleep P info (final r1) in
  let dup :=
    DuplicateLastSample P (ThreadId info) (StartTime lock) (snd can) in
  let r2 := SampleThread P cfg lock info (value r1) (final r1) in
  let r3 := SampleThreads P cfg lock post (value r2) (final r2) in
  eligible info = true -> fst can = true ->
  SampleThreads P cfg lock (pre ++ info :: post) first w =
    (value r3, events r1 ++ events r2 ++ events r3, final r3) /\
  (fst dup = true ->
     r2 = (value r1,
           [EvCanDuplicateLastSampleDueToSleep info true;
            EvDuplicateLastSample (ThreadId info) (StartTime lock) true],
           snd dup) /\
     count is_suspend (events r2) = 0%nat /\
     count is_any_resume (events r2) = 0%nat) /\
  (fst dup = false ->
     let sc := SampleContext P cfg lock info (value r1)
                 (UpdateThreadResponsiveness P info (snd dup)) in
     r2 = (false,
           [EvCanDuplicateLastSampleDueToSleep info true;
            EvDuplicateLastSample (ThreadId info) (StartTime lock) false;
            EvUpdateThreadResponsiveness info] ++ events sc,
           final sc)).
Proof.
  intros r1 can dup r2 r3 He Hcan.
  split; [apply SampleThreads_split|].
  pose proof (SampleThread_eligible P cfg lock info (value r1) (final r1) He)
    as Heq.
  cbv zeta in Heq. fold r2 can in Heq. rewrite Hcan in Heq. fold dup in Heq.
  split; intros Hdup; rewrite Hdup in Heq.
  - rewrite Heq. repeat split.
  - exact Heq.
Qed.

End Suspension.

(** ** The loop of [Run] *)

Section RunFacts.
Context {World : Type}.
Variable P : Platform World.
Variable cfg : BuildConfig.

Lemma Pass_stop self (w : World) :
  ActivityGeneration (gPS P (AutoLock P w)) <> mActivityGeneration self ->
  Pass P cfg self w = (false, [EvLock; EvUnlock], AutoUnlock P (AutoLock P w)).
Proof.
  intros H. unfold Pass, bind, call_, read, ret.
  destruct (Z.eqb_spec (ActivityGeneration (gPS P (AutoLock P w)))
              (mActivityGeneration self)) as [E|E]; [contradiction|].
  reflexivity.
Qed.

Lemma Pass_go self (w : World) :
  ActivityGeneration (gPS P (AutoLock P w)) = mActivityGeneration self ->
  let lock := gPS P (AutoLock P w) in
  let w1 := deleteExpiredStoredMarkers P (AutoLock P w) in
  let r := SampleThreads P cfg lock (Threads lock) true w1 in
  Pass P cfg self w =
  if IsPaused lock
  then (true, [EvLock; EvDeleteExpiredStoredMarkers; EvUnlock],
        AutoUnlock P w1)
  else (true,
        [EvLock; EvDeleteExpiredStoredMarkers] ++ events r ++ [EvUnlock],
        AutoUnlock P (final r)).
Proof.
  intros H lock w1 r. unfold Pass, bind, call_, read, ret.
  rewrite H, Z.eqb_refl. cbn [negb]. fold lock. fold w1.
  destruct (IsPaused lock); cbn [negb]; [reflexivity|].
  fold r. destruct r as [[f e] w2]. unfold events, final; cbn [fst snd app].
  rewrite app_nil_r. reflexivity.
Qed.

Lemma Run_stop self (w : World) fuel :
  ActivityGeneration (gPS P (AutoLock P w)) <> mActivityGeneration self ->
  Run P cfg (S fuel) self w =
  (Returned, [EvLock; EvUnlock], AutoUnlock P (AutoLock P w)).
Proof.
  intros H. cbn [Run]. unfold bind. rewrite (Pass_stop self w H).
  reflexivity.
Qed.

Lemma Pass_value self (w : World) :
  value (Pass P cfg self w) =
  (ActivityGeneration (gPS P (AutoLock P w)) =? mActivityGeneration self).
Proof.
  destruct (Z.eqb_spec (ActivityGeneration (gPS P (AutoLock P w)))
              (mActivityGeneration self)) as [E|E].
  - pose proof (Pass_go self w E) as H. cbv zeta in H. rewrite H.
    destruct (IsPaused _); reflexivity.
  - rewrite (Pass_stop self w E). reflexivity.
Qed.

Lemma Run_go self (w : World) fuel :
  ActivityGeneration (gPS P (AutoLock P w)) = mActivityGeneration self ->
  let p := Pass P cfg self w in
  let r := Run P cfg fuel self (Sleep P (mInterval self) (final p)) in
  Run P cfg (S fuel) self w =
  (value r, events p ++ EvSleep (mInterval self) :: events r, final r).
Proof.
  intros H p r. cbn [Run]. rewrite bind_run. fold p.
  replace (value p) with true
    by (unfold p; rewrite Pass_value, H, Z.eqb_refl; reflexivity).
  rewrite bind_run. unfold call_ at 1 2 3 4 5.
  unfold value at 2, final at 2 3, events at 2 3 4; cbn [fst snd].
  fold r. reflexivity.
Qed.

(** When [Run] has returned, its last pass saw another generation, and
    more fuel changes nothing. *)
Lemma Run_returned fuel : forall self (w : World),
  value (Run P cfg fuel self w) = Returned ->
  exists w' evs,
    ActivityGeneration (gPS P (AutoLock P w')) <> mActivityGeneration self /\
    events (Run P cfg fuel self w) = evs ++ [EvLock; EvUnlock] /\
    final (Run P cfg fuel self w) = AutoUnlock P (AutoLock P w') /\
    forall fuel', (fuel <= fuel')%nat ->
      Run P cfg fuel' self w = Run P cfg fuel self w.
Proof.
  induction fuel as [|fuel IH]; intros self w Hret.
  - discriminate Hret.
  - destruct (Z.eq_dec (ActivityGeneration (gPS P (AutoLock P w)))
                (mActivityGeneration self)) as [E|E].
    + pose proof (Run_go self w fuel E) as Hgo. cbv zeta in Hgo.
      rewrite Hgo in Hret |- *. unfold value in Hret; cbn [fst] in Hret.
      destruct (IH self _ Hret) as (w' & evs & Hne & Hev & Hfin & Hmore).
      exists w'.
      exists (events (Pass P cfg self w) ++ EvSleep (mInterval self) :: evs).
      split; [exact Hne|]. unfold events at 1, final at 1; cbn [fst snd].
      split; [|split].
      * rewrite Hev, <- app_assoc. reflexivity.
      * exact Hfin.
      * intros [|fuel'] Hle; [lia|].
        pose proof (Run_go self w fuel' E) as Hgo'. cbv zeta in Hgo'.
        rewrite Hgo', (Hmore fuel') by lia. reflexivity.
    + exists w, []. split; [exact E|]. rewrite (Run_stop self w fuel E).
      repeat split. intros [|fuel'] Hle; [lia|]. apply Run_stop; exact E.
Qed.

(** C2.  At the top of a pass of [Run]: when the activity generation read
    under the lock differs from [mActivityGeneration], [Run] returns with the
    lock taken and released and nothing else, whatever fuel is left (no
    buffer maintenance, no thread, no sleep, no further pass); when it is
    equal, the pass runs, is followed by the sleep and the loop goes on.  A
    run that has returned therefore ended on a pass that saw the mismatch,
    and it has returned for good: more fuel gives the same run. *)
Theorem Run_stops_on_generation_mismatch_only self (w : World) :
  let lock := gPS P (AutoLock P w) in
  (ActivityGeneration lock <> mActivityGeneration self ->
   forall fuel,
     Run P cfg (S fuel) self w =
     (Returned, [EvLock; EvUnlock], AutoUnlock P (AutoLock P w))) /\
  (ActivityGeneration lock = mActivityGeneration self ->
   forall fuel,
     let p := Pass P cfg self w in
     let r := Run P cfg fuel self (Sleep P (mInterval self) (final p)) in
     value p = true /\
     Run P cfg (S fuel) self w =
     (value r, events p ++ EvSleep (mInterval self) :: events r, final r)) /\
  (forall fuel,
     value (Run P cfg fuel self w) = Returned ->
     exists w' evs,
       ActivityGeneration (gPS P (AutoLock P w')) <>
         mActivityGeneration self /\
       events (Run P cfg fuel self w) = evs ++ [EvLock; EvUnlock] /\
       final (Run P cfg fuel self w) = AutoUnlock P (AutoLock P w') /\
       forall fuel', (fuel <= fuel')%nat ->
         Run P cfg fuel' self w = Run P cfg fuel self w).
Proof.
  intros lock. split; [|split].
  - intros H fuel. apply Run_stop; exact H.
  - intros H fuel p r. split.
    + unfold p. rewrite Pass_value. fold lock. rewrite H. apply Z.eqb_refl.
    + apply Run_go; exact H.
  - intros fuel. apply Run_returned.
Qed.

End RunFacts.

(** ** Properties of every event of a run *)

Section RunEvents.
Context {World : Type}.
Variable P : Platform World.
Variable cfg : BuildConfig.
Variable self : SamplerThread.
Variable Q : Event -> Prop.
Hypothesis Q_lock : Q EvLock.
Hypothesis Q_unlock : Q EvUnlock.
Hypothesis Q_markers : Q EvDeleteExpiredStoredMarkers.
Hypothesis Q_sleep : Q (EvSleep (mInterval self)).
Hypothesis Q_thread : forall lock info first (w : World),
  Forall Q (events (SampleThread P cfg lock info first w)).

Lemma SampleThreads_Forall lock threads : forall first (w : World),
  Forall Q (events (SampleThreads P cfg lock threads first w)).
Proof.
  induction threads as [|i rest IH]; intros first w; simpl.
  - constructor.
  - rewrite events_bind. apply Forall_app. split; [apply Q_thread|apply IH].
Qed.

Lemma Pass_Forall (w : World) : Forall Q (events (Pass P cfg self w)).
Proof.
  destruct (Z.eq_dec (ActivityGeneration (gPS P (AutoLock P w)))
              (mActivityGeneration self)) as [E|E].
  - pose proof (Pass_go P cfg self w E) as H. cbv zeta in H. rewrite H.
    destruct (IsPaused _); unfold events at 1; cbn [fst snd].
    + repeat constructor; assumption.
    + repeat (apply Forall_cons; [assumption|]).
      apply Forall_app. split; [apply SampleThreads_Forall|].
      repeat constructor; assumption.
  - rewrite (Pass_stop P cfg self w E). repeat constructor; assumption.
Qed.

Lemma Run_Forall fuel : forall (w : World),
  Forall Q (events (Run P cfg fuel self w)).
Proof.
  induction fuel as [|fuel IH]; intros w.
  - constructor.
  - destruct (Z.eq_dec (ActivityGeneration (gPS P (AutoLock P w)))
                (mActivityGeneration self)) as [E|E].
    + pose proof (Run_go P cfg self w fuel E) as H. cbv zeta in H.
      rewrite H. unfold events at 1; cbn [fst snd].
      apply Forall_app. split; [apply Pass_Forall|].
      constructor; [assumption|apply IH].
    + rewrite (Run_stop P cfg self w fuel E). repeat constructor; assumption.
Qed.

End RunEvents.

Section Unsampleable.
Context {World : Type}.
Variable P : Platform World.
Variable cfg : BuildConfig.

(** Every sample of an iteration is for the thread of that iteration,
    and that thread has a handle. *)
Lemma SampleThread_ticks lock info first (w : World) s :
  In (EvTick s) (events (SampleThread P cfg lock info first w)) ->
  threadInfo s = Some info /\
  GetThreadHandle (GetPlatformData info) <> nullptr.
Proof.
  intros Hin.
  destruct (SampleThread_events P cfg lock info first w)
    as (head & sc & Heq & Hhead & Hsc).
  rewrite Heq in Hin. apply in_app_or in Hin. destruct Hin as [Hin|Hin].
  - destruct (loop_events_silent _ Hhead) as (_ & _ & Hloop).
    apply Hloop in Hin. discriminate Hin.
  - destruct Hsc as [[-> _]|(Htr & _)]; [destruct Hin|].
    apply In_ticks in Hin.
    destruct (trace_ticks Htr) as [E|(s' & E & Hi & Hh & _)];
      rewrite E in Hin; [destruct Hin|].
    destruct Hin as [<-|[]]. auto.
Qed.

(** C9.  A thread whose [OpenThread] failed has a null handle in its
    [PlatformData]; every call of [SampleContext] on it returns at once (no
    call at all is made: no suspend, no context read, no [Tick], nothing
    reported), and no run of the sampler, however long, records a sample
    for it. *)
Theorem null_handle_thread_is_never_sampled tid (w0 : World) info :
  fst (OpenThread P tid w0) = nullptr ->
  GetPlatformData info = value (AllocPlatformData P tid w0) ->
  GetThreadHandle (GetPlatformData info) = nullptr /\
  (forall lock first w,
     SampleContext P cfg lock info first w = (tt, [], w)) /\
  (forall fuel self w s,
     In (EvTick s) (events (Run P cfg fuel self w)) ->
     threadInfo s <> Some info).
Proof.
  intros Hopen Hdata.
  assert (Hh : GetThreadHandle (GetPlatformData info) = nullptr).
  { rewrite Hdata. unfold AllocPlatformData, PlatformData_new.
    rewrite value_bind, value_call. exact Hopen. }
  split; [exact Hh|]. split.
  - intros lock first w. apply SampleContext_no_handle; exact Hh.
  - intros fuel self w s Hin.
    pose proof (Run_Forall P cfg self
      (fun ev => match ev with
                 | EvTick s => threadInfo s <> Some info
                 | _ => True
                 end) I I I I) as HF.
    assert (HQ : forall lock i first (w : World),
      Forall (fun ev => match ev with
                        | EvTick s => threadInfo s <> Some info
                        | _ => True
                        end)
             (events (SampleThread P cfg lock i first w))).
    { intros lock i first w1. apply Forall_forall. intros ev Hev.
      destruct ev; try exact I.
      destruct (SampleThread_ticks _ _ _ _ _ Hev) as [Hi Hn].
      rewrite Hi. intros Heq. injection Heq as ->. contradiction. }
    specialize (HF HQ fuel w). rewrite Forall_forall in HF.
    exact (HF _ Hin).
Qed.

End Unsampleable.

(** ** Timer resolution *)

Section Timer.
Context {World : Type}.
Variable P : Platform World.

Lemma SamplerThread_new_with_run to_int lock gen aInterval (w : World) :
  let i := Z.max 1 (to_int (floor (double_add aInterval double_half))) in
  let w1 := if i <? 10 then timeBeginPeriod P i w else w in
  let t := _beginthreadex P w1 in
  SamplerThread_new_with P to_int lock gen aInterval w =
  (if fst t =? 0 then Crashed
   else Built {| mActivityGeneration := gen; mThread := fst t;
                 mInterval := i |},
   (if i <? 10 then [EvTimeBeginPeriod i] else []) ++
   [EvBeginThreadEx (fst t)],
   snd t).
Proof.
  intros i w1 t. unfold SamplerThread_new_with. fold i.
  unfold bind, call, call_, ret. subst t w1.
  destruct (i <? 10).
  - destruct (_beginthreadex P (timeBeginPeriod P i w)) as [t w2].
    cbn [fst snd]. destruct (t =? 0); reflexivity.
  - destruct (_beginthreadex P w) as [t w2].
    cbn [fst snd]. destruct (t =? 0); reflexivity.
Qed.

(** Where the language defines the conversion and [to_int] gives its value,
    the constructor of the build is [SamplerThread_new]. *)
Lemma SamplerThread_new_with_defined to_int lock gen aInterval (w : World) :
  double_to_int (floor (double_add aInterval double_half)) =
    Some (to_int (floor (double_add aInterval double_half))) ->
  round_interval aInterval =
    Some (Z.max 1 (to_int (floor (double_add aInterval double_half)))) /\
  SamplerThread_new P lock gen aInterval w =
  SamplerThread_new_with P to_int lock gen aInterval w.
Proof.
  intros H.
  assert (Hr : round_interval aInterval =
    Some (Z.max 1 (to_int (floor (double_add aInterval double_half))))).
  { unfold round_interval. rewrite H. reflexivity. }
  split; [exact Hr|].
  unfold SamplerThread_new, SamplerThread_new_with. rewrite Hr.
  reflexivity.
Qed.

(** C7.  For every interval given to the constructor, a NaN, an infinity
    and a value whose rounding does not fit [int] among them, and for
    whatever [int] the conversion of the build gives: the constructor calls
    [timeBeginPeriod] if and only if the stored interval, the rounded
    interval clamped to 1, is below 10, with that interval and at most once;
    it crashes or builds the sampler; [Stop] on the sampler built calls
    [timeEndPeriod] under the same condition and with the same interval, so
    that for every argument the constructor makes as many [timeBeginPeriod]
    calls as [Stop] makes [timeEndPeriod] calls.  Where the language defines
    the conversion, this is the constructor [SamplerThread_new] and the
    interval is [round_interval]. *)
Theorem timer_resolution_paired
    to_int lock gen aInterval (w : World) lock' :
  let interval :=
    Z.max 1 (to_int (floor (double_add aInterval double_half))) in
  let ctor := SamplerThread_new_with P to_int lock gen aInterval w in
  (In (EvTimeBeginPeriod interval) (events ctor) <-> interval < 10) /\
  (forall ms, In (EvTimeBeginPeriod ms) (events ctor) -> ms = interval) /\
  (count is_any_timeBeginPeriod (events ctor) <= 1)%nat /\
  (value ctor = Crashed \/ exists st, value ctor = Built st) /\
  (forall st, value ctor = Built st ->
     mInterval st = interval /\
     forall w' : World,
       let stop := Stop P st lock' w' in
       (In (EvTimeEndPeriod interval) (events stop) <-> interval < 10) /\
       (forall ms, In (EvTimeEndPeriod ms) (events stop) -> ms = interval) /\
       forall ms,
         count (is_timeBeginPeriod ms) (events ctor) =
         count (is_timeEndPeriod ms) (events stop)) /\
  (double_to_int (floor (double_add aInterval double_half)) =
     Some (to_int (floor (double_add aInterval double_half))) ->
   round_interval aInterval = Some interval /\
   SamplerThread_new P lock gen aInterval w = ctor).
Proof.
  intros interval ctor.
  pose proof (SamplerThread_new_with_run to_int lock gen aInterval w) as H.
  cbv zeta in H. fold interval in H. fold ctor in H.
  split; [|split; [|split; [|split; [|split]]]].
  - rewrite H. unfold events; cbn [fst snd].
    destruct (Z.ltb_spec interval 10) as [Hi|Hi].
    + split; [intros _; exact Hi|intros _; left; reflexivity].
    + split; [intros [E|[]]; discriminate E|lia].
  - intros ms. rewrite H. unfold events; cbn [fst snd].
    destruct (interval <? 10).
    + intros [E|[E|[]]]; [injection E as <-; reflexivity|discriminate E].
    + intros [E|[]]; discriminate E.
  - rewrite H. unfold events; cbn [fst snd].
    destruct (interval <? 10); unfold count; simpl; lia.
  - rewrite H. unfold value; cbn [fst snd].
    destruct (_ =? 0); [left; reflexivity|right; eexists; reflexivity].
  - intros st Hst.
    assert (Hm : mInterval st = interval).
    { rewrite H in Hst. unfold value in Hst; cbn [fst snd] in Hst.
      destruct (_ =? 0); [discriminate Hst|].
      injection Hst as <-. reflexivity. }
    split; [exact Hm|]. intros w' stop. subst stop. unfold Stop.
    rewrite Hm, H. unfold events; cbn [fst snd].
    destruct (Z.ltb_spec interval 10) as [Hi|Hi].
    + unfold call_; cbn [fst snd app]. split; [|split].
      * split; [intros _; exact Hi|intros _; left; reflexivity].
      * intros ms [E|[]]. injection E as <-. reflexivity.
      * intros ms. unfold count; simpl.
        destruct (interval =? ms); reflexivity.
    + unfold ret; cbn [fst snd app]. split; [|split].
      * split; [intros []|lia].
      * intros ms [].
      * intros ms. reflexivity.
  - intros Hd. subst ctor interval.
    exact (SamplerThread_new_with_defined to_int lock gen aInterval w Hd).
Qed.

End Timer.

(** ** Register extraction *)

Section Registers.
Context {World : Type}.
Variable P : Platform World.
Variable cfg : BuildConfig.

Lemma SampleContext_registers lock info first (w : World) s :
  In (EvTick s) (events (SampleContext P cfg lock info first w)) ->
  exists ctx,
    context s = Some ctx /\
    registers s =
    if GP_ARCH_amd64 cfg then (Rip ctx, Rsp ctx, Rbp ctx)
    else (Eip ctx, Esp ctx, Ebp ctx).
Proof.
  unfold SampleContext.
  destruct (GetThreadHandle (GetPlatformData info) =? nullptr);
    [intros []|].
  unfold bind, call, call_, ret, events.
  destruct (TimeStamp_Now P w) as [t w1].
  destruct (first && FeatureMemory lock).
  - destruct (ResidentFast P w1) as [rss w2].
    destruct (SuspendThread P _ w2) as [r w3].
    destruct (r =? kSuspendFailed); cbn [fst snd app In];
      [intros [H|[H|[H|[]]]]; discriminate H|].
    destruct (GetThreadContext P _ _ w3) as [[ok ctx] w4].
    destruct ok; cbn [fst snd app In negb];
      intros Hin; in_cases.
    exists ctx. destruct (GP_ARCH_amd64 cfg); split; reflexivity.
  - destruct (SuspendThread P _ w1) as [r w3].
    destruct (r =? kSuspendFailed); cbn [fst snd app In];
      [intros [H|[H|[]]]; discriminate H|].
    destruct (GetThreadContext P _ _ w3) as [[ok ctx] w4].
    destruct ok; cbn [fst snd app In negb];
      intros Hin; in_cases.
    exists ctx. destruct (GP_ARCH_amd64 cfg); split; reflexivity.
Qed.

(** C10.  On a build for amd64 or for x86, the sample [SampleContext] hands
    to [Tick] and the sample [PopulateContext] fills both hold a context, and
    their [pc], [sp], [fp] are the same function of it: [Rip], [Rsp], [Rbp]
    when [GP_ARCH_amd64] is defined, [Eip], [Esp], [Ebp] otherwise.  Hence
    two samples that hold the same context have the same registers. *)
Theorem PopulateContext_extracts_like_SampleContext
    lock info first (w : World) s this aContext (w' : World) :
  let s' := value (PopulateContext P cfg this aContext w') in
  GP_ARCH_amd64 cfg = true \/ GP_ARCH_x86 cfg = true ->
  In (EvTick s) (events (SampleContext P cfg lock info first w)) ->
  (exists ctx,
     context s = Some ctx /\
     registers s =
     if GP_ARCH_amd64 cfg then (Rip ctx, Rsp ctx, Rbp ctx)
     else (Eip ctx, Esp ctx, Ebp ctx)) /\
  (exists ctx',
     context s' = Some ctx' /\
     registers s' =
     if GP_ARCH_amd64 cfg then (Rip ctx', Rsp ctx', Rbp ctx')
     else (Eip ctx', Esp ctx', Ebp ctx')) /\
  (context s = context s' -> registers s = registers s').
Proof.
  intros s' Harch Hin.
  destruct (SampleContext_registers lock info first w s Hin)
    as (ctx & Hc & Hr).
  assert (H' : exists ctx',
     context s' = Some ctx' /\
     registers s' =
     if GP_ARCH_amd64 cfg then (Rip ctx', Rsp ctx', Rbp ctx')
     else (Eip ctx', Esp ctx', Ebp ctx')).
  { subst s'. unfold PopulateContext, bind, call, ret, value.
    destruct (RtlCaptureContext P aContext w') as [c w2].
    exists c. destruct (GP_ARCH_amd64 cfg); [split; reflexivity|].
    destruct Harch as [H|H]; [discriminate H|]. rewrite H.
    split; reflexivity. }
  split; [exists ctx; auto|]. split; [exact H'|].
  destruct H' as (ctx' & Hc' & Hr'). intros Heq.
  rewrite Hc, Hc' in Heq. injection Heq as ->. rewrite Hr, Hr'. reflexivity.
Qed.

End Registers.

(** ** The memory metric *)

Section Memory.
Context {World : Type}.
Variable P : Platform World.
Variable cfg : BuildConfig.
Variable lock : LockRef.

Lemma SampleThread_carrying info first (w : World) :
  let r := SampleThread P cfg lock info first w in
  (ticks (events r) = [] /\ (value r = first \/ value r = false)) \/
  (exists s,
     ticks (events r) = [s] /\ threadInfo s = Some info /\
     value r = false /\ eligible info = true /\
     (carries_memory s = true ->
      first = true /\ FeatureMemory lock = true)).
Proof.
  intros r. subst r.
  destruct (SampleThread_events P cfg lock info first w)
    as (head & sc & Heq & Hhead & Hsc).
  destruct (loop_events_silent _ Hhead) as (Hticks & _ & _).
  rewrite Heq, ticks_app, Hticks. cbn [app].
  destruct Hsc as [[-> Hv]|(Htr & Hv & He & _)].
  - left. auto.
  - destruct (trace_ticks Htr) as [E|(s & E & Hi & _ & Hc)]; rewrite E.
    + left. auto.
    + right. exists s. auto.
Qed.

Lemma SampleThreads_not_first threads : forall (w : World),
  filter carries_memory
    (ticks (events (SampleThreads P cfg lock threads false w))) = [] /\
  value (SampleThreads P cfg lock threads false w) = false.
Proof.
  induction threads as [|i rest IH]; intros w; [split; reflexivity|].
  cbn [SampleThreads]. rewrite events_bind, value_bind, ticks_app, filter_app.
  assert (Hv : value (SampleThread P cfg lock i false w) = false).
  { destruct (SampleThread_carrying i false w)
      as [(_ & [H|H])|(s & _ & _ & H & _)]; exact H. }
  rewrite Hv. destruct (IH (final (SampleThread P cfg lock i false w)))
    as [IH1 IH2].
  rewrite IH1, IH2, app_nil_r. split; [|reflexivity].
  destruct (SampleThread_carrying i false w)
    as [(E & _)|(s & E & _ & _ & _ & Hc)]; rewrite E; [reflexivity|].
  cbn [filter]. destruct (carries_memory s); [|reflexivity].
  destruct (Hc eq_refl) as [H _]. discriminate H.
Qed.

(** Starting a pass, the samples that carry the metric are none, or the one
    sample of the first thread handed to [SampleContext]. *)
Lemma SampleThreads_carrying threads : forall (w : World),
  let evs := events (SampleThreads P cfg lock threads true w) in
  filter carries_memory (ticks evs) = [] \/
  exists s pre info post,
    filter carries_memory (ticks evs) = [s] /\
    threads = pre ++ info :: post /\
    threadInfo s = Some info /\ eligible info = true /\
    FeatureMemory lock = true /\
    value (SampleThreads P cfg lock pre true w) = true /\
    ticks (events (SampleThreads P cfg lock pre true w)) = [] /\
    In (EvTick s)
       (events (SampleThread P cfg lock info true
                  (final (SampleThreads P cfg lock pre true w)))).
Proof.
  induction threads as [|i rest IH]; intros w evs; [left; reflexivity|].
  subst evs. cbn [SampleThreads].
  rewrite events_bind, ticks_app, filter_app.
  destruct (SampleThread_carrying i true w)
    as [(E & [Hv|Hv])|(s & E & Hi & Hv & He & Hc)].
  - (* the thread was skipped: look further *)
    rewrite E, Hv. cbn [filter app].
    destruct (IH (final (SampleThread P cfg lock i true w)))
      as [IH'|(s & pre & info & post & Hf & Hl & Hi & He & Hm & Hv' & Ht
               & Hin)];
      [left; exact IH'|].
    right. exists s, (i :: pre), info, post.
    cbn [SampleThreads app].
    rewrite value_bind, events_bind, final_bind, ticks_app, E, Hv.
    cbn [app]. rewrite Ht. clear IH. subst rest.
    repeat split; try assumption; reflexivity.
  - rewrite E, Hv. cbn [filter app].
    left. apply SampleThreads_not_first.
  - rewrite E, Hv.
    destruct (SampleThreads_not_first rest
                (final (SampleThread P cfg lock i true w))) as [-> _].
    rewrite app_nil_r. cbn [filter].
    destruct (carries_memory s) eqn:Hcs; [|left; reflexivity].
    right. exists s, [], i, rest. cbn [SampleThreads app].
    unfold ret, value, events, final; cbn [fst snd ticks].
    destruct (Hc eq_refl) as [_ Hm].
    repeat split; try assumption; try reflexivity.
    apply In_ticks. unfold events in E. rewrite E. left. reflexivity.
Qed.

(** The sample of a first call with the memory feature on holds what
    [ResidentFast] returned. *)
Lemma SampleThread_first_sample info (w : World) s :
  FeatureMemory lock = true ->
  In (EvTick s) (events (SampleThread P cfg lock info true w)) ->
  exists rss,
    In (EvResidentFast rss) (events (SampleThread P cfg lock info true w)) /\
    rssMemory s = rss.
Proof.
  intros Hm Hin.
  destruct (SampleThread_events P cfg lock info true w)
    as (head & sc & Heq & Hhead & Hsc).
  rewrite Heq in Hin |- *. apply in_app_or in Hin.
  destruct Hin as [Hin|Hin].
  - destruct (loop_events_silent _ Hhead) as (_ & _ & Hloop).
    apply Hloop in Hin. discriminate Hin.
  - destruct Hsc as [[-> _]|(Htr & _)]; [destruct Hin|].
    destruct (trace_first_sample Htr eq_refl Hm s Hin) as (rss & H1 & H2).
    exists rss. split; [apply in_or_app; right; exact H1|exact H2].
Qed.


End Memory.

(** ** The stored interval *)

Section Interval.
Context {World : Type}.
Variable P : Platform World.
Variable cfg : BuildConfig.

Lemma SampleThread_no_sleep lock info first (w : World) ev :
  In ev (events (SampleThread P cfg lock info first w)) ->
  is_sleep ev = false.
Proof.
  intros Hin.
  destruct (SampleThread_events P cfg lock info first w)
    as (head & sc & Heq & Hhead & Hsc).
  rewrite Heq in Hin. apply in_app_or in Hin. destruct Hin as [Hin|Hin].
  - destruct (loop_events_silent _ Hhead) as (_ & _ & Hloop).
    apply Hloop in Hin. destruct ev; try discriminate Hin; reflexivity.
  - destruct Hsc as [[-> _]|(Htr & _)]; [destruct Hin|].
    pose proof (trace_no_loop_events Htr ev Hin) as H.
    destruct ev; try contradiction; reflexivity.
Qed.

(** Every sleep of [Run] lasts [mInterval]. *)
Lemma Run_sleeps self fuel (w : World) ms :
  In (EvSleep ms) (events (Run P cfg fuel self w)) -> ms = mInterval self.
Proof.
  intros Hin.
  pose proof (Run_Forall P cfg self
    (fun ev => match ev with
               | EvSleep ms => ms = mInterval self
               | _ => True
               end) I I I eq_refl) as HF.
  assert (HQ : forall lock info first (w : World),
    Forall (fun ev => match ev with
                      | EvSleep ms => ms = mInterval self
                      | _ => True
                      end)
           (events (SampleThread P cfg lock info first w))).
  { intros lock info first w1. apply Forall_forall. intros ev Hev.
    apply SampleThread_no_sleep in Hev.
    destruct ev; try exact I. discriminate Hev. }
  specialize (HF HQ fuel w). rewrite Forall_forall in HF.
  exact (HF _ Hin).
Qed.


End Interval.

(** ** The properties on concrete runs *)

(** Thread 3 (handle 77): the suspend succeeds, the context read fails. *)
Lemma SampleContext_suspend_resume_paired_witness :
  let P := test_platform [] true in
  let evs := events (SampleContext P amd64 (test_ps [] true) (thread 3 77)
                       true 0%nat) in
  In (EvSuspendThread 77 0) evs /\ 0 <> kSuspendFailed /\
  count (is_resume 77) evs = 1%nat.
Proof.
  intros P evs.
  assert (Hin : In (EvSuspendThread 77 0) evs) by (vm_compute; auto).
  assert (Hr : 0 <> kSuspendFailed) by discriminate.
  split; [exact Hin|]. split; [exact Hr|].
  pose proof (SampleContext_suspend_resume_paired P amd64 (test_ps [] true)
                (thread 3 77) true 0%nat 0) as H.
  cbv zeta in H. destruct (H Hin Hr) as [Hc _]. exact Hc.
Defined.

(** A sampler built for generation 8 while the generation is 7. *)
Lemma Run_stops_on_generation_mismatch_only_witness :
  let P := test_platform threads_mixed true in
  let self := {| mActivityGeneration := 8; mThread := 900; mInterval := 5 |} in
  ActivityGeneration (gPS P (AutoLock P 0%nat)) <> mActivityGeneration self /\
  Run P amd64 4 self 0%nat = (Returned, [EvLock; EvUnlock], 0%nat).
Proof.
  intros P self.
  assert (Hne : ActivityGeneration (gPS P (AutoLock P 0%nat)) <>
                mActivityGeneration self) by discriminate.
  split; [exact Hne|].
  pose proof (Run_stops_on_generation_mismatch_only P amd64 self 0%nat) as H.
  cbv zeta in H. destruct H as [H _]. exact (H Hne 3%nat).
Defined.

(** Thread 6 says it can duplicate, and the buffer has no sample of it. *)
Lemma duplicate_skips_or_falls_through_witness :
  let P := test_platform threads_mixed true in
  let lock := test_ps threads_mixed true in
  let info := thread 6 60 in
  let r1 := SampleThreads P amd64 lock [thread 5 50] true 0%nat in
  let can := CanDuplicateLastSampleDueToSleep P info (final r1) in
  let dup :=
    DuplicateLastSample P (ThreadId info) (StartTime lock) (snd can) in
  let r2 := SampleThread P amd64 lock info (value r1) (final r1) in
  eligible info = true /\ fst can = true /\ fst dup = false /\
  r2 = (false,
        [EvCanDuplicateLastSampleDueToSleep info true;
         EvDuplicateLastSample 6 1000 false;
         EvUpdateThreadResponsiveness info] ++
        events (SampleContext P amd64 lock info true 0%nat),
        0%nat).
Proof.
  intros P lock info r1 can dup r2.
  assert (He : eligible info = true) by reflexivity.
  assert (Hc : fst can = true) by reflexivity.
  assert (Hd : fst dup = false) by reflexivity.
  split; [exact He|]. split; [exact Hc|]. split; [exact Hd|].
  pose proof (duplicate_skips_or_falls_through P amd64 lock [thread 5 50]
                info [thread 4 44] true 0%nat) as H.
  cbv zeta in H. destruct (H He Hc) as (_ & _ & H3). exact (H3 Hd).
Defined.


(** Thread 3 (handle 77) between thread 4 and thread 6. *)
Lemma context_read_failure_resumes_and_continues_witness :
  let P := test_platform threads_mixed true in
  let lock := test_ps threads_mixed true in
  let info := thread 3 77 in
  let r1 := SampleThreads P amd64 lock [thread 4 44] true 0%nat in
  let r2 := SampleThread P amd64 lock info (value r1) (final r1) in
  In (EvSuspendThread 77 0) (events r2) /\ 0 <> kSuspendFailed /\
  In (EvGetThreadContext 77 1048587 false) (events r2) /\
  ticks (events r2) = [] /\
  ticks (events (SampleThreads P amd64 lock
                   ([thread 4 44] ++ info :: [thread 6 60]) true 0%nat)) =
  ticks (events r1) ++
  ticks (events (SampleThreads P amd64 lock [thread 6 60] false (final r2))).
Proof.
  intros P lock info r1 r2.
  assert (Hs : In (EvSuspendThread 77 0) (events r2)) by (vm_compute; auto 6).
  assert (Hr : 0 <> kSuspendFailed) by discriminate.
  assert (Hc : In (EvGetThreadContext 77 1048587 false) (events r2))
    by (vm_compute; auto 6).
  split; [exact Hs|]. split; [exact Hr|]. split; [exact Hc|].
  pose proof (context_read_failure_resumes_and_continues P amd64 lock
                [thread 4 44] info [thread 6 60] true 0%nat 0 1048587) as H.
  cbv zeta in H. destruct (H Hs Hr Hc) as (H1 & _ & _ & H4).
  split; [exact H1|exact H4].
Defined.

(** [OpenThread] fails for the thread of id 13. *)
Lemma null_handle_thread_is_never_sampled_witness :
  let P := test_platform [thread_13; thread 4 44] true in
  fst (OpenThread P 13 0%nat) = nullptr /\
  GetPlatformData thread_13 = value (AllocPlatformData P 13 0%nat) /\
  forall s,
    In (EvTick s) (events (Run P amd64 5 test_sampler 0%nat)) ->
    threadInfo s <> Some thread_13.
Proof.
  intros P.
  assert (Ho : fst (OpenThread P 13 0%nat) = nullptr) by reflexivity.
  assert (Hd : GetPlatformData thread_13 =
               value (AllocPlatformData P 13 0%nat)) by reflexivity.
  split; [exact Ho|]. split; [exact Hd|].
  destruct (null_handle_thread_is_never_sampled P amd64 13 0%nat thread_13
              Ho Hd) as (_ & _ & H).
  exact (H 5%nat test_sampler 0%nat).
Defined.

(** A NaN as the interval, on a build that converts with [cvttsd2si]: the
    sampler is built with the interval 1, the resolution is requested for
    it, and [Stop] reverts it. *)
Lemma timer_resolution_paired_witness :
  let P := test_platform [] false in
  let lock := test_ps [] false in
  let st := {| mActivityGeneration := 7; mThread := 900; mInterval := 1 |} in
  let ctor := SamplerThread_new_with P cvttsd2si lock 7 double_nan 0%nat in
  let stop := Stop P st lock 0%nat in
  value ctor = Built st /\
  In (EvTimeBeginPeriod 1) (events ctor) /\
  In (EvTimeEndPeriod 1) (events stop) /\
  forall ms,
    count (is_timeBeginPeriod ms) (events ctor) =
    count (is_timeEndPeriod ms) (events stop).
Proof.
  intros P lock st ctor stop.
  assert (Hv : value ctor = Built st) by reflexivity.
  split; [exact Hv|].
  pose proof (timer_resolution_paired P cvttsd2si lock 7 double_nan 0%nat
                lock) as H.
  cbv zeta in H. destruct H as ([_ H1] & _ & _ & _ & H5 & _).
  destruct (H5 st Hv) as (_ & H6). destruct (H6 0%nat) as ([_ H7] & _ & H8).
  split; [apply H1; reflexivity|]. split; [apply H7; reflexivity|exact H8].
Defined.

(** Both paths on the amd64 build, with the same captured context. *)
Lemma PopulateContext_extracts_like_SampleContext_witness :
  let P := test_platform [] false in
  let lock := test_ps [] false in
  let s' :=
    value (PopulateContext P amd64 (TickSample_new P) CONTEXT_zero 0%nat) in
  (GP_ARCH_amd64 amd64 = true \/ GP_ARCH_x86 amd64 = true) /\
  In (EvTick sample_44)
     (events (SampleContext P amd64 lock (thread 4 44) false 0%nat)) /\
  registers sample_44 = (101, 102, 103) /\
  registers s' = (101, 102, 103).
Proof.
  intros P lock s'.
  assert (Ha : GP_ARCH_amd64 amd64 = true \/ GP_ARCH_x86 amd64 = true)
    by (left; reflexivity).
  assert (Hin : In (EvTick sample_44)
     (events (SampleContext P amd64 lock (thread 4 44) false 0%nat)))
    by (vm_compute; auto 6).
  split; [exact Ha|]. split; [exact Hin|].
  pose proof (PopulateContext_extracts_like_SampleContext P amd64 lock
                (thread 4 44) false 0%nat sample_44 (TickSample_new P)
                CONTEXT_zero 0%nat) as H.
  cbv zeta in H.
  destruct (H Ha Hin) as ((c & Hc & Hr) & (c' & Hc' & Hr') & _).
  injection Hc as <-. injection Hc' as <-.
  split; [exact Hr|exact Hr'].
Defined.


(** The same pass does record the sample of thread 4, without the metric. *)
Example null_first_pass_ticks :
  ticks (events (SampleThreads (test_platform threads_null_first true) amd64
                   (test_ps threads_null_first true) threads_null_first true
                   0%nat)) = [sample_44].
Proof. reflexivity. Qed.

(** When the first eligible thread is duplicated, the metric goes to the
    next thread handed to [SampleContext]. *)
Example duplicated_first_pass_carrier :
  map threadInfo
    (filter carries_memory
       (ticks (events (SampleThreads (test_platform threads_mixed true) amd64
                         (test_ps threads_mixed true) threads_mixed true
                         0%nat)))) = [Some (thread 6 60)] /\
  find eligible threads_mixed = Some (thread 5 50).
Proof. split; reflexivity. Qed.



(** [2^40] is a well-formed double, and whatever [int] were stored for it
    would differ from its clamped nearest integer. *)
Example no_int_is_nearest_to_2_40 :
  valid_binary 53 1024 double_2_40 = true /\
  forall i n,
    INT_MIN <= i <= INT_MAX -> nearest_integer double_2_40 n ->
    i <> Z.max 1 n.
Proof.
  split; [reflexivity|].
  intros i n [_ Hi] Hn. unfold nearest_integer, double_2_40 in Hn.
  replace (0 <=? -12) with false in Hn by reflexivity.
  cbn [cond_Zopp] in Hn.
  unfold INT_MAX in Hi.
  change (2 ^ 31) with 2147483648 in Hi.
  change (2 ^ (- -12)) with 4096 in Hn. lia.
Qed.

(** * Further properties of the sampler *)

Lemma suspension_run_app cur (l1 l2 : list Event) :
  suspension_run cur (l1 ++ l2) =
  match suspension_run cur l1 with
  | Some cur' => suspension_run cur' l2
  | None => None
  end.
Proof.
  revert cur. induction l1 as [|ev l1 IH]; intros cur; simpl; [reflexivity|].
  destruct (suspension_step cur ev); [apply IH|reflexivity].
Qed.

Lemma lock_run_app held (l1 l2 : list Event) :
  lock_run held (l1 ++ l2) =
  match lock_run held l1 with
  | Some held' => lock_run held' l2
  | None => None
  end.
Proof.
  revert held. induction l1 as [|ev l1 IH]; intros held; simpl; [reflexivity|].
  destruct (lock_step held ev); [apply IH|reflexivity].
Qed.

Lemma asked_threads_app (l1 l2 : list Event) :
  asked_threads (l1 ++ l2) = asked_threads l1 ++ asked_threads l2.
Proof.
  induction l1 as [|ev l1 IH]; [reflexivity|].
  destruct ev; simpl; rewrite ?IH; reflexivity.
Qed.

Lemma count_none (f : Event -> bool) (l : list Event) :
  (forall ev, In ev l -> f ev = false) -> count f l = 0%nat.
Proof.
  unfold count. induction l as [|ev l IH]; intros H; [reflexivity|].
  simpl. rewrite (H ev (or_introl eq_refl)). apply IH.
  intros ev' Hin. apply H. right. exact Hin.
Qed.

Section SampleContextRun.
Context {World : Type}.
Variable P : Platform World.
Variable cfg : BuildConfig.

(** The trace of [SampleContext] for a thread with a handle, call by
    call. *)
Lemma SampleContext_events lock info first (w : World) :
  let h := GetThreadHandle (GetPlatformData info) in
  h <> nullptr ->
  let now := TimeStamp_Now P w in
  let mem := first && FeatureMemory lock in
  let rs := if mem then ResidentFast P (snd now) else (0, snd now) in
  let su := SuspendThread P h (snd rs) in
  let flags :=
    if GP_ARCH_amd64 cfg then CONTEXT_FULL P else CONTEXT_CONTROL P in
  let got :=
    GetThreadContext P h (set_ContextFlags flags CONTEXT_zero) (snd su) in
  let ctx := snd (fst got) in
  let sample0 :=
    set_ussMemory 0
      (set_rssMemory (fst rs)
         (set_threadInfo info
            (set_timestamp (fst now) (TickSample_new P)))) in
  let sample :=
    set_context ctx
      (if GP_ARCH_amd64 cfg
       then set_fp (Rbp ctx) (set_sp (Rsp ctx) (set_pc (Rip ctx) sample0))
       else set_fp (Ebp ctx) (set_sp (Esp ctx) (set_pc (Eip ctx) sample0))) in
  events (SampleContext P cfg lock info first w) =
  EvNow (fst now) ::
  (if mem then [EvResidentFast (fst rs)] else []) ++
  EvSuspendThread h (fst su) ::
  (if fst su =? kSuspendFailed then []
   else EvGetThreadContext h flags (fst (fst got)) ::
        (if fst (fst got) then [EvTick sample; EvResumeThread h]
         else [EvResumeThread h])).
Proof.
  intros h Hh now mem rs su flags got ctx sample0 sample.
  unfold SampleContext. fold h.
  destruct (Z.eqb_spec h nullptr) as [E|_]; [contradiction|].
  rewrite events_bind, events_call, value_call, final_call. fold now.
  cbn [app]. f_equal.
  rewrite events_bind. fold mem.
  assert (Hrs :
    (if mem then call (ResidentFast P) EvResidentFast else ret 0) (snd now) =
    (fst rs, (if mem then [EvResidentFast (fst rs)] else []), snd rs)).
  { unfold rs, call, ret. destruct mem; [|reflexivity].
    destruct (ResidentFast P (snd now)); reflexivity. }
  rewrite Hrs. unfold value at 1, final at 1, events at 1; cbn [fst snd].
  f_equal.
  rewrite events_bind, events_call, value_call, final_call. fold su.
  cbn [app]. f_equal.
  destruct (fst su =? kSuspendFailed); [reflexivity|].
  rewrite events_bind, events_call, value_call, final_call.
  fold flags. fold got. cbn [app]. f_equal.
  destruct (fst (fst got)) eqn:Hok; cbn [negb]; [|reflexivity].
  reflexivity.
Qed.

End SampleContextRun.

Lemma sample_events_not_loop (l : list Event) :
  (forall ev, In ev l -> is_sample_event ev = true) ->
  asked_threads l = [] /\ count is_duplicated l = 0%nat /\
  count is_update l = 0%nat.
Proof.
  intros H. split; [|split].
  - induction l as [|ev l IH]; [reflexivity|].
    assert (Hev := H ev (or_introl eq_refl)).
    destruct ev; try discriminate Hev; simpl; apply IH;
      intros ev' Hin; apply H; right; exact Hin.
  - apply count_none. intros ev Hin. apply H in Hin.
    destruct ev; try discriminate Hin; reflexivity.
  - apply count_none. intros ev Hin. apply H in Hin.
    destruct ev; try discriminate Hin; reflexivity.
Qed.

Section IterationParts.
Context {World : Type}.
Variable P : Platform World.
Variable cfg : BuildConfig.

Lemma SampleContext_sample_events lock info first (w : World) ev :
  In ev (events (SampleContext P cfg lock info first w)) ->
  is_sample_event ev = true.
Proof.
  intros Hin.
  pose proof (trace_no_loop_events
                (SampleContext_traces P cfg lock info first w) ev Hin) as H.
  destruct ev; try contradiction; reflexivity.
Qed.

(** One iteration of the loop: the calls of the loop body, then, unless the
    thread is skipped or duplicated, the calls of [SampleContext]. *)
Lemma SampleThread_parts lock info first (w : World) :
  let r := SampleThread P cfg lock info first w in
  exists head sc,
    events r = head ++ sc /\
    Forall (fun ev => is_loop_event ev = true) head /\
    asked_threads head = (if eligible info then [info] else []) /\
    ((sc = [] /\ value r = first /\ count is_update head = 0%nat /\
      count is_duplicated head = (if eligible info then 1 else 0)%nat) \/
     (exists w',
        sc = events (SampleContext P cfg lock info first w') /\
        value r = false /\ eligible info = true /\
        count is_update head = 1%nat /\
        count is_duplicated head = 0%nat)).
Proof.
  intros r. subst r.
  destruct (eligible info) eqn:He.
  - pose proof (SampleThread_eligible P cfg lock info first w He) as Heq.
    cbv zeta in Heq. rewrite Heq. clear Heq.
    destruct (fst (CanDuplicateLastSampleDueToSleep P info w)).
    + destruct (fst (DuplicateLastSample P (ThreadId info) (StartTime lock)
                  (snd (CanDuplicateLastSampleDueToSleep P info w)))).
      * eexists _, []. unfold events, value; cbn [fst snd].
        rewrite app_nil_r. split; [reflexivity|].
        split; [repeat constructor|]. split; [reflexivity|].
        left. repeat split.
      * eexists _, _. unfold events at 1, value; cbn [fst snd].
        split; [reflexivity|]. split; [repeat constructor|].
        split; [reflexivity|]. right. eexists. repeat split.
    + eexists _, _. unfold events at 1, value; cbn [fst snd].
      split; [reflexivity|]. split; [repeat constructor|].
      split; [reflexivity|]. right. eexists. repeat split.
  - rewrite (SampleThread_ineligible P cfg lock info first w He).
    exists [], []. unfold events, value; cbn [fst snd app].
    split; [reflexivity|]. split; [constructor|]. split; [reflexivity|].
    left. repeat split.
Qed.

Lemma SampleThread_event_kinds lock info first (w : World) ev :
  In ev (events (SampleThread P cfg lock info first w)) ->
  is_loop_event ev || is_sample_event ev = true.
Proof.
  intros Hin.
  destruct (SampleThread_parts lock info first w)
    as (head & sc & Heq & Hhead & _ & Hsc).
  rewrite Heq in Hin. apply in_app_or in Hin. destruct Hin as [Hin|Hin].
  - rewrite Forall_forall in Hhead. rewrite (Hhead ev Hin). reflexivity.
  - destruct Hsc as [(-> & _)|(w' & -> & _)]; [destruct Hin|].
    rewrite (SampleContext_sample_events _ _ _ _ _ Hin).
    apply orb_true_r.
Qed.

Lemma SampleThreads_event_kinds lock threads : forall first (w : World) ev,
  In ev (events (SampleThreads P cfg lock threads first w)) ->
  is_loop_event ev || is_sample_event ev = true.
Proof.
  induction threads as [|i rest IH]; intros first w ev Hin; [destruct Hin|].
  cbn [SampleThreads] in Hin. rewrite events_bind in Hin.
  apply in_app_or in Hin. destruct Hin as [Hin|Hin].
  - exact (SampleThread_event_kinds _ _ _ _ _ Hin).
  - exact (IH _ _ _ Hin).
Qed.

End IterationParts.

(** ** Suspension and lock disciplines *)

Lemma loop_events_suspension (l : list Event) cur :
  Forall (fun ev => is_loop_event ev = true) l -> cur = None ->
  suspension_run cur l = Some None.
Proof.
  intros H ->. induction H as [|ev l Hev _ IH]; [reflexivity|].
  destruct ev; try discriminate Hev; exact IH.
Qed.

Lemma held_events_lock (l : list Event) :
  (forall ev, In ev l -> is_loop_event ev || is_sample_event ev = true) ->
  lock_run true l = Some true.
Proof.
  induction l as [|ev l IH]; intros H; [reflexivity|].
  assert (Hev := H ev (or_introl eq_refl)).
  assert (IH' := IH (fun ev' Hin => H ev' (or_intror Hin))).
  destruct ev; try discriminate Hev; exact IH'.
Qed.

Section Disciplines.
Context {World : Type}.
Variable P : Platform World.
Variable cfg : BuildConfig.

Lemma SampleContext_suspension lock info first (w : World) :
  suspension_run None (events (SampleContext P cfg lock info first w)) =
  Some None.
Proof.
  destruct (Z.eq_dec (GetThreadHandle (GetPlatformData info)) nullptr)
    as [E|E].
  - rewrite (SampleContext_no_handle P cfg lock info first w E). reflexivity.
  - pose proof (SampleContext_events P cfg lock info first w E) as H.
    cbv zeta in H. rewrite H. clear H.
    destruct (first && FeatureMemory lock);
      destruct (GP_ARCH_amd64 cfg);
      cbn [app suspension_run suspension_step];
      match goal with
      | |- context [?x =? kSuspendFailed] => destruct (x =? kSuspendFailed)
      end; try reflexivity;
      match goal with
      | |- context [EvGetThreadContext _ _ ?b] => destruct b
      end;
      repeat (cbn [app suspension_run suspension_step threadInfo set_context
                   set_fp set_sp set_pc set_ussMemory set_rssMemory
                   set_threadInfo];
              rewrite ?Z.eqb_refl);
      reflexivity.
Qed.

Lemma SampleThread_suspension lock info first (w : World) :
  suspension_run None (events (SampleThread P cfg lock info first w)) =
  Some None.
Proof.
  destruct (SampleThread_parts P cfg lock info first w)
    as (head & sc & Heq & Hhead & _ & Hsc).
  rewrite Heq, suspension_run_app,
    (loop_events_suspension head None Hhead eq_refl).
  destruct Hsc as [(-> & _)|(w' & -> & _)]; [reflexivity|].
  apply SampleContext_suspension.
Qed.

(** X2.  In every run of the loop, of any length, threads are suspended one
    at a time and none is left suspended: between a successful
    [SuspendThread] and the [ResumeThread] of the same handle the sampler
    calls nothing but [GetThreadContext] on that handle and [Tick] with a
    sample of that thread (no timestamp, no memory report, no lock operation,
    no sleep), and it reads no context, records no sample and resumes nothing
    when no thread is suspended. *)
Theorem Run_suspends_one_thread_at_a_time fuel self (w : World) :
  suspension_run None (events (Run P cfg fuel self w)) = Some None.
Proof.
  assert (HT : forall lock threads first (w : World),
    suspension_run None (events (SampleThreads P cfg lock threads first w)) =
    Some None).
  { intros lock threads. induction threads as [|i rest IH]; intros first w1;
      [reflexivity|].
    cbn [SampleThreads]. rewrite events_bind, suspension_run_app,
      SampleThread_suspension. apply IH. }
  assert (HP : forall (w : World),
    suspension_run None (events (Pass P cfg self w)) = Some None).
  { intros w1.
    destruct (Z.eq_dec (ActivityGeneration (gPS P (AutoLock P w1)))
                (mActivityGeneration self)) as [E|E].
    - pose proof (Pass_go P cfg self w1 E) as H. cbv zeta in H. rewrite H.
      destruct (IsPaused _); unfold events at 1; cbn [fst snd];
        [reflexivity|].
      cbn [app suspension_run suspension_step].
      rewrite suspension_run_app, HT. reflexivity.
    - rewrite (Pass_stop P cfg self w1 E). reflexivity. }
  revert w. induction fuel as [|fuel IH]; intros w; [reflexivity|].
  destruct (Z.eq_dec (ActivityGeneration (gPS P (AutoLock P w)))
              (mActivityGeneration self)) as [E|E].
  - pose proof (Run_go P cfg self w fuel E) as H. cbv zeta in H. rewrite H.
    unfold events at 1; cbn [fst snd].
    rewrite suspension_run_app, HP. cbn [suspension_run suspension_step].
    apply IH.
  - rewrite (Run_stop P cfg self w fuel E). reflexivity.
Qed.

Lemma Pass_lock self (w : World) :
  lock_run false (events (Pass P cfg self w)) = Some false.
Proof.
  destruct (Z.eq_dec (ActivityGeneration (gPS P (AutoLock P w)))
              (mActivityGeneration self)) as [E|E].
  - pose proof (Pass_go P cfg self w E) as H. cbv zeta in H. rewrite H.
    destruct (IsPaused _); unfold events at 1; cbn [fst snd];
      [reflexivity|].
    cbn [app lock_run lock_step].
    rewrite lock_run_app, held_events_lock; [reflexivity|].
    intros ev Hin. exact (SampleThreads_event_kinds P cfg _ _ _ _ _ Hin).
  - rewrite (Pass_stop P cfg self w E). reflexivity.
Qed.

(** X3.  In every run of the loop, of any length, [gPSMutex] is taken and
    released in turn and is free at the end; every call to the buffer, to a
    thread or to the operating system on behalf of a sample is made with the
    lock held, and [Sleep] is only ever called with the lock free. *)
Theorem Run_sleeps_outside_the_lock fuel self (w : World) :
  lock_run false (events (Run P cfg fuel self w)) = Some false.
Proof.
  revert w. induction fuel as [|fuel IH]; intros w; [reflexivity|].
  destruct (Z.eq_dec (ActivityGeneration (gPS P (AutoLock P w)))
              (mActivityGeneration self)) as [E|E].
  - pose proof (Run_go P cfg self w fuel E) as H. cbv zeta in H. rewrite H.
    unfold events at 1; cbn [fst snd].
    rewrite lock_run_app, Pass_lock. cbn [lock_run lock_step]. apply IH.
  - rewrite (Run_stop P cfg self w fuel E). reflexivity.
Qed.

(** X1.  A pass that finds the generation unchanged and profiling paused
    takes the lock, expires the stored markers, releases the lock and touches
    no thread; the loop does not stop: it sleeps for the interval and goes
    on. *)
Theorem paused_pass_touches_no_thread fuel self (w : World) :
  let lock := gPS P (AutoLock P w) in
  let w1 := AutoUnlock P (deleteExpiredStoredMarkers P (AutoLock P w)) in
  let r := Run P cfg fuel self (Sleep P (mInterval self) w1) in
  ActivityGeneration lock = mActivityGeneration self ->
  IsPaused lock = true ->
  Pass P cfg self w =
    (true, [EvLock; EvDeleteExpiredStoredMarkers; EvUnlock], w1) /\
  Run P cfg (S fuel) self w =
    (value r,
     [EvLock; EvDeleteExpiredStoredMarkers; EvUnlock;
      EvSleep (mInterval self)] ++ events r,
     final r).
Proof.
  intros lock w1 r Hgen Hpaused.
  pose proof (Pass_go P cfg self w Hgen) as HP. cbv zeta in HP.
  fold lock in HP. rewrite Hpaused in HP. fold w1 in HP.
  split; [exact HP|].
  pose proof (Run_go P cfg self w fuel Hgen) as HR. cbv zeta in HR.
  rewrite HR, HP. unfold final at 1 3, events at 1; cbn [fst snd].
  fold r. reflexivity.
Qed.

Lemma Pass_counts self (w : World) :
  let evs := events (Pass P cfg self w) in
  count is_lock evs = 1%nat /\ count is_unlock evs = 1%nat /\
  count is_sleep evs = 0%nat /\
  count is_markers evs = (if value (Pass P cfg self w) then 1 else 0)%nat.
Proof.
  cbv zeta.
  assert (HT : forall lock threads first (w : World) f,
    (forall ev, is_loop_event ev || is_sample_event ev = true ->
                f ev = false) ->
    count f (events (SampleThreads P cfg lock threads first w)) = 0%nat).
  { intros lock threads first w1 f Hf. apply count_none.
    intros ev Hin. apply Hf.
    exact (SampleThreads_event_kinds P cfg _ _ _ _ _ Hin). }
  destruct (Z.eq_dec (ActivityGeneration (gPS P (AutoLock P w)))
              (mActivityGeneration self)) as [E|E].
  - pose proof (Pass_go P cfg self w E) as H. cbv zeta in H. rewrite H.
    destruct (IsPaused _); [repeat split|].
    match goal with
    | |- context [SampleThreads P cfg ?l ?t true ?w1] =>
        set (r := SampleThreads P cfg l t true w1)
    end.
    change (events (true,
                    [EvLock; EvDeleteExpiredStoredMarkers] ++
                    events r ++ [EvUnlock], AutoUnlock P (final r)))
      with ([EvLock; EvDeleteExpiredStoredMarkers] ++
            events r ++ [EvUnlock]).
    rewrite !count_app.
    unfold r. rewrite !HT
      by (intros ev Hev; destruct ev; try discriminate Hev; reflexivity).
    repeat split.
  - rewrite (Pass_stop P cfg self w E). repeat split.
Qed.

(** X13.  In every run of the loop: the lock is released as often as it is
    taken; the stored markers are expired once in every pass that is followed
    by a sleep, and in no other; there are as many passes as sleeps, plus the
    one that made [Run] return when it did; and [fuel] turns make at most
    [fuel] sleeps. *)
Theorem Run_pass_accounting fuel self (w : World) :
  let evs := events (Run P cfg fuel self w) in
  count is_lock evs = count is_unlock evs /\
  count is_markers evs = count is_sleep evs /\
  count is_lock evs =
    (count is_sleep evs +
     match value (Run P cfg fuel self w) with
     | Returned => 1
     | Running => 0
     end)%nat /\
  (count is_sleep evs <= fuel)%nat.
Proof.
  revert w. induction fuel as [|fuel IH]; intros w evs;
    [repeat split; apply Nat.le_refl|].
  subst evs.
  destruct (Pass_counts self w) as (Hl & Hu & Hs & Hm). cbv zeta in *.
  destruct (Z.eq_dec (ActivityGeneration (gPS P (AutoLock P w)))
              (mActivityGeneration self)) as [E|E].
  - pose proof (Run_go P cfg self w fuel E) as H. cbv zeta in H. rewrite H.
    rewrite Pass_value, E, Z.eqb_refl in Hm.
    destruct (IH (Sleep P (mInterval self) (final (Pass P cfg self w))))
      as (I1 & I2 & I3 & I4).
    cbv zeta in *.
    set (p := Pass P cfg self w) in *.
    set (r := Run P cfg fuel self (Sleep P (mInterval self) (final p))) in *.
    change (events (value r, events p ++ EvSleep (mInterval self) :: events r,
                    final r))
      with (events p ++ [EvSleep (mInterval self)] ++ events r).
    change (value (value r, events p ++ EvSleep (mInterval self) :: events r,
                   final r))
      with (value r).
    rewrite !count_app, Hl, Hu, Hs, Hm.
    change (count is_lock [EvSleep (mInterval self)]) with 0%nat.
    change (count is_unlock [EvSleep (mInterval self)]) with 0%nat.
    change (count is_markers [EvSleep (mInterval self)]) with 0%nat.
    change (count is_sleep [EvSleep (mInterval self)]) with 1%nat.
    lia.
  - rewrite (Run_stop P cfg self w fuel E). unfold count; simpl.
    repeat split; lia.
Qed.

End Disciplines.

(** ** The threads of a pass *)

Section PassThreads.
Context {World : Type}.
Variable P : Platform World.
Variable cfg : BuildConfig.

Lemma SampleContext_not_loop lock info first (w : World) :
  let sc := events (SampleContext P cfg lock info first w) in
  asked_threads sc = [] /\ count is_duplicated sc = 0%nat /\
  count is_update sc = 0%nat.
Proof.
  apply sample_events_not_loop. intros ev Hin.
  exact (SampleContext_sample_events P cfg _ _ _ _ _ Hin).
Qed.

(** X4.  In the loop of a pass, the threads asked whether their last sample
    can be duplicated are exactly the registered threads that have a profile
    and are not pending deletion, each once, in the registered order; no
    other thread is asked. *)
Theorem pass_asks_eligible_threads_in_order lock threads first (w : World) :
  asked_threads (events (SampleThreads P cfg lock threads first w)) =
  filter eligible threads.
Proof.
  revert first w. induction threads as [|i rest IH]; intros first w;
    [reflexivity|].
  cbn [SampleThreads filter]. rewrite events_bind, asked_threads_app, IH.
  destruct (SampleThread_parts P cfg lock i first w)
    as (head & sc & Heq & _ & Hasked & Hsc).
  rewrite Heq, asked_threads_app, Hasked.
  assert (Hnone : asked_threads sc = []).
  { destruct Hsc as [(-> & _)|(w' & -> & _)]; [reflexivity|].
    apply SampleContext_not_loop. }
  rewrite Hnone, app_nil_r. destruct (eligible i); reflexivity.
Qed.

(** X5.  In the loop of a pass every eligible thread is either duplicated
    or gets its responsiveness updated, never both and never neither: the
    successful [DuplicateLastSample] calls and the
    [UpdateThreadResponsiveness] calls together are as many as the eligible
    threads; and the samples handed to [Tick] are at most as many as the
    threads whose responsiveness was updated. *)
Theorem pass_accounts_for_every_eligible_thread
    lock threads first (w : World) :
  let evs := events (SampleThreads P cfg lock threads first w) in
  (count is_duplicated evs + count is_update evs)%nat =
    length (filter eligible threads) /\
  (length (ticks evs) <= count is_update evs)%nat.
Proof.
  revert first w. induction threads as [|i rest IH]; intros first w evs;
    [split; [reflexivity|apply Nat.le_refl]|].
  subst evs. cbn [SampleThreads filter].
  rewrite events_bind, !count_app, ticks_app, length_app.
  destruct (IH (value (SampleThread P cfg lock i first w))
               (final (SampleThread P cfg lock i first w))) as [IH1 IH2].
  cbv zeta in IH1, IH2.
  destruct (SampleThread_parts P cfg lock i first w)
    as (head & sc & Heq & Hhead & _ & Hsc).
  destruct (loop_events_silent _ Hhead) as (Hticks & _ & _).
  rewrite Heq, !count_app, ticks_app, length_app, Hticks.
  destruct Hsc as [(-> & _ & Hu & Hd)|(w' & -> & _ & He & Hu & Hd)].
  - rewrite Hu, Hd. change (count is_duplicated []) with 0%nat.
    change (count is_update []) with 0%nat. cbn [ticks length].
    destruct (eligible i); cbn [length]; lia.
  - destruct (SampleContext_not_loop lock i first w') as (_ & Hd' & Hu').
    cbv zeta in Hd', Hu'. rewrite Hu, Hd, Hd', Hu', He. cbn [length].
    assert (Ht : (length (ticks (events
                    (SampleContext P cfg lock i first w'))) <= 1)%nat).
    { destruct (trace_ticks (SampleContext_traces P cfg lock i first w'))
        as [->|(s & -> & _)]; simpl; lia. }
    lia.
Qed.

Lemma SampleContext_resident lock info first (w : World) :
  (count is_resident (events (SampleContext P cfg lock info first w)) <=
   if first && FeatureMemory lock then 1 else 0)%nat.
Proof.
  destruct (Z.eq_dec (GetThreadHandle (GetPlatformData info)) nullptr)
    as [E|E].
  - rewrite (SampleContext_no_handle P cfg lock info first w E).
    destruct (first && FeatureMemory lock); unfold count; simpl; lia.
  - pose proof (SampleContext_events P cfg lock info first w E) as H.
    cbv zeta in H. rewrite H. clear H.
    destruct (first && FeatureMemory lock);
      match goal with
      | |- context [?x =? kSuspendFailed] => destruct (x =? kSuspendFailed)
      end;
      try match goal with
      | |- context [EvGetThreadContext _ _ ?b] => destruct b
      end;
      unfold count; simpl; lia.
Qed.

Lemma SampleThreads_resident lock threads : forall first (w : World),
  (count is_resident (events (SampleThreads P cfg lock threads first w)) <=
   if first && FeatureMemory lock then 1 else 0)%nat.
Proof.
  induction threads as [|i rest IH]; intros first w.
  - unfold count; simpl. destruct (first && FeatureMemory lock); lia.
  - cbn [SampleThreads]. rewrite events_bind, count_app.
    specialize (IH (value (SampleThread P cfg lock i first w))
                   (final (SampleThread P cfg lock i first w))).
    destruct (SampleThread_parts P cfg lock i first w)
      as (head & sc & Heq & Hhead & _ & Hsc).
    assert (Hh : count is_resident head = 0%nat).
    { apply count_none. intros ev Hin. rewrite Forall_forall in Hhead.
      apply Hhead in Hin. destruct ev; try discriminate Hin; reflexivity. }
    rewrite Heq, count_app, Hh.
    destruct Hsc as [(-> & Hv & _)|(w' & -> & Hv & _)].
    + rewrite Hv in IH |- *. change (count is_resident []) with 0%nat. lia.
    + rewrite Hv in IH |- *. cbn [andb] in IH.
      pose proof (SampleContext_resident lock i first w'). lia.
Qed.

(** X11.  [ResidentFast] is called at most once in the loop of a pass, and
    not at all when the memory feature is off. *)
Theorem ResidentFast_at_most_once_per_pass lock threads (w : World) :
  let evs := events (SampleThreads P cfg lock threads true w) in
  (count is_resident evs <= 1)%nat /\
  (FeatureMemory lock = false -> count is_resident evs = 0%nat).
Proof.
  intros evs. pose proof (SampleThreads_resident lock threads true w) as H.
  fold evs in H. cbn [andb] in H. split.
  - destruct (FeatureMemory lock); lia.
  - intros Hoff. rewrite Hoff in H. lia.
Qed.

End PassThreads.

(** ** The samples of a run *)

Section RunSamples.
Context {World : Type}.
Variable P : Platform World.
Variable cfg : BuildConfig.

Lemma SampleContext_tick lock info first (w : World) s :
  In (EvTick s) (events (SampleContext P cfg lock info first w)) ->
  timestamp s = fst (TimeStamp_Now P w) /\
  threadInfo s = Some info /\
  ussMemory s = 0 /\
  GetThreadHandle (GetPlatformData info) <> nullptr /\
  (exists rest,
     events (SampleContext P cfg lock info first w) =
     EvNow (timestamp s) :: rest) /\
  exists ctx,
    context s = Some ctx /\
    registers s =
    if GP_ARCH_amd64 cfg then (Rip ctx, Rsp ctx, Rbp ctx)
    else (Eip ctx, Esp ctx, Ebp ctx).
Proof.
  destruct (Z.eq_dec (GetThreadHandle (GetPlatformData info)) nullptr)
    as [E|E].
  - rewrite (SampleContext_no_handle P cfg lock info first w E).
    intros [].
  - pose proof (SampleContext_events P cfg lock info first w E) as H.
    cbv zeta in H. rewrite H. clear H. intros Hin.
    assert (Hs : exists ctx,
      s = set_context ctx
            (if GP_ARCH_amd64 cfg
             then set_fp (Rbp ctx) (set_sp (Rsp ctx) (set_pc (Rip ctx)
                    (set_ussMemory 0 (set_rssMemory
                       (fst (if first && FeatureMemory lock
                             then ResidentFast P (snd (TimeStamp_Now P w))
                             else (0, snd (TimeStamp_Now P w))))
                       (set_threadInfo info
                          (set_timestamp (fst (TimeStamp_Now P w))
                             (TickSample_new P)))))))
             else set_fp (Ebp ctx) (set_sp (Esp ctx) (set_pc (Eip ctx)
                    (set_ussMemory 0 (set_rssMemory
                       (fst (if first && FeatureMemory lock
                             then ResidentFast P (snd (TimeStamp_Now P w))
                             else (0, snd (TimeStamp_Now P w))))
                       (set_threadInfo info
                          (set_timestamp (fst (TimeStamp_Now P w))
                             (TickSample_new P))))))))).
    { destruct Hin as [Hin|Hin]; [discriminate Hin|].
      apply in_app_or in Hin. destruct Hin as [Hin|Hin].
      - destruct (first && FeatureMemory lock);
          [destruct Hin as [Hin|[]]; discriminate Hin|destruct Hin].
      - destruct Hin as [Hin|Hin]; [discriminate Hin|].
        destruct (_ =? kSuspendFailed); [destruct Hin|].
        destruct Hin as [Hin|Hin]; [discriminate Hin|].
        destruct (fst (fst _)).
        + destruct Hin as [Hin|[Hin|[]]]; [|discriminate Hin].
          injection Hin as <-. eexists. reflexivity.
        + destruct Hin as [Hin|[]]. discriminate Hin. }
    destruct Hs as (ctx & ->).
    destruct (GP_ARCH_amd64 cfg); repeat split; try assumption;
      try (eexists; reflexivity); exists ctx; split; reflexivity.
Qed.

Lemma SampleContext_context_read lock info first (w : World) h flags ok :
  In (EvGetThreadContext h flags ok)
     (events (SampleContext P cfg lock info first w)) ->
  flags = (if GP_ARCH_amd64 cfg then CONTEXT_FULL P else CONTEXT_CONTROL P) /\
  h = GetThreadHandle (GetPlatformData info) /\ h <> nullptr.
Proof.
  destruct (Z.eq_dec (GetThreadHandle (GetPlatformData info)) nullptr)
    as [E|E].
  - rewrite (SampleContext_no_handle P cfg lock info first w E).
    intros [].
  - pose proof (SampleContext_events P cfg lock info first w E) as H.
    cbv zeta in H. rewrite H. clear H. intros Hin.
    destruct Hin as [Hin|Hin]; [discriminate Hin|].
    apply in_app_or in Hin. destruct Hin as [Hin|Hin].
    + destruct (first && FeatureMemory lock);
        [destruct Hin as [Hin|[]]; discriminate Hin|destruct Hin].
    + destruct Hin as [Hin|Hin]; [discriminate Hin|].
      destruct (_ =? kSuspendFailed); [destruct Hin|].
      destruct Hin as [Hin|Hin].
      * injection Hin as <- <- _. auto.
      * destruct (fst (fst _));
          [destruct Hin as [Hin|[Hin|[]]]|destruct Hin as [Hin|[]]];
          discriminate Hin.
Qed.

(** The samples and the context reads of an iteration are those of its
    [SampleContext]. *)
Lemma SampleThread_sample_source lock info first (w : World) ev :
  In ev (events (SampleThread P cfg lock info first w)) ->
  is_loop_event ev = false ->
  eligible info = true /\
  exists w', In ev (events (SampleContext P cfg lock info first w')).
Proof.
  intros Hin Hnl.
  destruct (SampleThread_parts P cfg lock info first w)
    as (head & sc & Heq & Hhead & _ & Hsc).
  rewrite Heq in Hin. apply in_app_or in Hin. destruct Hin as [Hin|Hin].
  - rewrite Forall_forall in Hhead. apply Hhead in Hin. congruence.
  - destruct Hsc as [(-> & _)|(w' & -> & _ & He & _)]; [destruct Hin|].
    split; [exact He|]. exists w'. exact Hin.
Qed.

(** An event of a run is a [Sleep] or an event of one of its passes. *)
Lemma Run_event_pass self fuel : forall (w : World) ev,
  In ev (events (Run P cfg fuel self w)) ->
  is_sleep ev = true \/
  exists w0,
    In w0 (pass_starts P cfg fuel self w) /\
    In ev (events (Pass P cfg self w0)).
Proof.
  induction fuel as [|fuel IH]; intros w ev Hin; [destruct Hin|].
  cbn [pass_starts].
  destruct (Z.eq_dec (ActivityGeneration (gPS P (AutoLock P w)))
              (mActivityGeneration self)) as [E|E].
  - pose proof (Run_go P cfg self w fuel E) as H. cbv zeta in H.
    rewrite H in Hin. unfold events at 1 in Hin; cbn [fst snd] in Hin.
    replace (value (Pass P cfg self w)) with true
      by (rewrite Pass_value, E, Z.eqb_refl; reflexivity).
    apply in_app_or in Hin. destruct Hin as [Hin|[Hin|Hin]].
    + right. exists w. split; [left; reflexivity|exact Hin].
    + left. subst ev. reflexivity.
    + destruct (IH _ _ Hin) as [Hs|(w0 & Hw & Hp)]; [left; exact Hs|].
      right. exists w0. split; [right; exact Hw|exact Hp].
  - rewrite (Run_stop P cfg self w fuel E) in Hin.
    right. exists w. split; [left; reflexivity|].
    rewrite (Pass_stop P cfg self w E). exact Hin.
Qed.

(** A sample of a pass is a sample of its loop over the registered
    threads. *)
Lemma Pass_tick self (w : World) s :
  In (EvTick s) (events (Pass P cfg self w)) ->
  let lock := gPS P (AutoLock P w) in
  In (EvTick s)
     (events (SampleThreads P cfg lock (Threads lock) true
                (deleteExpiredStoredMarkers P (AutoLock P w)))).
Proof.
  intros Hin lock.
  destruct (Z.eq_dec (ActivityGeneration (gPS P (AutoLock P w)))
              (mActivityGeneration self)) as [E|E].
  - pose proof (Pass_go P cfg self w E) as H. cbv zeta in H.
    rewrite H in Hin. clear H. fold lock in Hin.
    destruct (IsPaused lock); unfold events at 1 in Hin;
      cbn [fst snd] in Hin.
    + destruct Hin as [Hin|[Hin|[Hin|[]]]]; discriminate Hin.
    + destruct Hin as [Hin|[Hin|Hin]]; try discriminate Hin.
      cbn [app] in Hin. apply in_app_or in Hin.
      destruct Hin as [Hin|[Hin|[]]]; [exact Hin|discriminate Hin].
  - rewrite (Pass_stop P cfg self w E) in Hin.
    destruct Hin as [Hin|[Hin|[]]]; discriminate Hin.
Qed.

(** An event of the loop is an event of the iteration for one thread of the
    list, begun in the state the threads before it have left. *)
Lemma SampleThreads_event_iteration lock threads :
  forall first (w : World) ev,
  In ev (events (SampleThreads P cfg lock threads first w)) ->
  exists pre info post,
    threads = pre ++ info :: post /\
    let before := SampleThreads P cfg lock pre first w in
    In ev (events (SampleThread P cfg lock info (value before)
                     (final before))).
Proof.
  induction threads as [|i rest IH]; intros first w ev Hin;
    [destruct Hin|].
  cbn [SampleThreads] in Hin. rewrite events_bind in Hin.
  apply in_app_or in Hin. destruct Hin as [Hin|Hin].
  - exists [], i, rest. split; [reflexivity|]. exact Hin.
  - destruct (IH _ _ _ Hin) as (pre & info & post & -> & Hev).
    exists (i :: pre), info, post. split; [reflexivity|].
    cbv zeta in Hev |- *. cbn [SampleThreads].
    rewrite value_bind, final_bind. exact Hev.
Qed.

(** A sample of an iteration is a sample of its [SampleContext], entered in
    [sampling_state]. *)
Lemma SampleThread_tick_state lock info first (w : World) s :
  In (EvTick s) (events (SampleThread P cfg lock info first w)) ->
  eligible info = true /\
  In (EvTick s)
     (events (SampleContext P cfg lock info first
                (sampling_state P lock info w))).
Proof.
  intros Hin. destruct (eligible info) eqn:He.
  - split; [reflexivity|].
    pose proof (SampleThread_eligible P cfg lock info first w He) as H.
    cbv zeta in H. rewrite H in Hin. clear H. unfold sampling_state.
    destruct (fst (CanDuplicateLastSampleDueToSleep P info w)).
    + destruct (fst (DuplicateLastSample P (ThreadId info) (StartTime lock)
                  (snd (CanDuplicateLastSampleDueToSleep P info w)))).
      * unfold events in Hin; cbn [fst snd] in Hin.
        destruct Hin as [Hin|[Hin|[]]]; discriminate Hin.
      * unfold events at 1 in Hin; cbn [fst snd] in Hin.
        destruct Hin as [Hin|[Hin|[Hin|Hin]]]; try discriminate Hin.
        exact Hin.
    + unfold events at 1 in Hin; cbn [fst snd] in Hin.
      destruct Hin as [Hin|[Hin|Hin]]; try discriminate Hin.
      exact Hin.
  - rewrite (SampleThread_ineligible P cfg lock info first w He) in Hin.
    destruct Hin.
Qed.

(** The sample [SampleContext] records holds the context
    [GetThreadContext] has filled in, and its registers are read from it. *)
Lemma SampleContext_tick_read lock info first (w : World) s :
  In (EvTick s) (events (SampleContext P cfg lock info first w)) ->
  let got := context_read P cfg lock info first w in
  fst got = true /\
  context s = Some (snd got) /\
  registers s =
  if GP_ARCH_amd64 cfg
  then (Rip (snd got), Rsp (snd got), Rbp (snd got))
  else (Eip (snd got), Esp (snd got), Ebp (snd got)).
Proof.
  destruct (Z.eq_dec (GetThreadHandle (GetPlatformData info)) nullptr)
    as [E|E].
  - rewrite (SampleContext_no_handle P cfg lock info first w E).
    intros [].
  - pose proof (SampleContext_events P cfg lock info first w E) as H.
    cbv zeta in H. rewrite H. clear H. intros Hin got.
    unfold context_read in got.
    destruct Hin as [Hin|Hin]; [discriminate Hin|].
    apply in_app_or in Hin. destruct Hin as [Hin|Hin].
    + destruct (first && FeatureMemory lock);
        [destruct Hin as [Hin|[]]; discriminate Hin|destruct Hin].
    + destruct Hin as [Hin|Hin]; [discriminate Hin|].
      destruct (_ =? kSuspendFailed); [destruct Hin|].
      destruct Hin as [Hin|Hin]; [discriminate Hin|].
      fold got in Hin. destruct (fst got) eqn:Hok.
      * destruct Hin as [Hin|[Hin|[]]]; [|discriminate Hin].
        injection Hin as <-. split; [reflexivity|].
        destruct (GP_ARCH_amd64 cfg); split; reflexivity.
      * destruct Hin as [Hin|[]]. discriminate Hin.
Qed.

(** X6.  Every sample a run of the loop hands to [Tick] is taken in one of
    its passes, for a thread of the vector that pass has read under the
    lock: a registered thread.  The thread has a profile, is not pending
    deletion and has a handle; the [ussMemory] of the sample is 0; the
    context the sample holds is the one [GetThreadContext] has filled in,
    with success, in the iteration for that thread, and [pc], [sp], [fp] are
    [Rip], [Rsp], [Rbp] of that context when [GP_ARCH_amd64] is defined and
    [Eip], [Esp], [Ebp] otherwise. *)
Theorem recorded_samples_are_well_formed fuel self (w : World) s :
  In (EvTick s) (events (Run P cfg fuel self w)) ->
  exists w0 pre info post,
    let lock := gPS P (AutoLock P w0) in
    let before :=
      SampleThreads P cfg lock pre true
        (deleteExpiredStoredMarkers P (AutoLock P w0)) in
    let got :=
      context_read P cfg lock info (value before)
        (sampling_state P lock info (final before)) in
    In w0 (pass_starts P cfg fuel self w) /\
    Threads lock = pre ++ info :: post /\
    In info (Threads lock) /\
    threadInfo s = Some info /\
    eligible info = true /\
    GetThreadHandle (GetPlatformData info) <> nullptr /\
    ussMemory s = 0 /\
    fst got = true /\
    context s = Some (snd got) /\
    registers s =
    if GP_ARCH_amd64 cfg
    then (Rip (snd got), Rsp (snd got), Rbp (snd got))
    else (Eip (snd got), Esp (snd got), Ebp (snd got)).
Proof.
  intros Hin.
  destruct (Run_event_pass self fuel w _ Hin) as [Hs|(w0 & Hw & Hp)];
    [discriminate Hs|].
  apply Pass_tick in Hp. cbv zeta in Hp.
  destruct (SampleThreads_event_iteration _ _ _ _ _ Hp)
    as (pre & info & post & Hsplit & Hit).
  cbv zeta in Hit.
  destruct (SampleThread_tick_state _ _ _ _ _ Hit) as (He & Hsc).
  destruct (SampleContext_tick _ _ _ _ _ Hsc) as (_ & Hi & Hu & Hh & _).
  pose proof (SampleContext_tick_read _ _ _ _ _ Hsc) as Hr.
  cbv zeta in Hr. destruct Hr as (Hok & Hctx & Hreg).
  exists w0, pre, info, post. cbv zeta.
  split; [exact Hw|]. split; [exact Hsplit|].
  split; [rewrite Hsplit; apply in_elt|].
  split; [exact Hi|]. split; [exact He|]. split; [exact Hh|].
  split; [exact Hu|]. split; [exact Hok|]. split; [exact Hctx|exact Hreg].
Qed.

(** X7.  Every [GetThreadContext] of a run of the loop is made on a handle
    that is not null and asks for [CONTEXT_FULL] when [GP_ARCH_amd64] is
    defined, for [CONTEXT_CONTROL] otherwise. *)
Theorem context_is_read_with_the_build_flags
    fuel self (w : World) h flags ok :
  In (EvGetThreadContext h flags ok) (events (Run P cfg fuel self w)) ->
  flags = (if GP_ARCH_amd64 cfg then CONTEXT_FULL P else CONTEXT_CONTROL P) /\
  h <> nullptr.
Proof.
  intros Hin.
  pose proof (Run_Forall P cfg self
    (fun ev => match ev with
               | EvGetThreadContext h flags _ =>
                   flags = (if GP_ARCH_amd64 cfg then CONTEXT_FULL P
                            else CONTEXT_CONTROL P) /\
                   h <> nullptr
               | _ => True
               end) I I I I) as HF.
  cbv beta in HF.
  assert (HQ : forall lock info first (w : World),
    Forall (fun ev => match ev with
               | EvGetThreadContext h flags _ =>
                   flags = (if GP_ARCH_amd64 cfg then CONTEXT_FULL P
                            else CONTEXT_CONTROL P) /\
                   h <> nullptr
               | _ => True
               end)
           (events (SampleThread P cfg lock info first w))).
  { intros lock info first w1. apply Forall_forall. intros ev Hev.
    destruct ev; try exact I.
    destruct (SampleThread_sample_source lock info first w1 _ Hev eq_refl)
      as (_ & w' & Hsc).
    destruct (SampleContext_context_read lock info first w' _ _ _ Hsc)
      as (Hf & _ & Hh).
    auto. }
  specialize (HF HQ fuel w). rewrite Forall_forall in HF.
  exact (HF _ Hin).
Qed.

(** X15.  The timestamp of a sample is the time [SampleContext] reads in its
    first call, before it suspends the thread; the time is read once. *)
Theorem sample_timestamp_is_read_first lock info first (w : World) s :
  In (EvTick s) (events (SampleContext P cfg lock info first w)) ->
  timestamp s = fst (TimeStamp_Now P w) /\
  exists rest,
    events (SampleContext P cfg lock info first w) =
      EvNow (timestamp s) :: rest /\
    count (fun ev => match ev with EvNow _ => true | _ => false end) rest =
      0%nat.
Proof.
  intros Hin.
  destruct (SampleContext_tick lock info first w s Hin)
    as (Ht & _ & _ & Hh & _ & _).
  split; [exact Ht|].
  pose proof (SampleContext_events P cfg lock info first w Hh) as H.
  cbv zeta in H. rewrite H, Ht. eexists. split; [reflexivity|].
  destruct (first && FeatureMemory lock);
    match goal with
    | |- context [?x =? kSuspendFailed] => destruct (x =? kSuspendFailed)
    end;
    try match goal with
    | |- context [EvGetThreadContext _ _ ?b] => destruct b
    end;
    reflexivity.
Qed.

End RunSamples.

(** ** The constructor and the interval *)

Lemma round_interval_bounds x i :
  round_interval x = Some i -> 1 <= i <= INT_MAX.
Proof.
  unfold round_interval.
  destruct (double_to_int (floor (double_add x double_half))) as [t|] eqn:E;
    [|discriminate].
  cbn [option_map]. intros H. injection H as <-.
  assert (Ht : INT_MIN <= t <= INT_MAX).
  { unfold double_to_int in E.
    destruct (floor (double_add x double_half)) as [s|s| |s m e];
      try discriminate E.
    - injection E as <-. unfold INT_MIN, INT_MAX. simpl. lia.
    - match type of E with
      | (if ?c then _ else _) = _ => destruct c eqn:Hc; [|discriminate E]
      end.
      injection E as <-. apply andb_true_iff in Hc.
      destruct Hc as [H1 H2]. apply Z.leb_le in H1, H2. auto. }
  unfold INT_MAX in *. change (2 ^ 31) with 2147483648 in *. lia.
Qed.

Section Construction.
Context {World : Type}.
Variable P : Platform World.
Variable cfg : BuildConfig.


End Construction.

(** X9.  An interval argument that is an integer between 1 and [INT_MAX]
    is stored as it is. *)
Theorem integral_interval_is_stored_unchanged x N :
  valid_binary 53 1024 x = true ->
  double_is_integer x N ->
  1 <= N <= INT_MAX ->
  round_interval x = Some N.
Proof.
  intros Hv Hint HN.
  assert (Hf : is_finite x = true).
  { destruct x; try reflexivity; destruct Hint. }
  assert (Hr : round_half_up x = N).
  { destruct x as [s|s| |s m e]; try discriminate Hf.
    - unfold double_is_integer in Hint. lia.
    - unfold double_is_integer in Hint. unfold round_half_up.
      destruct (Z.leb_spec 0 e) as [E|E]; [congruence|].
      rewrite Hint.
      assert (HD : 0 < 2 ^ (- e)) by (apply Z.pow_pos_nonneg; lia).
      symmetry. apply Z.div_unique with (2 ^ (- e)); lia. }
  rewrite (round_interval_correct x Hv Hf)
    by (rewrite Hr; unfold INT_MIN; change (2 ^ 31) with 2147483648; lia).
  rewrite Hr. f_equal. lia.
Qed.

(** X10.  Zero and every negative interval argument whose rounding fits
    [int] are stored as 1. *)
Theorem nonpositive_interval_is_clamped_to_one x :
  valid_binary 53 1024 x = true ->
  double_nonpositive x = true ->
  INT_MIN <= round_half_up x ->
  round_interval x = Some 1.
Proof.
  intros Hv Hn Hmin.
  assert (Hf : is_finite x = true).
  { destruct x; try reflexivity; discriminate Hn. }
  assert (Hr : round_half_up x <= 0).
  { destruct x as [s|s| |s m e]; try discriminate Hf.
    - apply Z.le_refl.
    - cbn [double_nonpositive] in Hn. subst s. unfold round_half_up.
      cbn [cond_Zopp].
      destruct (Z.leb_spec 0 e) as [E|E].
      + assert (0 < 2 ^ e) by (apply Z.pow_pos_nonneg; lia). nia.
      + assert (HD : 0 < 2 ^ (- e)) by (apply Z.pow_pos_nonneg; lia).
        assert ((2 * - Zpos m + 2 ^ (- e)) / (2 * 2 ^ (- e)) < 1).
        { apply Z.div_lt_upper_bound; lia. }
        lia. }
  rewrite (round_interval_correct x Hv Hf)
    by (unfold INT_MAX; change (2 ^ 31) with 2147483648; lia).
  f_equal. lia.
Qed.

(** ** PopulateContext and PlatformData *)

Section Remaining.
Context {World : Type}.
Variable P : Platform World.
Variable cfg : BuildConfig.

(** X12.  [PopulateContext] captures the context once and stores it in the
    sample; it leaves the timestamp, the thread and the memory fields of the
    sample as they were, and on a build that is neither amd64 nor x86 it
    leaves [pc], [sp] and [fp] as they were too. *)
Theorem PopulateContext_changes_registers_only this aContext (w : World) :
  let r := PopulateContext P cfg this aContext w in
  events r = [EvRtlCaptureContext] /\
  context (value r) = Some (fst (RtlCaptureContext P aContext w)) /\
  final r = snd (RtlCaptureContext P aContext w) /\
  timestamp (value r) = timestamp this /\
  threadInfo (value r) = threadInfo this /\
  rssMemory (value r) = rssMemory this /\
  ussMemory (value r) = ussMemory this /\
  (GP_ARCH_amd64 cfg = false -> GP_ARCH_x86 cfg = false ->
   registers (value r) = registers this).
Proof.
  intros r. subst r. unfold PopulateContext, bind, call, ret.
  destruct (RtlCaptureContext P aContext w) as [c w1].
  destruct (GP_ARCH_amd64 cfg), (GP_ARCH_x86 cfg);
    unfold events, value, final; cbn [fst snd app];
    repeat split; try discriminate; reflexivity.
Qed.

Variable CloseHandle : HANDLE -> World -> World.

(** X14.  Allocating the [PlatformData] of a thread makes one [OpenThread]
    call and keeps the handle it returned; releasing that object closes
    this handle, once, when it is not null, and makes no call when it is
    null, that is when [OpenThread] failed. *)
Theorem PlatformData_release_is_paired tid (w w1 : World) :
  let h := fst (OpenThread P tid w) in
  let a := AllocPlatformData P tid w in
  let r := PlatformDataDestructor_call CloseHandle (value a) w1 in
  events a = [EvOpenThread tid h] /\
  GetThreadHandle (value a) = h /\
  fst r = (if h =? nullptr then [] else [EvCloseHandle h]) /\
  snd r = (if h =? nullptr then w1 else CloseHandle h w1).
Proof.
  intros h a r.
  assert (He : events a = [EvOpenThread tid h]).
  { unfold a, AllocPlatformData, PlatformData_new.
    rewrite events_bind, events_call. reflexivity. }
  assert (Hd : GetThreadHandle (value a) = h).
  { unfold a, AllocPlatformData, PlatformData_new.
    rewrite value_bind, value_call. reflexivity. }
  split; [exact He|]. split; [exact Hd|].
  unfold r, PlatformDataDestructor_call, PlatformData_delete.
  unfold GetThreadHandle, profiled_thread in Hd. rewrite Hd.
  destruct (h =? nullptr); cbn [negb fst snd]; split; reflexivity.
Qed.

End Remaining.

(** ** The further properties on concrete runs *)

(** Profiling is paused and the generation is unchanged. *)
Lemma paused_pass_touches_no_thread_witness :
  let P := paused_platform in
  ActivityGeneration (gPS P (AutoLock P 0%nat)) =
    mActivityGeneration test_sampler /\
  IsPaused (gPS P (AutoLock P 0%nat)) = true /\
  Pass P amd64 test_sampler 0%nat =
    (true, [EvLock; EvDeleteExpiredStoredMarkers; EvUnlock], 0%nat).
Proof.
  intros P.
  assert (Hg : ActivityGeneration (gPS P (AutoLock P 0%nat)) =
               mActivityGeneration test_sampler) by reflexivity.
  assert (Hp : IsPaused (gPS P (AutoLock P 0%nat)) = true) by reflexivity.
  split; [exact Hg|]. split; [exact Hp|].
  pose proof (paused_pass_touches_no_thread P amd64 1 test_sampler 0%nat)
    as H.
  cbv zeta in H. destruct (H Hg Hp) as [H1 _]. exact H1.
Defined.

(** Thread 4, the second of two registered threads, is sampled in the first
    pass of a run: the pass begins in state 0, and the context of the sample
    is the one [GetThreadContext] returns for handle 44. *)
Lemma recorded_samples_are_well_formed_witness :
  let P := test_platform [thread 1 11; thread 4 44] false in
  let lock := gPS P (AutoLock P 0%nat) in
  let got := context_read P amd64 lock (thread 4 44) false 0%nat in
  In (EvTick sample_44) (events (Run P amd64 3 test_sampler 0%nat)) /\
  Threads lock = [thread 1 11; thread 4 44] /\
  got = (true, set_ContextFlags 1048587 test_context) /\
  context sample_44 = Some (snd got) /\
  exists w0 pre info post,
    In w0 (pass_starts P amd64 3 test_sampler 0%nat) /\
    Threads (gPS P (AutoLock P w0)) = pre ++ info :: post /\
    threadInfo sample_44 = Some info /\
    registers sample_44 =
    (let before :=
       SampleThreads P amd64 (gPS P (AutoLock P w0)) pre true
         (deleteExpiredStoredMarkers P (AutoLock P w0)) in
     let got :=
       context_read P amd64 (gPS P (AutoLock P w0)) info (value before)
         (sampling_state P (gPS P (AutoLock P w0)) info (final before)) in
     (Rip (snd got), Rsp (snd got), Rbp (snd got))).
Proof.
  intros P lock got.
  assert (Hin : In (EvTick sample_44)
                   (events (Run P amd64 3 test_sampler 0%nat)))
    by (vm_compute; auto 20).
  split; [exact Hin|]. split; [reflexivity|]. split; [reflexivity|].
  split; [reflexivity|].
  destruct (recorded_samples_are_well_formed P amd64 3 test_sampler 0%nat
              sample_44 Hin)
    as (w0 & pre & info & post & H).
  cbv zeta in H.
  destruct H as (Hw & Hs & _ & Hi & _ & _ & _ & _ & _ & Hr).
  exists w0, pre, info, post.
  split; [exact Hw|]. split; [exact Hs|]. split; [exact Hi|exact Hr].
Defined.

(** The context of thread 4 is read with [CONTEXT_FULL] on amd64. *)
Lemma context_is_read_with_the_build_flags_witness :
  let P := test_platform [thread 4 44] false in
  In (EvGetThreadContext 44 1048587 true)
     (events (Run P amd64 3 test_sampler 0%nat)) /\
  1048587 = CONTEXT_FULL P /\ 44 <> nullptr.
Proof.
  intros P.
  assert (Hin : In (EvGetThreadContext 44 1048587 true)
                   (events (Run P amd64 3 test_sampler 0%nat)))
    by (vm_compute; auto 10).
  split; [exact Hin|].
  exact (context_is_read_with_the_build_flags P amd64 3 test_sampler 0%nat
           44 1048587 true Hin).
Defined.

(** The sample of thread 4 carries the time read at the start of the call. *)
Lemma sample_timestamp_is_read_first_witness :
  let P := test_platform [] false in
  let lock := test_ps [] false in
  In (EvTick sample_44)
     (events (SampleContext P amd64 lock (thread 4 44) false 0%nat)) /\
  timestamp sample_44 = fst (TimeStamp_Now P 0%nat).
Proof.
  intros P lock.
  assert (Hin : In (EvTick sample_44)
     (events (SampleContext P amd64 lock (thread 4 44) false 0%nat)))
    by (vm_compute; auto 6).
  split; [exact Hin|].
  destruct (sample_timestamp_is_read_first P amd64 lock (thread 4 44) false
              0%nat sample_44 Hin) as [Ht _].
  exact Ht.
Defined.


(** The argument [5.0] is the integer 5. *)
Lemma integral_interval_is_stored_unchanged_witness :
  valid_binary 53 1024 double_five = true /\
  double_is_integer double_five 5 /\
  1 <= 5 <= INT_MAX /\
  round_interval double_five = Some 5.
Proof.
  assert (Hv : valid_binary 53 1024 double_five = true) by reflexivity.
  assert (Hi : double_is_integer double_five 5) by reflexivity.
  assert (Hr : 1 <= 5 <= INT_MAX) by (vm_compute; split; discriminate).
  split; [exact Hv|]. split; [exact Hi|]. split; [exact Hr|].
  exact (integral_interval_is_stored_unchanged double_five 5 Hv Hi Hr).
Defined.

(** The argument [-4.5]. *)
Lemma nonpositive_interval_is_clamped_to_one_witness :
  valid_binary 53 1024 double_minus_4_5 = true /\
  double_nonpositive double_minus_4_5 = true /\
  INT_MIN <= round_half_up double_minus_4_5 /\
  round_interval double_minus_4_5 = Some 1.
Proof.
  assert (Hv : valid_binary 53 1024 double_minus_4_5 = true) by reflexivity.
  assert (Hn : double_nonpositive double_minus_4_5 = true) by reflexivity.
  assert (Hm : INT_MIN <= round_half_up double_minus_4_5)
    by (vm_compute; discriminate).
  split; [exact Hv|]. split; [exact Hn|]. split; [exact Hm|].
  exact (nonpositive_interval_is_clamped_to_one double_minus_4_5 Hv Hn Hm).
Defined.
